(** * SnapNForce: the value normalizer, the active-record reader and the
      reconciliation engine of [app/lib.py], with the selects of
      [app/operations/select.py] and the batch driver of [app/app.py].

    Python values are modelled as follows.  A [str] is a [string] whose
    characters are read as code points below 256; [None] is the [None] of
    an [option]; an exception is a [Raise] in [outcome]; the database
    session is an explicit store threaded through a state-and-exception
    monad, and a raised exception leaves the writes already made in the
    store. *)

From Stdlib Require Import List ZArith String Ascii Bool Arith Lia.
Import ListNotations.
Local Open Scope string_scope.
Local Open Scope bool_scope.

(* ===================================================================== *)
(** * Python strings and the fragment of [re] used by [app/lib.py]       *)
(* ===================================================================== *)

Module Py.

(** [str.isspace] on one character, for code points below 256:
    TAB..CR, FS..US, SPACE, NEL and NBSP.  [str.strip] and the class [\s]
    of [re] (on [str] patterns) use the same test. *)
Definition isspace (c : ascii) : bool :=
  let n := nat_of_ascii c in
  ((9 <=? n)%nat && (n <=? 13)%nat) || ((28 <=? n)%nat && (n <=? 32)%nat)
  || (n =? 133)%nat || (n =? 160)%nat.

(** [s.lstrip()] *)
Fixpoint lstrip (s : string) : string :=
  match s with
  | EmptyString => EmptyString
  | String c s' => if isspace c then lstrip s' else s
  end.

(** [s.rstrip()] *)
Fixpoint rstrip (s : string) : string :=
  match s with
  | EmptyString => EmptyString
  | String c s' =>
      match rstrip s' with
      | EmptyString => if isspace c then EmptyString else String c EmptyString
      | r => String c r
      end
  end.

(** [s.strip()] *)
Definition strip (s : string) : string := rstrip (lstrip s).

(** [sep.join(l)] *)
Fixpoint join (sep : string) (l : list string) : string :=
  match l with
  | [] => EmptyString
  | [x] => x
  | x :: rest => x ++ sep ++ join sep rest
  end.

(** The regular expressions that occur in the source: literals, the
    class [\s], concatenation, alternation, greedy [?] and greedy [+]. *)
Inductive regex : Type :=
| Eps
| Chr (c : ascii)
| Space
| Cat (r1 r2 : regex)
| Alt (r1 r2 : regex)
| Opt (r : regex)
| Plus (r : regex).

(** A literal word. *)
Fixpoint Lit (w : string) : regex :=
  match w with
  | EmptyString => Eps
  | String c w' => Cat (Chr c) (Lit w')
  end.

(** The iterations of a greedy [+]: one more iteration is tried first, and
    only after an iteration that consumed something. *)
Fixpoint plus_loop (m : string -> list string) (n : nat) (s : string)
  : list string :=
  match n with
  | O => []
  | S n' =>
      flat_map
        (fun s' =>
           ((if (length s' <? length s)%nat then plus_loop m n' s' else [])
              ++ [s'])%list)
        (m s)
  end.

(** Backtracking match of [r] at the head of [s]: the remainders of [s]
    after each way to match, in the order the backtracking engine tries
    them. *)
Fixpoint rmatch (r : regex) (s : string) : list string :=
  match r with
  | Eps => [s]
  | Chr c =>
      match s with
      | String c' s' => if Ascii.eqb c c' then [s'] else []
      | EmptyString => []
      end
  | Space =>
      match s with
      | String c' s' => if isspace c' then [s'] else []
      | EmptyString => []
      end
  | Cat r1 r2 => flat_map (rmatch r2) (rmatch r1 s)
  | Alt r1 r2 => (rmatch r1 s ++ rmatch r2 s)%list
  | Opt r1 => (rmatch r1 s ++ [s])%list
  | Plus r1 => plus_loop (rmatch r1) (S (length s)) s
  end.

(** The scan of [re.sub]: at each position the first match is replaced by
    [repl]; after an empty match the next match at the same position must
    be non-empty ([must_advance]); where nothing matches one character is
    copied. *)
Fixpoint sub_from (fuel : nat) (r : regex) (repl : string)
         (must_advance : bool) (s : string) : string :=
  match fuel with
  | O => s
  | S fuel' =>
      match find (fun s' => negb must_advance || (length s' <? length s)%nat)
                 (rmatch r s) with
      | Some s' =>
          repl ++ (if (length s' <? length s)%nat
                   then sub_from fuel' r repl false s'
                   else sub_from fuel' r repl true s)
      | None =>
          match s with
          | EmptyString => EmptyString
          | String c s1 => String c (sub_from fuel' r repl false s1)
          end
      end
  end.

(** [re.sub(pattern, repl, string)] with [repl] inserted as it is.  A
    [repl] with a backslash is a template that [re] compiles before it
    looks for a match, see [compile_repl] below; its expansion is not
    modelled, and no caller reaches one. *)
Definition re_sub (pattern : regex) (repl : string) (s : string) : string :=
  sub_from (2 * length s + 2) pattern repl false s.

End Py.

(* ===================================================================== *)
(** * Exceptions                                                          *)
(* ===================================================================== *)

Inductive exception : Type :=
| NoResultFound            (* sqlalchemy.exc *)
| MultipleResultsFound     (* sqlalchemy.exc, raised by [scalar_one] *)
| NotImplementedError
| RuntimeError
| AttributeError           (* attribute access on [None] *)
| HtmlParsingError         (* lib.parse.exceptions *)
| HTTPError                (* [response.raise_for_status()] *)
| ReError                  (* [re.error] *)
| IndexError.

(** The result of a call that may raise. *)
Inductive outcome (A : Type) : Type :=
| Return (a : A)
| Raise (e : exception).
Arguments Return {A} a.
Arguments Raise {A} e.

Definition obind {A B : Type} (c : outcome A) (k : A -> outcome B)
  : outcome B :=
  match c with
  | Return a => k a
  | Raise e => Raise e
  end.

Declare Scope outcome_scope.
Delimit Scope outcome_scope with outcome.
Notation "x <- c ;; k" := (obind c (fun x => k))
  (at level 61, c at next level, right associativity) : outcome_scope.

(* ===================================================================== *)
(** * [app.schemas]: the value objects                                    *)
(* ===================================================================== *)

Record Owner : Type := mkOwner {
  name : string;
  is_multi_entity : bool
}.

Record DeliveryAddressLine : Type := mkDeliveryAddressLine {
  is_pobox : bool;
  attn : option string;
  number : string;
  street : string;
  secondary : option string
}.

Record LastLine : Type := mkLastLine {
  city : string;
  state : string;
  zip : string
}.

Record Mailing : Type := mkMailing {
  delivery : DeliveryAddressLine;
  last : LastLine
}.

Record OwnerAndMailing : Type := mkOwnerAndMailing {
  owner : option Owner;
  mailing : option Mailing
}.

Record GeneralAndMortgage : Type := mkGeneralAndMortgage {
  gm_general : OwnerAndMailing;
  gm_mortgage : OwnerAndMailing
}.

(** Value equality of the schema objects ([==] of the source). *)
Definition option_eqb {A : Type} (eqb : A -> A -> bool) (x y : option A)
  : bool :=
  match x, y with
  | None, None => true
  | Some a, Some b => eqb a b
  | _, _ => false
  end.

Definition Owner_eqb (a b : Owner) : bool :=
  String.eqb (name a) (name b) && Bool.eqb (is_multi_entity a) (is_multi_entity b).

Definition DeliveryAddressLine_eqb (a b : DeliveryAddressLine) : bool :=
  Bool.eqb (is_pobox a) (is_pobox b)
  && option_eqb String.eqb (attn a) (attn b)
  && String.eqb (number a) (number b)
  && String.eqb (street a) (street b)
  && option_eqb String.eqb (secondary a) (secondary b).

Definition LastLine_eqb (a b : LastLine) : bool :=
  String.eqb (city a) (city b) && String.eqb (state a) (state b)
  && String.eqb (zip a) (zip b).

Definition Mailing_eqb (a b : Mailing) : bool :=
  DeliveryAddressLine_eqb (delivery a) (delivery b)
  && LastLine_eqb (last a) (last b).

(* ===================================================================== *)
(** * The value normalizer of [app/lib.py]                               *)
(* ===================================================================== *)

(** An element of a scraped cell: markup ([bs4.Tag]) or a text node
    ([bs4.NavigableString]). *)
Inductive PageElement : Type :=
| Tag (markup : string)
| NavigableString (text : string).

Definition is_NavigableString (tag : PageElement) : bool :=
  match tag with NavigableString _ => true | Tag _ => false end.

Definition str (tag : PageElement) : string :=
  match tag with NavigableString t => t | Tag m => m end.

(** [[str(tag) for tag in content if isinstance(tag, NavigableString)]] *)
Definition _clean_tags (content : list PageElement) : list string :=
  map str (filter is_NavigableString content).

(** [re.sub(r"\s+", " ", text)] *)
Definition _clean_whitespace (text : string) : string :=
  Py.re_sub (Py.Plus Py.Space) " " text.

Definition owner_from_raw (data : list PageElement) : Owner :=
  let owner_list := _clean_tags data in
  let is_multi_entity := false in
  let is_multi_entity :=
    if (1 <? List.length owner_list)%nat then true else is_multi_entity in
  let dirty_owner := Py.join " & " (map Py.strip owner_list) in
  let clean_owner := _clean_whitespace dirty_owner in
  let is_multi_entity :=
    if negb (String.eqb dirty_owner clean_owner) then true
    else is_multi_entity in
  {| name := clean_owner; is_multi_entity := is_multi_entity |}.

(** The compiler of replacement templates of [re].  [re.sub] takes a
    [repl] without backslash as it is; a [repl] with a backslash is
    compiled as a template first, whether or not the pattern matches, and
    the compilation raises [re.error] on a bad escape or an invalid group
    reference and [IndexError] on an unknown group name.  What it accepts
    depends on the version of the interpreter and is a parameter. *)
Class ReTemplate : Type := {
  compile_template : string -> outcome unit
}.

(** Character 92 is the backslash. *)
Definition has_backslash (s : string) : bool :=
  existsb (Ascii.eqb "092") (list_ascii_of_string s).

Definition compile_repl `{ReTemplate} (repl : string) : outcome unit :=
  if has_backslash repl then compile_template repl else Return tt.

(** The functions of [lib.parse] that [app/lib.py] calls.  They are not
    part of [app/]; each may raise. *)
Class ParseLayer : Type := {
  general_html_content : string -> outcome (list PageElement * list PageElement);
  mortgage_html_content : string -> outcome (list PageElement * list PageElement);
  mortgage_delivery_address_line : string -> outcome DeliveryAddressLine;
  mortgage_last_line : string -> string -> outcome LastLine;
  general_delivery_address_line : string -> outcome DeliveryAddressLine;
  general_city_state_zip : string -> outcome LastLine
}.

(** [address_list[i]], used under a guard on the length. *)
Definition item (l : list string) (i : nat) : string := nth i l EmptyString.

Definition mailing_from_raw_tax `{ParseLayer} (data : list PageElement)
  : outcome (option Mailing) :=
  let address_list := _clean_tags data in
  if (List.length address_list =? 3)%nat then
    (delivery_line <- mortgage_delivery_address_line (item address_list 0) ;;
     last_line <- mortgage_last_line (item address_list 1) (item address_list 2) ;;
     Return (Some {| delivery := delivery_line; last := last_line |}))%outcome
  else if (List.length address_list =? 0)%nat then Return None
  else Raise NotImplementedError.

(** [r"ATT(N|ENTION):?\s+"] *)
Definition ATT_pattern : Py.regex :=
  Py.Cat (Py.Lit "ATT")
    (Py.Cat (Py.Alt (Py.Lit "N") (Py.Lit "ENTION"))
       (Py.Cat (Py.Opt (Py.Chr ":")) (Py.Plus Py.Space))).

(** [delivery_line.attn = v] *)
Definition set_attn (d : DeliveryAddressLine) (v : option string)
  : DeliveryAddressLine :=
  {| is_pobox := is_pobox d; attn := v; number := number d;
     street := street d; secondary := secondary d |}.

Definition mailing_from_raw_general `{ParseLayer} `{ReTemplate}
           (data : list PageElement)
  : outcome (option Mailing) :=
  let address_list := _clean_tags data in
  if (List.length address_list =? 2)%nat then
    (delivery_line <- general_delivery_address_line (item address_list 0) ;;
     last_line <- general_city_state_zip (item address_list 1) ;;
     Return (Some {| delivery := delivery_line; last := last_line |}))%outcome
  else if (List.length address_list =? 3)%nat then
    (delivery_line <- general_delivery_address_line (item address_list 1) ;;
     (* re.sub(pattern, repl, string): the fragment is passed as [repl]
        and the empty string as the string to search. *)
     _ <- compile_repl (item address_list 0) ;;
     let delivery_line :=
       set_attn delivery_line
         (Some (Py.re_sub ATT_pattern (item address_list 0) "")) in
     last_line <- general_city_state_zip (item address_list 2) ;;
     Return (Some {| delivery := delivery_line; last := last_line |}))%outcome
  else if (List.length address_list =? 0)%nat then Return None
  else Raise RuntimeError.

(* ===================================================================== *)
(** * [app.orm]: the rows of the store                                    *)
(* ===================================================================== *)

(** The row classes are not among the sources; each record has the columns
    that [app/lib.py] and [app/operations/select.py] read, with the types
    of the arguments they are compared to.  [deactivatedts] is [None] on an
    active row. *)

Module Parcel.
Record t : Type := mk {
  parcelkey : Z;
  parcelidcnty : string;
  muni_municode : Z;
  deactivatedts : option Z
}.
End Parcel.

Module Human.
Record t : Type := mk {
  humanid : Z;
  name : string;
  multihuman : bool;
  deactivatedts : option Z
}.
End Human.

Module MailingCityStateZip.
Record t : Type := mk {
  id : Z;
  city : string;
  state_abbr : string;
  zip_code : string;
  deactivatedts : option Z
}.
End MailingCityStateZip.

Module MailingStreet.
Record t : Type := mk {
  streetid : Z;
  citystatezip_cszipid : Z;
  name : string;
  pobox : bool;
  deactivatedts : option Z
}.
End MailingStreet.

Module MailingAddress.
Record t : Type := mk {
  addressid : Z;
  street_streetid : Z;
  bldgno : string;
  attention : option string;
  secondary : option string;
  deactivatedts : option Z
}.
End MailingAddress.

Module ParcelMailingAddress.
Record t : Type := mk {
  linkid : Z;
  parcel_parcelkey : Z;
  mailingaddress_addressid : Z;
  linkedobjectrole_lorid : Z;
  deactivatedts : option Z
}.
End ParcelMailingAddress.

(** The engine links a human to an address with ids that may be [None],
    so the two foreign keys are nullable. *)
Module HumanMailingAddress.
Record t : Type := mk {
  linkid : Z;
  humanmailing_humanid : option Z;
  humanmailing_addressid : option Z;
  linkedobjectrole_lorid : Z;
  deactivatedts : option Z
}.
End HumanMailingAddress.

Module HumanParcel.
Record t : Type := mk {
  linkid : Z;
  human_humanid : Z;
  parcel_parcelkey : Z;
  linkedobjectrole_lorid : Z;
  deactivatedts : option Z
}.
End HumanParcel.

(** [column == None] of the selects. *)
Definition is_None {A : Type} (x : option A) : bool :=
  match x with None => true | Some _ => false end.

(** The calls made to [app.operations.ensure], [deactivate] and [link],
    with their arguments. *)
Inductive operation : Type :=
| ensure_city_state_zip (city state zip_ : string)
| ensure_street (city_state_zip_id : Z) (street_name : string) (is_pobox : bool)
| ensure_address (street_id : Z) (number : string) (attn secondary : option string)
| ensure_human (name : string) (is_multi_entity : bool)
| deactivate_parcel_to_address (id : Z)
| deactivate_human_to_address (id : Z)
| deactivate_address (id : Z)
| deactivate_human_to_parcel (id : Z)
| deactivate_human (id : Z)
| link_parcel_to_address (parcelkey address_id role : Z)
| link_human_to_parcel (parcelkey humanid role : Z)
| link_human_to_address (human_id address_id : option Z) (role : Z).

(** The store behind the session [db]: one list of rows per table, in
    the order the store returns them, the time stamped on a retired row,
    and the journal of the calls made to the write operations. *)
Record Store : Type := mkStore {
  parcels : list Parcel.t;
  humans : list Human.t;
  city_state_zips : list MailingCityStateZip.t;
  streets : list MailingStreet.t;
  addresses : list MailingAddress.t;
  parcel_addresses : list ParcelMailingAddress.t;
  human_addresses : list HumanMailingAddress.t;
  human_parcels : list HumanParcel.t;
  now : Z;
  journal : list operation
}.

Definition set_humans (db : Store) (v : list Human.t) : Store :=
  mkStore (parcels db) v (city_state_zips db) (streets db) (addresses db)
    (parcel_addresses db) (human_addresses db) (human_parcels db) (now db)
    (journal db).

Definition set_city_state_zips (db : Store) (v : list MailingCityStateZip.t)
  : Store :=
  mkStore (parcels db) (humans db) v (streets db) (addresses db)
    (parcel_addresses db) (human_addresses db) (human_parcels db) (now db)
    (journal db).

Definition set_streets (db : Store) (v : list MailingStreet.t) : Store :=
  mkStore (parcels db) (humans db) (city_state_zips db) v (addresses db)
    (parcel_addresses db) (human_addresses db) (human_parcels db) (now db)
    (journal db).

Definition set_addresses (db : Store) (v : list MailingAddress.t) : Store :=
  mkStore (parcels db) (humans db) (city_state_zips db) (streets db) v
    (parcel_addresses db) (human_addresses db) (human_parcels db) (now db)
    (journal db).

Definition set_parcel_addresses (db : Store)
           (v : list ParcelMailingAddress.t) : Store :=
  mkStore (parcels db) (humans db) (city_state_zips db) (streets db)
    (addresses db) v (human_addresses db) (human_parcels db) (now db)
    (journal db).

Definition set_human_addresses (db : Store)
           (v : list HumanMailingAddress.t) : Store :=
  mkStore (parcels db) (humans db) (city_state_zips db) (streets db)
    (addresses db) (parcel_addresses db) v (human_parcels db) (now db)
    (journal db).

Definition set_human_parcels (db : Store) (v : list HumanParcel.t) : Store :=
  mkStore (parcels db) (humans db) (city_state_zips db) (streets db)
    (addresses db) (parcel_addresses db) (human_addresses db) v (now db)
    (journal db).

Definition log (db : Store) (o : operation) : Store :=
  mkStore (parcels db) (humans db) (city_state_zips db) (streets db)
    (addresses db) (parcel_addresses db) (human_addresses db)
    (human_parcels db) (now db) (journal db ++ [o])%list.

(** [session.execute(statement).scalar_one()] on the rows selected. *)
Definition scalar_one {A : Type} (rows : list A) : outcome A :=
  match rows with
  | [] => Raise NoResultFound
  | [r] => Return r
  | _ :: _ :: _ => Raise MultipleResultsFound
  end.

(* ===================================================================== *)
(** * [app/operations/select.py]                                          *)
(* ===================================================================== *)

Module select.

Definition parcel (session : Store) (county_parcel_id : string)
  : outcome Parcel.t :=
  scalar_one
    (filter (fun r => String.eqb (Parcel.parcelidcnty r) county_parcel_id
                      && is_None (Parcel.deactivatedts r))
            (parcels session)).

Definition parcel_mailing_addresses (session : Store) (parcel_key : Z)
  : list ParcelMailingAddress.t :=
  filter (fun r => Z.eqb (ParcelMailingAddress.parcel_parcelkey r) parcel_key
                   && is_None (ParcelMailingAddress.deactivatedts r))
         (parcel_addresses session).

Definition address (session : Store) (address_id : Z)
  : outcome MailingAddress.t :=
  scalar_one
    (filter (fun r => Z.eqb (MailingAddress.addressid r) address_id
                      && is_None (MailingAddress.deactivatedts r))
            (addresses session)).

Definition street (session : Store) (street_id : Z)
  : outcome MailingStreet.t :=
  scalar_one
    (filter (fun r => Z.eqb (MailingStreet.streetid r) street_id
                      && is_None (MailingStreet.deactivatedts r))
            (streets session)).

Definition city_state_zip (session : Store) (city_state_zip_id : Z)
  : outcome MailingCityStateZip.t :=
  scalar_one
    (filter (fun r => Z.eqb (MailingCityStateZip.id r) city_state_zip_id
                      && is_None (MailingCityStateZip.deactivatedts r))
            (city_state_zips session)).

Definition human_mailing_address (session : Store) (address_id : Z)
  : outcome HumanMailingAddress.t :=
  scalar_one
    (filter (fun r => option_eqb Z.eqb
                        (HumanMailingAddress.humanmailing_addressid r)
                        (Some address_id)
                      && is_None (HumanMailingAddress.deactivatedts r))
            (human_addresses session)).

(** [human_id] comes from a nullable column; a key is never null, so
    [None] selects no row. *)
Definition human (session : Store) (human_id : option Z) : outcome Human.t :=
  scalar_one
    (filter (fun r => option_eqb Z.eqb (Some (Human.humanid r)) human_id
                      && is_None (Human.deactivatedts r))
            (humans session)).

Definition parcel_mailing_address (session : Store) (parcel_key : Z)
           (mailing_address_id : Z) : outcome ParcelMailingAddress.t :=
  scalar_one
    (filter (fun r => Z.eqb (ParcelMailingAddress.parcel_parcelkey r) parcel_key
                      && Z.eqb (ParcelMailingAddress.mailingaddress_addressid r)
                               mailing_address_id
                      && is_None (ParcelMailingAddress.deactivatedts r))
            (parcel_addresses session)).

(** [column == value] on a nullable column: [None] selects the rows where
    the column is null. *)
Definition _address (session : Store) (street_id : Z) (number : string)
           (attn secondary : option string) : outcome MailingAddress.t :=
  scalar_one
    (filter (fun r => Z.eqb (MailingAddress.street_streetid r) street_id
                      && String.eqb (MailingAddress.bldgno r) number
                      && option_eqb String.eqb (MailingAddress.attention r) attn
                      && option_eqb String.eqb (MailingAddress.secondary r)
                           secondary
                      && is_None (MailingAddress.deactivatedts r))
            (addresses session)).

Definition _street (session : Store) (city_state_zip_id : Z)
           (street_name : string) (is_pobox : bool) : outcome MailingStreet.t :=
  scalar_one
    (filter (fun r => Z.eqb (MailingStreet.citystatezip_cszipid r)
                            city_state_zip_id
                      && String.eqb (MailingStreet.name r) street_name
                      && Bool.eqb (MailingStreet.pobox r) is_pobox
                      && is_None (MailingStreet.deactivatedts r))
            (streets session)).

Definition _city_state_zip (session : Store) (city state zip_ : string)
  : outcome MailingCityStateZip.t :=
  scalar_one
    (filter (fun r => String.eqb (MailingCityStateZip.city r) city
                      && String.eqb (MailingCityStateZip.state_abbr r) state
                      && String.eqb (MailingCityStateZip.zip_code r) zip_
                      && is_None (MailingCityStateZip.deactivatedts r))
            (city_state_zips session)).

Definition _human (session : Store) (name : string) (is_multi_entity : bool)
  : outcome Human.t :=
  scalar_one
    (filter (fun r => String.eqb (Human.name r) name
                      && Bool.eqb (Human.multihuman r) is_multi_entity
                      && is_None (Human.deactivatedts r))
            (humans session)).

(** No test on [deactivatedts] here. *)
Definition parcels_by_municode (session : Store) (municode : Z)
  : list Parcel.t :=
  filter (fun r => Z.eqb (Parcel.muni_municode r) municode)
         (parcels session).

End select.

(* ===================================================================== *)
(** * Programs on the store                                               *)
(* ===================================================================== *)

(** A call on the session: it returns or raises, and leaves a store. *)
Definition M (A : Type) : Type := Store -> outcome A * Store.

Definition ret {A : Type} (a : A) : M A := fun db => (Return a, db).

Definition raise {A : Type} (e : exception) : M A := fun db => (Raise e, db).

Definition bind {A B : Type} (c : M A) (k : A -> M B) : M B :=
  fun db =>
    match c db with
    | (Return a, db') => k a db'
    | (Raise e, db') => (Raise e, db')
    end.

(** A pure call that may raise. *)
Definition lift {A : Type} (c : outcome A) : M A := fun db => (c, db).

(** A call that only reads the session. *)
Definition read {A : Type} (f : Store -> outcome A) : M A :=
  fun db => (f db, db).

(** [x.attribute] where [x] may be [None]. *)
Definition attr {A : Type} (x : option A) : M A :=
  match x with
  | Some a => ret a
  | None => raise AttributeError
  end.

(** [if x: body(x)] on a row or [None]. *)
Definition when_some {A : Type} (x : option A) (body : A -> M unit) : M unit :=
  match x with
  | Some a => body a
  | None => ret tt
  end.

Declare Scope program_scope.
Delimit Scope program_scope with program.
Notation "x <- c ;; k" := (bind c (fun x => k))
  (at level 61, c at next level, right associativity) : program_scope.
Notation "c ;; k" := (bind c (fun _ => k))
  (at level 61, right associativity) : program_scope.

(** The next value of a key column. *)
Definition next_id (ids : list Z) : Z := (1 + fold_right Z.max 0 ids)%Z.

(* ===================================================================== *)
(** * [app.operations.ensure], [deactivate] and [link]                    *)
(* ===================================================================== *)

Module ensure.

(** Modelled from the spec: [app/operations/ensure.py] is not among the
    sources.  An ensure returns the existing active row with the given
    attributes or creates one, and never changes an existing row. *)
Definition city_state_zip (city state zip_ : string)
  : M MailingCityStateZip.t :=
  fun db =>
    let found :=
      find (fun r => String.eqb (MailingCityStateZip.city r) city
                     && String.eqb (MailingCityStateZip.state_abbr r) state
                     && String.eqb (MailingCityStateZip.zip_code r) zip_
                     && is_None (MailingCityStateZip.deactivatedts r))
           (city_state_zips db) in
    let created :=
      MailingCityStateZip.mk
        (next_id (map MailingCityStateZip.id (city_state_zips db)))
        city state zip_ None in
    (Return (match found with Some r => r | None => created end),
     log (set_city_state_zips db
            (match found with
             | Some _ => city_state_zips db
             | None => city_state_zips db ++ [created]
             end)%list)
         (ensure_city_state_zip city state zip_)).

(** Modelled from the spec: as [ensure.city_state_zip], for a street of
    one city/state/zip row. *)
Definition street (city_state_zip_id : Z) (street_name : string)
           (is_pobox : bool) : M MailingStreet.t :=
  fun db =>
    let found :=
      find (fun r => Z.eqb (MailingStreet.citystatezip_cszipid r) city_state_zip_id
                     && String.eqb (MailingStreet.name r) street_name
                     && Bool.eqb (MailingStreet.pobox r) is_pobox
                     && is_None (MailingStreet.deactivatedts r))
           (streets db) in
    let created :=
      MailingStreet.mk (next_id (map MailingStreet.streetid (streets db)))
        city_state_zip_id street_name is_pobox None in
    (Return (match found with Some r => r | None => created end),
     log (set_streets db
            (match found with
             | Some _ => streets db
             | None => streets db ++ [created]
             end)%list)
         (ensure_street city_state_zip_id street_name is_pobox)).

(** Modelled from the spec: as [ensure.city_state_zip], for an address on
    one street row. *)
Definition address (street_id : Z) (number : string)
           (attn secondary : option string) : M MailingAddress.t :=
  fun db =>
    let found :=
      find (fun r => Z.eqb (MailingAddress.street_streetid r) street_id
                     && String.eqb (MailingAddress.bldgno r) number
                     && option_eqb String.eqb (MailingAddress.attention r) attn
                     && option_eqb String.eqb (MailingAddress.secondary r) secondary
                     && is_None (MailingAddress.deactivatedts r))
           (addresses db) in
    let created :=
      MailingAddress.mk (next_id (map MailingAddress.addressid (addresses db)))
        street_id number attn secondary None in
    (Return (match found with Some r => r | None => created end),
     log (set_addresses db
            (match found with
             | Some _ => addresses db
             | None => addresses db ++ [created]
             end)%list)
         (ensure_address street_id number attn secondary)).

(** Modelled from the spec: as [ensure.city_state_zip], for a human. *)
Definition human (name : string) (is_multi_entity : bool) : M Human.t :=
  fun db =>
    let found :=
      find (fun r => String.eqb (Human.name r) name
                     && Bool.eqb (Human.multihuman r) is_multi_entity
                     && is_None (Human.deactivatedts r))
           (humans db) in
    let created :=
      Human.mk (next_id (map Human.humanid (humans db)))
        name is_multi_entity None in
    (Return (match found with Some r => r | None => created end),
     log (set_humans db
            (match found with
             | Some _ => humans db
             | None => humans db ++ [created]
             end)%list)
         (ensure_human name is_multi_entity)).

End ensure.

Module deactivate.

(** Modelled from the spec: [app/operations/deactivate.py] is not among
    the sources.  A deactivation marks the row with the given key as
    retired and deletes nothing. *)
Definition parcel_to_address (id : Z) : M unit :=
  fun db =>
    (Return tt,
     log (set_parcel_addresses db
            (map (fun r =>
                    if Z.eqb (ParcelMailingAddress.linkid r) id
                    then ParcelMailingAddress.mk
                           (ParcelMailingAddress.linkid r)
                           (ParcelMailingAddress.parcel_parcelkey r)
                           (ParcelMailingAddress.mailingaddress_addressid r)
                           (ParcelMailingAddress.linkedobjectrole_lorid r)
                           (Some (now db))
                    else r)
                 (parcel_addresses db)))
         (deactivate_parcel_to_address id)).

(** Modelled from the spec: as [deactivate.parcel_to_address]. *)
Definition human_to_address (id : Z) : M unit :=
  fun db =>
    (Return tt,
     log (set_human_addresses db
            (map (fun r =>
                    if Z.eqb (HumanMailingAddress.linkid r) id
                    then HumanMailingAddress.mk
                           (HumanMailingAddress.linkid r)
                           (HumanMailingAddress.humanmailing_humanid r)
                           (HumanMailingAddress.humanmailing_addressid r)
                           (HumanMailingAddress.linkedobjectrole_lorid r)
                           (Some (now db))
                    else r)
                 (human_addresses db)))
         (deactivate_human_to_address id)).

(** Modelled from the spec: as [deactivate.parcel_to_address]. *)
Definition address (id : Z) : M unit :=
  fun db =>
    (Return tt,
     log (set_addresses db
            (map (fun r =>
                    if Z.eqb (MailingAddress.addressid r) id
                    then MailingAddress.mk
                           (MailingAddress.addressid r)
                           (MailingAddress.street_streetid r)
                           (MailingAddress.bldgno r)
                           (MailingAddress.attention r)
                           (MailingAddress.secondary r)
                           (Some (now db))
                    else r)
                 (addresses db)))
         (deactivate_address id)).

(** Modelled from the spec: as [deactivate.parcel_to_address]. *)
Definition human_to_parcel (id : Z) : M unit :=
  fun db =>
    (Return tt,
     log (set_human_parcels db
            (map (fun r =>
                    if Z.eqb (HumanParcel.linkid r) id
                    then HumanParcel.mk
                           (HumanParcel.linkid r)
                           (HumanParcel.human_humanid r)
                           (HumanParcel.parcel_parcelkey r)
                           (HumanParcel.linkedobjectrole_lorid r)
                           (Some (now db))
                    else r)
                 (human_parcels db)))
         (deactivate_human_to_parcel id)).

(** Modelled from the spec: as [deactivate.parcel_to_address]. *)
Definition human (id : Z) : M unit :=
  fun db =>
    (Return tt,
     log (set_humans db
            (map (fun r =>
                    if Z.eqb (Human.humanid r) id
                    then Human.mk (Human.humanid r) (Human.name r)
                           (Human.multihuman r) (Some (now db))
                    else r)
                 (humans db)))
         (deactivate_human id)).

End deactivate.

Module link.

(** Modelled from the spec: [app/operations/link.py] is not among the
    sources.  A link creates a new active association row under the given
    role. *)
Definition parcel_to_address (parcelkey address_id role : Z) : M unit :=
  fun db =>
    (Return tt,
     log (set_parcel_addresses db
            (parcel_addresses db ++
             [ParcelMailingAddress.mk
                (next_id (map ParcelMailingAddress.linkid (parcel_addresses db)))
                parcelkey address_id role None])%list)
         (link_parcel_to_address parcelkey address_id role)).

(** Modelled from the spec: as [link.parcel_to_address]. *)
Definition human_to_parcel (parcelkey humanid role : Z) : M unit :=
  fun db =>
    (Return tt,
     log (set_human_parcels db
            (human_parcels db ++
             [HumanParcel.mk
                (next_id (map HumanParcel.linkid (human_parcels db)))
                humanid parcelkey role None])%list)
         (link_human_to_parcel parcelkey humanid role)).

(** Modelled from the spec: as [link.parcel_to_address]; either id may be
    [None], as the engine passes them. *)
Definition human_to_address (human_id address_id : option Z) (role : Z)
  : M unit :=
  fun db =>
    (Return tt,
     log (set_human_addresses db
            (human_addresses db ++
             [HumanMailingAddress.mk
                (next_id (map HumanMailingAddress.linkid (human_addresses db)))
                human_id address_id role None])%list)
         (link_human_to_address human_id address_id role)).

End link.

(* ===================================================================== *)
(** * The active chain and the role constants                            *)
(* ===================================================================== *)

(** [schemas.CogTables]: the rows of one active chain, each optional.
    The class is not among the sources.  The engine hands [human_parcel]
    to [deactivate.human_to_parcel] as the [id], so the field holds a key;
    the other fields hold rows. *)
Module CogTables.
Record t : Type := mk {
  parcel : option Parcel.t;
  address : option MailingAddress.t;
  parcel_address : option ParcelMailingAddress.t;
  street : option MailingStreet.t;
  city_state_zip : option MailingCityStateZip.t;
  human : option Human.t;
  human_address : option HumanMailingAddress.t;
  human_parcel : option Z
}.

(** [schemas.CogTables()] *)
Definition empty : t := mk None None None None None None None None.

(** [tables.parcel = v] *)
Definition set_parcel (tables : t) (v : option Parcel.t) : t :=
  mk v (address tables) (parcel_address tables) (street tables)
     (city_state_zip tables) (human tables) (human_address tables)
     (human_parcel tables).

(** Modelled from the spec: the property [has_address_tables] of
    [schemas.CogTables] is not among the sources.  The projection of the
    chain has a mailing unless the address sub-chain is absent: the
    address, its street and its city/state/zip are all there. *)
Definition has_address_tables (tables : t) : bool :=
  negb (is_None (address tables)) && negb (is_None (street tables))
  && negb (is_None (city_state_zip tables)).
End CogTables.

Record CogGeneralAndMortgage : Type := mkCogGeneralAndMortgage {
  general : option CogTables.t;
  mortgage : option CogTables.t
}.

(** [app.constants.LinkedObjectRole]: the module is not among the
    sources, so its four values are parameters. *)
Class LinkedObjectRole : Type := {
  GENERAL_HUMAN_MAILING_ADDRESS : Z;
  MORTGAGE_HUMAN_MAILING_ADDRESS : Z;
  general_roles : Z * Z;
  mortgage_roles : Z * Z
}.

(** Truth value of an optional key: [None] and [0] are false. *)
Definition truthy_key (x : option Z) : option Z :=
  match x with
  | Some n => if Z.eqb n 0 then None else Some n
  | None => None
  end.

(* ===================================================================== *)
(** * The active-record reader of [app/lib.py]                            *)
(* ===================================================================== *)

(** [x.attribute] in an expression without effect, where [x] may be
    [None]. *)
Definition attribute {A : Type} (x : option A) : outcome A :=
  match x with
  | Some a => Return a
  | None => Raise AttributeError
  end.

Fixpoint _match_number (num_to_match : Z)
         (owners_and_mailings : list CogTables.t)
  : outcome (option CogTables.t) :=
  match owners_and_mailings with
  | [] => Return None
  | x :: rest =>
      (parcel_address <- attribute (CogTables.parcel_address x) ;;
       if Z.eqb (ParcelMailingAddress.linkedobjectrole_lorid parcel_address)
                num_to_match
       then Return (Some x)
       else _match_number num_to_match rest)%outcome
  end.

Definition _match_general `{LinkedObjectRole} :=
  _match_number GENERAL_HUMAN_MAILING_ADDRESS.

Definition _match_mortgage `{LinkedObjectRole} :=
  _match_number MORTGAGE_HUMAN_MAILING_ADDRESS.

(** The body of the loop of [get_cog_tables] for one active link of the
    parcel. *)
Definition chain_of_link (db : Store) (parcel_address : ParcelMailingAddress.t)
  : outcome CogTables.t :=
  (address <- select.address db
                (ParcelMailingAddress.mailingaddress_addressid parcel_address) ;;
   street <- select.street db (MailingAddress.street_streetid address) ;;
   city_state_zip <- select.city_state_zip db
                       (MailingStreet.citystatezip_cszipid street) ;;
   human_address_and_human <-
     match (human_address <- select.human_mailing_address db
                               (MailingAddress.addressid address) ;;
            human <- select.human db
                       (HumanMailingAddress.humanmailing_humanid human_address) ;;
            Return (Some human_address, Some human)) with
     | Return found => Return found
     | Raise NoResultFound => Return (None, None)
     | Raise e => Raise e
     end ;;
   Return (CogTables.mk None (Some address) (Some parcel_address)
             (Some street) (Some city_state_zip)
             (snd human_address_and_human) (fst human_address_and_human)
             None))%outcome.

(** The loop of [get_cog_tables]: it stops at the first exception. *)
Fixpoint all_chains (db : Store) (parcel_addresses : list ParcelMailingAddress.t)
  : outcome (list CogTables.t) :=
  match parcel_addresses with
  | [] => Return []
  | parcel_address :: rest =>
      (tables <- chain_of_link db parcel_address ;;
       all_addresses <- all_chains db rest ;;
       Return (tables :: all_addresses))%outcome
  end.

(** [x or schemas.CogTables()] *)
Definition or_empty (x : option CogTables.t) : CogTables.t :=
  match x with Some tables => tables | None => CogTables.empty end.

(** [select.parcel] returns a row or raises, so the test
    [if parcel is None] of the source never succeeds. *)
Definition get_cog_tables `{LinkedObjectRole} (db : Store) (parcel_id : string)
  : outcome CogGeneralAndMortgage :=
  (parcel <- select.parcel db parcel_id ;;
   let parcel_addresses :=
     select.parcel_mailing_addresses db (Parcel.parcelkey parcel) in
   all_addresses <- all_chains db parcel_addresses ;;
   general_match <- _match_general all_addresses ;;
   let general := or_empty general_match in
   mortgage_match <- _match_mortgage all_addresses ;;
   let mortgage := or_empty mortgage_match in
   Return {| general := Some (CogTables.set_parcel general (Some parcel));
             mortgage := Some (CogTables.set_parcel mortgage (Some parcel)) |}
  )%outcome.

(* ===================================================================== *)
(** * The reconciliation engine of [app/lib.py]                           *)
(* ===================================================================== *)

(** The schema of [schemas.Mailing] is not among the sources; the keywords
    [delivery_line] and [last_line] used here by the source are taken to
    name the fields [delivery] and [last] that the rest of the file uses. *)
Definition _cog_tables_to_owner_and_mailing (t : option CogTables.t)
  : OwnerAndMailing :=
  let owner :=
    match t with
    | None => None
    | Some t =>
        match CogTables.human t with
        | None => None
        | Some human =>
            Some {| name := Human.name human;
                    is_multi_entity := Human.multihuman human |}
        end
    end in
  let mailing :=
    match t with
    | None => None
    | Some t =>
        if negb (CogTables.has_address_tables t) then None
        else
          match CogTables.address t, CogTables.street t,
                CogTables.city_state_zip t with
          | Some address, Some street_, Some city_state_zip =>
              Some {| delivery :=
                        {| is_pobox := MailingStreet.pobox street_;
                           attn := MailingAddress.attention address;
                           number := MailingAddress.bldgno address;
                           street := MailingStreet.name street_;
                           secondary := MailingAddress.secondary address |};
                      last :=
                        {| city := MailingCityStateZip.city city_state_zip;
                           state := MailingCityStateZip.state_abbr city_state_zip;
                           zip := MailingCityStateZip.zip_code city_state_zip |} |}
          | _, _, _ => None
          end
    end in
  {| owner := owner; mailing := mailing |}.

(** [cog_tables and cog_tables.address and cog_tables.address.addressid] *)
Definition current_address_id (cog_tables : option CogTables.t) : option Z :=
  match cog_tables with
  | None => None
  | Some t =>
      match CogTables.address t with
      | None => None
      | Some a => Some (MailingAddress.addressid a)
      end
  end.

(** [cog_tables and cog_tables.human and cog_tables.human.humanid] *)
Definition current_human_id (cog_tables : option CogTables.t) : option Z :=
  match cog_tables with
  | None => None
  | Some t =>
      match CogTables.human t with
      | None => None
      | Some h => Some (Human.humanid h)
      end
  end.

Definition _sync_owner_and_mailing
           (county_data : OwnerAndMailing)
           (cog_tables : option CogTables.t)
           (address_and_human_roles : Z * Z) : M OwnerAndMailing :=
  let address_role := fst address_and_human_roles in
  let addressee_role := snd address_and_human_roles in
  let cog_data := _cog_tables_to_owner_and_mailing cog_tables in
  let address_id := current_address_id cog_tables in
  let returned_address := mailing county_data in
  let same_address :=
    option_eqb Mailing_eqb (mailing county_data) (mailing cog_data) in
  (address_side <-
     (if negb same_address then
        match cog_tables with
        | Some t =>
            when_some (CogTables.parcel_address t)
              (fun l => deactivate.parcel_to_address (ParcelMailingAddress.linkid l)) ;;
            when_some (CogTables.human_address t)
              (fun l => deactivate.human_to_address (HumanMailingAddress.linkid l)) ;;
            when_some (CogTables.address t)
              (fun a => deactivate.address (MailingAddress.addressid a))
        | None => ret tt
        end ;;
        county_mailing <- attr (mailing county_data) ;;
        city_state_zip_table <-
          ensure.city_state_zip (city (last county_mailing))
            (state (last county_mailing)) (zip (last county_mailing)) ;;
        street_table <-
          ensure.street (MailingCityStateZip.id city_state_zip_table)
            (street (delivery county_mailing))
            (is_pobox (delivery county_mailing)) ;;
        address_table <-
          ensure.address (MailingStreet.streetid street_table)
            (number (delivery county_mailing))
            (attn (delivery county_mailing))
            (secondary (delivery county_mailing)) ;;
        t <- attr cog_tables ;;
        parcel <- attr (CogTables.parcel t) ;;
        link.parcel_to_address (Parcel.parcelkey parcel)
          (MailingAddress.addressid address_table) address_role ;;
        ret (Some (MailingAddress.addressid address_table),
             Some {| delivery :=
                       {| is_pobox := MailingStreet.pobox street_table;
                          attn := MailingAddress.attention address_table;
                          number := MailingAddress.bldgno address_table;
                          street := MailingStreet.name street_table;
                          secondary := MailingAddress.secondary address_table |};
                     last :=
                       {| city := MailingCityStateZip.city city_state_zip_table;
                          state := MailingCityStateZip.state_abbr city_state_zip_table;
                          zip := MailingCityStateZip.zip_code city_state_zip_table |} |})
      else ret (address_id, returned_address)) ;;
   let address_id := fst address_side in
   let returned_address := snd address_side in
   let human_id := current_human_id cog_tables in
   let returned_human := owner county_data in
   let same_human :=
     option_eqb Owner_eqb (owner county_data) (owner cog_data) in
   human_side <-
     (if negb same_human then
        match cog_tables with
        | Some t =>
            when_some (truthy_key (CogTables.human_parcel t))
              (fun id => deactivate.human_to_parcel id) ;;
            when_some (CogTables.human_address t)
              (fun l => deactivate.human_to_address (HumanMailingAddress.linkid l)) ;;
            when_some (CogTables.human t)
              (fun h => deactivate.human (Human.humanid h))
        | None => ret tt
        end ;;
        county_owner <- attr (owner county_data) ;;
        human_table <-
          ensure.human (name county_owner) (is_multi_entity county_owner) ;;
        t <- attr cog_tables ;;
        parcel <- attr (CogTables.parcel t) ;;
        link.human_to_parcel (Parcel.parcelkey parcel)
          (Human.humanid human_table) addressee_role ;;
        ret (Some (Human.humanid human_table),
             Some {| name := Human.name human_table;
                     is_multi_entity := Human.multihuman human_table |})
      else ret (human_id, returned_human)) ;;
   let human_id := fst human_side in
   let returned_human := snd human_side in
   (if negb same_human || negb same_address then
      link.human_to_address human_id address_id addressee_role
    else ret tt) ;;
   ret {| owner := returned_human; mailing := returned_address |})%program.

(* ===================================================================== *)
(** * Scraping and the top-level sync                                     *)
(* ===================================================================== *)

(** The response of the county site. *)
Record Response : Type := mkResponse {
  status_ok : bool;
  content : string
}.

Definition raise_for_status (response : Response) : outcome unit :=
  if status_ok response then Return tt else Raise HTTPError.

(** [lib.scrape]: the county site, one answer per parcel id. *)
Class ScrapeLayer : Type := {
  general_info : string -> outcome Response;
  tax_info : string -> outcome Response
}.

Definition get_general_data_from_county `{ScrapeLayer} `{ParseLayer}
           `{ReTemplate}
           (parcel_id : string) : outcome OwnerAndMailing :=
  (response <- general_info parcel_id ;;
   _ <- raise_for_status response ;;
   raw <- general_html_content (content response) ;;
   let owner := owner_from_raw (fst raw) in
   mailing <- mailing_from_raw_general (snd raw) ;;
   Return {| owner := Some owner; mailing := mailing |})%outcome.

Definition get_tax_data_from_county `{ScrapeLayer} `{ParseLayer}
           (parcel_id : string) : outcome OwnerAndMailing :=
  (response <- tax_info parcel_id ;;
   _ <- raise_for_status response ;;
   raw <- mortgage_html_content (content response) ;;
   let owner := owner_from_raw (fst raw) in
   mailing <- mailing_from_raw_tax (snd raw) ;;
   Return {| owner := Some owner; mailing := mailing |})%outcome.

Definition get_parcel_data_from_county `{ScrapeLayer} `{ParseLayer}
           `{ReTemplate}
           (parcel_id : string) : outcome GeneralAndMortgage :=
  (general_data <- get_general_data_from_county parcel_id ;;
   tax_data <- get_tax_data_from_county parcel_id ;;
   Return {| gm_general := general_data; gm_mortgage := tax_data |})%outcome.

Definition roles_eqb (a b : Z * Z) : bool :=
  Z.eqb (fst a) (fst b) && Z.eqb (snd a) (snd b).

(** The dictionary [out] is keyed by the role pairs: were the two pairs
    equal, the second result would replace the first. *)
Definition sync_parcel_data `{ScrapeLayer} `{ParseLayer}
           `{ReTemplate} `{LinkedObjectRole}
           (parcel_id : string) : M GeneralAndMortgage :=
  (_county_data <- lift (get_parcel_data_from_county parcel_id) ;;
   _cog_tables <- read (fun db => get_cog_tables db parcel_id) ;;
   out_general <- _sync_owner_and_mailing (gm_general _county_data)
                    (general _cog_tables) general_roles ;;
   out_mortgage <- _sync_owner_and_mailing (gm_mortgage _county_data)
                     (mortgage _cog_tables) mortgage_roles ;;
   ret {| gm_general := if roles_eqb general_roles mortgage_roles
                        then out_mortgage else out_general;
          gm_mortgage := out_mortgage |})%program.

(* ===================================================================== *)
(** * The batch driver of [app/app.py]                                    *)
(* ===================================================================== *)

Record MunicipalitySyncData : Type := mkMunicipalitySyncData {
  total : Z;
  skipped : list Z
}.

(** The loop of [sync_municipality] over a sync of one parcel.  The
    [finally] clause counts the parcel on every path; an exception other
    than [HtmlParsingError] then leaves the loop. *)
Fixpoint sync_each {A : Type} (sync : string -> M A)
         (parcels : list Parcel.t) (sync_data : MunicipalitySyncData)
  : M MunicipalitySyncData :=
  match parcels with
  | [] => ret sync_data
  | parcel :: rest =>
      fun db =>
        match sync (Parcel.parcelidcnty parcel) db with
        | (Return _, db') =>
            sync_each sync rest
              {| total := total sync_data + 1;
                 skipped := skipped sync_data |} db'
        | (Raise HtmlParsingError, db') =>
            sync_each sync rest
              {| total := total sync_data + 1;
                 skipped := skipped sync_data ++ [Parcel.parcelkey parcel] |}
              db'
        | (Raise e, db') => (Raise e, db')
        end
  end.

Definition select_all_parcels_in_municode (db : Store) (municode : Z)
  : list Parcel.t :=
  select.parcels_by_municode db municode.

Definition sync_municipality `{ScrapeLayer} `{ParseLayer}
           `{ReTemplate} `{LinkedObjectRole}
           (municode : Z) : M MunicipalitySyncData :=
  fun db =>
    sync_each sync_parcel_data (select_all_parcels_in_municode db municode)
      {| total := 0; skipped := [] |} db.

(* ===================================================================== *)
(** * Notions of the specification                                        *)
(* ===================================================================== *)

(** The text fragments of a cell, in order: the markup is discarded. *)
Fixpoint text_fragments (data : list PageElement) : list string :=
  match data with
  | [] => []
  | NavigableString t :: rest => t :: text_fragments rest
  | Tag _ :: rest => text_fragments rest
  end.

(** A string with every run of whitespace replaced by one space;
    [in_run] tells that the character before was whitespace. *)
Fixpoint collapse_runs (in_run : bool) (s : string) : string :=
  match s with
  | EmptyString => EmptyString
  | String c s' =>
      if Py.isspace c
      then (if in_run then collapse_runs true s'
            else String " " (collapse_runs true s'))
      else String c (collapse_runs false s')
  end.

Definition collapse_whitespace_runs (s : string) : string :=
  collapse_runs false s.


(** [same_address] and [same_human] of the engine: the scraped value
    equals the projection of the current chain. *)
Definition same_mailing (county_data : OwnerAndMailing)
           (cog_tables : option CogTables.t) : bool :=
  option_eqb Mailing_eqb (mailing county_data)
    (mailing (_cog_tables_to_owner_and_mailing cog_tables)).

Definition same_owner (county_data : OwnerAndMailing)
           (cog_tables : option CogTables.t) : bool :=
  option_eqb Owner_eqb (owner county_data)
    (owner (_cog_tables_to_owner_and_mailing cog_tables)).

(** The address side of [_sync_owner_and_mailing], as a program of its
    own: the new value of [address_id] and the returned mailing. *)
Definition address_side (county_data : OwnerAndMailing)
           (cog_tables : option CogTables.t) (address_role : Z)
  : M (option Z * option Mailing) :=
  (if negb (same_mailing county_data cog_tables) then
     match cog_tables with
     | Some t =>
         when_some (CogTables.parcel_address t)
           (fun l => deactivate.parcel_to_address (ParcelMailingAddress.linkid l)) ;;
         when_some (CogTables.human_address t)
           (fun l => deactivate.human_to_address (HumanMailingAddress.linkid l)) ;;
         when_some (CogTables.address t)
           (fun a => deactivate.address (MailingAddress.addressid a))
     | None => ret tt
     end ;;
     county_mailing <- attr (mailing county_data) ;;
     city_state_zip_table <-
       ensure.city_state_zip (city (last county_mailing))
         (state (last county_mailing)) (zip (last county_mailing)) ;;
     street_table <-
       ensure.street (MailingCityStateZip.id city_state_zip_table)
         (street (delivery county_mailing))
         (is_pobox (delivery county_mailing)) ;;
     address_table <-
       ensure.address (MailingStreet.streetid street_table)
         (number (delivery county_mailing))
         (attn (delivery county_mailing))
         (secondary (delivery county_mailing)) ;;
     t <- attr cog_tables ;;
     parcel <- attr (CogTables.parcel t) ;;
     link.parcel_to_address (Parcel.parcelkey parcel)
       (MailingAddress.addressid address_table) address_role ;;
     ret (Some (MailingAddress.addressid address_table),
          Some {| delivery :=
                    {| is_pobox := MailingStreet.pobox street_table;
                       attn := MailingAddress.attention address_table;
                       number := MailingAddress.bldgno address_table;
                       street := MailingStreet.name street_table;
                       secondary := MailingAddress.secondary address_table |};
                  last :=
                    {| city := MailingCityStateZip.city city_state_zip_table;
                       state := MailingCityStateZip.state_abbr city_state_zip_table;
                       zip := MailingCityStateZip.zip_code city_state_zip_table |} |})
   else ret (current_address_id cog_tables, mailing county_data))%program.

(** The human side of [_sync_owner_and_mailing], as a program of its own:
    the new value of [human_id] and the returned owner. *)
Definition human_side (county_data : OwnerAndMailing)
           (cog_tables : option CogTables.t) (addressee_role : Z)
  : M (option Z * option Owner) :=
  (if negb (same_owner county_data cog_tables) then
     match cog_tables with
     | Some t =>
         when_some (truthy_key (CogTables.human_parcel t))
           (fun id => deactivate.human_to_parcel id) ;;
         when_some (CogTables.human_address t)
           (fun l => deactivate.human_to_address (HumanMailingAddress.linkid l)) ;;
         when_some (CogTables.human t)
           (fun h => deactivate.human (Human.humanid h))
     | None => ret tt
     end ;;
     county_owner <- attr (owner county_data) ;;
     human_table <-
       ensure.human (name county_owner) (is_multi_entity county_owner) ;;
     t <- attr cog_tables ;;
     parcel <- attr (CogTables.parcel t) ;;
     link.human_to_parcel (Parcel.parcelkey parcel)
       (Human.humanid human_table) addressee_role ;;
     ret (Some (Human.humanid human_table),
          Some {| name := Human.name human_table;
                  is_multi_entity := Human.multihuman human_table |})
   else ret (current_human_id cog_tables, owner county_data))%program.

(** The retirements of the human side, in the order of the source: each
    is made only if the chain holds the row. *)
Definition human_retirements (t : CogTables.t) : list operation :=
  (match truthy_key (CogTables.human_parcel t) with
   | Some id => [deactivate_human_to_parcel id]
   | None => []
   end
   ++ match CogTables.human_address t with
      | Some l => [deactivate_human_to_address (HumanMailingAddress.linkid l)]
      | None => []
      end
   ++ match CogTables.human t with
      | Some h => [deactivate_human (Human.humanid h)]
      | None => []
      end)%list.

(** The retirements of the address side, in the order of the source. *)
Definition address_retirements (t : CogTables.t) : list operation :=
  (match CogTables.parcel_address t with
   | Some l => [deactivate_parcel_to_address (ParcelMailingAddress.linkid l)]
   | None => []
   end
   ++ match CogTables.human_address t with
      | Some l => [deactivate_human_to_address (HumanMailingAddress.linkid l)]
      | None => []
      end
   ++ match CogTables.address t with
      | Some a => [deactivate_address (MailingAddress.addressid a)]
      | None => []
      end)%list.

(** A parcel, two owners, a mailing and stores to run the engine on. *)
Module Example.

Definition role_constants : LinkedObjectRole :=
  {| GENERAL_HUMAN_MAILING_ADDRESS := 233;
     MORTGAGE_HUMAN_MAILING_ADDRESS := 234;
     general_roles := (233, 235)%Z;
     mortgage_roles := (234, 236)%Z |}.

(** No text of the examples holds a backslash; the template compiler
    is never called. *)
Definition re_template : ReTemplate :=
  {| compile_template := fun _ => Raise ReError |}.

Definition the_parcel : Parcel.t := Parcel.mk 7 "0001-A-00001" 111 None.

Definition jane : Owner := {| name := "JANE DOE"; is_multi_entity := false |}.

Definition john : Owner := {| name := "JOHN ROE"; is_multi_entity := false |}.

Definition main_street : Mailing :=
  {| delivery := {| is_pobox := false; attn := None; number := "123";
                    street := "MAIN ST"; secondary := None |};
     last := {| city := "PITTSBURGH"; state := "PA"; zip := "15213" |} |}.

(** The parcel alone: no address, no human. *)
Definition bare_store : Store :=
  mkStore [the_parcel] [] [] [] [] [] [] [] 1000 [].

Definition bare_chain : CogTables.t :=
  CogTables.set_parcel CogTables.empty (Some the_parcel).

(** The parcel with Jane at 123 Main St, linked under the general
    roles. *)
Definition the_csz : MailingCityStateZip.t :=
  MailingCityStateZip.mk 1 "PITTSBURGH" "PA" "15213" None.
Definition the_street : MailingStreet.t :=
  MailingStreet.mk 1 1 "MAIN ST" false None.
Definition the_address : MailingAddress.t :=
  MailingAddress.mk 1 1 "123" None None None.
Definition the_human : Human.t := Human.mk 1 "JANE DOE" false None.
Definition the_parcel_address : ParcelMailingAddress.t :=
  ParcelMailingAddress.mk 1 7 1 233 None.
Definition the_human_address : HumanMailingAddress.t :=
  HumanMailingAddress.mk 1 (Some 1%Z) (Some 1%Z) 235 None.
Definition the_human_parcel : HumanParcel.t :=
  HumanParcel.mk 1 1 7 235 None.

Definition settled_store : Store :=
  mkStore [the_parcel] [the_human] [the_csz] [the_street] [the_address]
    [the_parcel_address] [the_human_address] [the_human_parcel] 1000 [].

Definition settled_chain : CogTables.t :=
  CogTables.mk (Some the_parcel) (Some the_address)
    (Some the_parcel_address) (Some the_street) (Some the_csz)
    (Some the_human) (Some the_human_address) None.

(** The parcel with an address chain and no human. *)
Definition unowned_store : Store :=
  mkStore [the_parcel] [] [the_csz] [the_street] [the_address]
    [the_parcel_address] [] [] 1000 [].

Definition unowned_chain : CogTables.t :=
  CogTables.mk (Some the_parcel) (Some the_address)
    (Some the_parcel_address) (Some the_street) (Some the_csz)
    None None None.

(** Two parcels that share the address 123 Main St. *)
Definition other_parcel : Parcel.t := Parcel.mk 8 "0002-B-00002" 111 None.
Definition other_parcel_address : ParcelMailingAddress.t :=
  ParcelMailingAddress.mk 2 8 1 233 None.

Definition shared_store : Store :=
  mkStore [the_parcel; other_parcel] [] [the_csz] [the_street] [the_address]
    [the_parcel_address; other_parcel_address] [] [] 1000 [].

End Example.

(** The parcel with the given county id is in the store, active. *)
Definition parcel_exists (db : Store) (parcel_id : string) : Prop :=
  exists r, In r (parcels db)
            /\ Parcel.parcelidcnty r = parcel_id
            /\ Parcel.deactivatedts r = None.

(** The address sub-chain of a link is there: the link leads to the
    active address [a], its active street and its active city/state/zip. *)
Definition address_chain_intact (db : Store) (l : ParcelMailingAddress.t)
           (a : MailingAddress.t) : Prop :=
  select.address db (ParcelMailingAddress.mailingaddress_addressid l)
  = Return a
  /\ exists s c,
      select.street db (MailingAddress.street_streetid a) = Return s
      /\ select.city_state_zip db (MailingStreet.citystatezip_cszipid s)
         = Return c.

(** The human sub-chain of an address is absent: no active
    human-to-address link leads to the address, or the one that does
    leads to no active human. *)
Definition human_chain_absent (db : Store) (a : MailingAddress.t) : Prop :=
  select.human_mailing_address db (MailingAddress.addressid a)
  = Raise NoResultFound
  \/ exists ha,
      select.human_mailing_address db (MailingAddress.addressid a)
      = Return ha
      /\ select.human db (HumanMailingAddress.humanmailing_humanid ha)
         = Raise NoResultFound.

(** A run of the batch: each parcel is synced in turn on the store left
    by the parcel before it, to the outcome listed for it. *)
Inductive batch_run {A : Type} (sync : string -> M A)
  : Store -> list Parcel.t -> list (outcome A) -> Store -> Prop :=
| batch_done db : batch_run sync db [] [] db
| batch_next db parcel rest r db1 rs db2 :
    sync (Parcel.parcelidcnty parcel) db = (r, db1) ->
    batch_run sync db1 rest rs db2 ->
    batch_run sync db (parcel :: rest) (r :: rs) db2.

(** The sync of a parcel completed, or stopped on [HtmlParsingError]. *)
Definition completed_or_unparsed {A : Type} (r : outcome A) : bool :=
  match r with
  | Return _ => true
  | Raise HtmlParsingError => true
  | Raise _ => false
  end.

(** The keys of the parcels whose sync raised [HtmlParsingError]. *)
Fixpoint unparsed_keys {A : Type} (parcels : list Parcel.t)
         (outcomes : list (outcome A)) : list Z :=
  match parcels, outcomes with
  | parcel :: rest, Raise HtmlParsingError :: rs =>
      Parcel.parcelkey parcel :: unparsed_keys rest rs
  | _ :: rest, _ :: rs => unparsed_keys rest rs
  | _, _ => []
  end.

Module BatchExample.

(** Three parcels of municipality 111; the county page of the second
    one cannot be parsed; the others show Jane Doe and no mailing. *)
Definition scrape_layer : ScrapeLayer :=
  {| general_info := fun parcel_id => Return (mkResponse true parcel_id);
     tax_info := fun parcel_id => Return (mkResponse true parcel_id) |}.

Definition page (content : string)
  : outcome (list PageElement * list PageElement) :=
  if String.eqb content "0002" then Raise HtmlParsingError
  else Return ([NavigableString "JANE DOE "; Tag "<br/>"], []).

Definition parse_layer : ParseLayer :=
  {| general_html_content := page;
     mortgage_html_content := page;
     mortgage_delivery_address_line := fun _ => Raise HtmlParsingError;
     mortgage_last_line := fun _ _ => Raise HtmlParsingError;
     general_delivery_address_line := fun _ => Raise HtmlParsingError;
     general_city_state_zip := fun _ => Raise HtmlParsingError |}.

Definition town : Store :=
  mkStore [Parcel.mk 1 "0001" 111 None; Parcel.mk 2 "0002" 111 None;
           Parcel.mk 3 "0003" 111 None]
    [] [] [] [] [] [] [] 1000 [].

End BatchExample.

(** An active link of the parcel with key [k] under the role [r]. *)
Definition is_active_link (k r : Z) (l : ParcelMailingAddress.t) : bool :=
  Z.eqb (ParcelMailingAddress.parcel_parcelkey l) k
  && Z.eqb (ParcelMailingAddress.linkedobjectrole_lorid l) r
  && is_None (ParcelMailingAddress.deactivatedts l).

Definition active_links (k r : Z) (db : Store)
  : list ParcelMailingAddress.t :=
  filter (is_active_link k r) (parcel_addresses db).

(** At most one active parcel-to-address link per parcel and role. *)
Definition at_most_one_active_link (db : Store) : Prop :=
  forall k r, List.length (active_links k r db) <= 1.

(** The two contexts of a reconciliation. *)
Inductive context : Type := General | Mortgage.

Definition context_roles `{LinkedObjectRole} (c : context) : Z * Z :=
  match c with General => general_roles | Mortgage => mortgage_roles end.

Definition context_chain (c : context) (current : CogGeneralAndMortgage)
  : option CogTables.t :=
  match c with General => general current | Mortgage => mortgage current end.

(** The role [get_cog_tables] matches the links of a context on. *)
Definition context_link_role `{LinkedObjectRole} (c : context) : Z :=
  match c with
  | General => GENERAL_HUMAN_MAILING_ADDRESS
  | Mortgage => MORTGAGE_HUMAN_MAILING_ADDRESS
  end.

(** Modelled from the spec: [app/constants.py] is not among the sources.
    A role is a pair of an address role and an addressee role, one pair
    per context, and the reader resolves the active parcel-to-address
    link of the role pair: the address role of a context is the role its
    links are matched on. *)
Definition roles_agree `{LinkedObjectRole} : Prop :=
  forall c, fst (context_roles c) = context_link_role c.

(** A reconcile call of the specification: a parcel, a context and the
    scraped data; the current chain is the one read from the store. *)
Record reconcile_call : Type := mkCall {
  call_parcel : string;
  call_context : context;
  call_scraped : OwnerAndMailing
}.

Definition reconcile `{LinkedObjectRole} (c : reconcile_call)
  : M OwnerAndMailing :=
  (current <- read (fun db => get_cog_tables db (call_parcel c)) ;;
   _sync_owner_and_mailing (call_scraped c)
     (context_chain (call_context c) current)
     (context_roles (call_context c)))%program.

(** The store after a sequence of reconcile calls; a call that raises
    leaves the writes it made. *)
Fixpoint after_calls `{LinkedObjectRole} (calls : list reconcile_call)
         (db : Store) : Store :=
  match calls with
  | [] => db
  | c :: rest => after_calls rest (snd (reconcile c db))
  end.

Definition is_link_parcel_to_address (o : operation) : bool :=
  match o with link_parcel_to_address _ _ _ => true | _ => false end.

Definition is_deactivate_parcel_to_address (o : operation) : bool :=
  match o with deactivate_parcel_to_address _ => true | _ => false end.

(** No retirement of a parcel-to-address link comes after a creation of
    one; [created] tells that a creation was seen. *)
Fixpoint retired_before_created (created : bool) (ops : list operation)
  : bool :=
  match ops with
  | [] => true
  | o :: rest =>
      if is_deactivate_parcel_to_address o
      then negb created && retired_before_created created rest
      else retired_before_created (created || is_link_parcel_to_address o)
             rest
  end.

(** The rows of [deactivate.parcel_to_address] and of
    [link.parcel_to_address]. *)
Definition retire_link (stamp id : Z) (links : list ParcelMailingAddress.t)
  : list ParcelMailingAddress.t :=
  map (fun r =>
         if Z.eqb (ParcelMailingAddress.linkid r) id
         then ParcelMailingAddress.mk
                (ParcelMailingAddress.linkid r)
                (ParcelMailingAddress.parcel_parcelkey r)
                (ParcelMailingAddress.mailingaddress_addressid r)
                (ParcelMailingAddress.linkedobjectrole_lorid r)
                (Some stamp)
         else r)
      links.

Definition add_link (parcelkey address_id role : Z)
           (links : list ParcelMailingAddress.t)
  : list ParcelMailingAddress.t :=
  (links ++
   [ParcelMailingAddress.mk
      (next_id (map ParcelMailingAddress.linkid links))
      parcelkey address_id role None])%list.

(** The chain is the current one of its parcel under the role: its link
    is an active link of the parcel and role, or there is none. *)
Definition chain_is_current (db : Store) (role : Z) (t : CogTables.t)
  : Prop :=
  exists p,
    CogTables.parcel t = Some p
    /\ match CogTables.parcel_address t with
       | Some l => In l (active_links (Parcel.parcelkey p) role db)
       | None => active_links (Parcel.parcelkey p) role db = []
       end.

(** The keys of the parcel-to-address links are distinct. *)
Definition link_keys_distinct (db : Store) : Prop :=
  NoDup (map ParcelMailingAddress.linkid (parcel_addresses db)).

(** The store after the syncs of a sequence of parcels; a sync that
    raises leaves the writes it made. *)
Fixpoint after_syncs `{ScrapeLayer} `{ParseLayer} `{ReTemplate}
         `{LinkedObjectRole}
         (parcel_ids : list string) (db : Store) : Store :=
  match parcel_ids with
  | [] => db
  | parcel_id :: rest => after_syncs rest (snd (sync_parcel_data parcel_id db))
  end.

(** The calls that create or retire an address, street or city/state/zip
    row or a parcel-to-address link. *)
Definition is_address_side_write (o : operation) : bool :=
  match o with
  | ensure_city_state_zip _ _ _
  | ensure_street _ _ _
  | ensure_address _ _ _ _
  | deactivate_parcel_to_address _
  | deactivate_address _
  | link_parcel_to_address _ _ _ => true
  | _ => false
  end.

(** The first chain of a list whose link is under the role. *)
Definition first_with_role (role : Z) (chains : list CogTables.t)
  : option CogTables.t :=
  find (fun x =>
          match CogTables.parcel_address x with
          | Some l => Z.eqb (ParcelMailingAddress.linkedobjectrole_lorid l) role
          | None => false
          end)
       chains.

(* ===================================================================== *)
(** * Notions for further properties of the code                          *)
(* ===================================================================== *)

(** The whitespace of a string is regular: every whitespace character is
    a space and no two of them are adjacent; [after_space] tells that the
    character before was a space. *)
Fixpoint regular_spacing (after_space : bool) (s : string) : bool :=
  match s with
  | EmptyString => true
  | String c s' =>
      if Py.isspace c
      then Ascii.eqb c " " && negb after_space && regular_spacing true s'
      else regular_spacing false s'
  end.

(** The characters of a string that are not whitespace. *)
Fixpoint without_whitespace (s : string) : string :=
  match s with
  | EmptyString => EmptyString
  | String c s' =>
      if Py.isspace c then without_whitespace s'
      else String c (without_whitespace s')
  end.

(** The chain carries its parcel. *)
Definition has_parcel (cog_tables : option CogTables.t) : bool :=
  match cog_tables with
  | Some t => negb (is_None (CogTables.parcel t))
  | None => false
  end.

(** Each side of the engine is unchanged, or has a scraped value to write
    and a parcel to link it to. *)
Definition engine_completes (county_data : OwnerAndMailing)
           (cog_tables : option CogTables.t) : bool :=
  (same_mailing county_data cog_tables
   || (negb (is_None (mailing county_data)) && has_parcel cog_tables))
  && (same_owner county_data cog_tables
      || (negb (is_None (owner county_data)) && has_parcel cog_tables)).

Definition is_link_human_to_address (o : operation) : bool :=
  match o with link_human_to_address _ _ _ => true | _ => false end.

(** A county site whose general page answers with a failure status. *)
Module DownExample.

Definition scrape_layer : ScrapeLayer :=
  {| general_info := fun parcel_id => Return (mkResponse false parcel_id);
     tax_info := fun parcel_id => Return (mkResponse true parcel_id) |}.

End DownExample.

(** The rows of a chain are the rows of the store that its link leads to:
    each is active, each is reached by the key the row before it holds,
    and the human comes with the human-to-address link that leads to
    it. *)
Definition chain_well_linked (db : Store) (t : CogTables.t) : Prop :=
  match CogTables.parcel_address t with
  | None =>
      CogTables.address t = None /\ CogTables.street t = None
      /\ CogTables.city_state_zip t = None
      /\ CogTables.human t = None /\ CogTables.human_address t = None
  | Some l =>
      exists a s z,
        CogTables.address t = Some a /\ CogTables.street t = Some s
        /\ CogTables.city_state_zip t = Some z
        /\ In a (addresses db) /\ MailingAddress.deactivatedts a = None
        /\ MailingAddress.addressid a
           = ParcelMailingAddress.mailingaddress_addressid l
        /\ In s (streets db) /\ MailingStreet.deactivatedts s = None
        /\ MailingStreet.streetid s = MailingAddress.street_streetid a
        /\ In z (city_state_zips db)
        /\ MailingCityStateZip.deactivatedts z = None
        /\ MailingCityStateZip.id z = MailingStreet.citystatezip_cszipid s
        /\ match CogTables.human_address t, CogTables.human t with
           | Some ha, Some h =>
               In ha (human_addresses db)
               /\ HumanMailingAddress.deactivatedts ha = None
               /\ HumanMailingAddress.humanmailing_addressid ha
                  = Some (MailingAddress.addressid a)
               /\ In h (humans db) /\ Human.deactivatedts h = None
               /\ HumanMailingAddress.humanmailing_humanid ha
                  = Some (Human.humanid h)
           | None, None => True
           | _, _ => False
           end
  end.

(** The active human-to-address links that lead to an address. *)
Definition active_human_links (address_id : Z) (db : Store)
  : list HumanMailingAddress.t :=
  filter (fun r => option_eqb Z.eqb
                     (HumanMailingAddress.humanmailing_addressid r)
                     (Some address_id)
                   && is_None (HumanMailingAddress.deactivatedts r))
         (human_addresses db).

(** The role of the link of a chain. *)
Definition link_role (t : CogTables.t) : option Z :=
  match CogTables.parcel_address t with
  | Some l => Some (ParcelMailingAddress.linkedobjectrole_lorid l)
  | None => None
  end.

(** A county site where the general and the tax page of every parcel show
    Jane Doe at 123 Main St. *)
Module SameAddressExample.

Definition scrape_layer : ScrapeLayer :=
  {| general_info := fun parcel_id => Return (mkResponse true parcel_id);
     tax_info := fun parcel_id => Return (mkResponse true parcel_id) |}.

Definition parse_layer : ParseLayer :=
  {| general_html_content := fun _ =>
       Return ([NavigableString "JANE DOE"],
               [NavigableString "123 MAIN ST";
                NavigableString "PITTSBURGH, PA 15213"]);
     mortgage_html_content := fun _ =>
       Return ([NavigableString "JANE DOE"],
               [NavigableString "123 MAIN ST";
                NavigableString "PITTSBURGH, PA"; NavigableString "15213"]);
     mortgage_delivery_address_line := fun _ =>
       Return (delivery Example.main_street);
     mortgage_last_line := fun _ _ => Return (last Example.main_street);
     general_delivery_address_line := fun _ =>
       Return (delivery Example.main_street);
     general_city_state_zip := fun _ => Return (last Example.main_street) |}.

(** The store after one sync of the parcel. *)
Definition synced_once : Store :=
  snd (@sync_parcel_data scrape_layer parse_layer Example.re_template Example.role_constants
         "0001-A-00001" Example.bare_store).

End SameAddressExample.

(** A municipality whose second parcel is retired; the county pages are
    those of [BatchExample]. *)
Module RetiredExample.

Definition retired_parcel : Parcel.t := Parcel.mk 4 "0004" 111 (Some 900%Z).

Definition town : Store :=
  mkStore [Parcel.mk 1 "0001" 111 None; retired_parcel;
           Parcel.mk 3 "0003" 111 None]
    [] [] [] [] [] [] [] 1000 [].

End RetiredExample.

(** The calls of one reconcile of the specification (its section 4.3),
    for a chain [t] that carries the parcel [p]: on a changed mailing the
    retirements of the address side, the three ensures of the scraped
    values and the link of the parcel to the address under the address
    role; on a changed owner the retirements of the human side, the
    ensure of the scraped owner and the link of the human to the parcel
    under the addressee role; then, when either side changed, the
    cross-link of the resulting human and address under the addressee
    role.  The ids are those of the rows that the ensures return. *)
Definition reconcile_calls (county_data : OwnerAndMailing) (t : CogTables.t)
           (p : Parcel.t) (roles : Z * Z)
           (csz_id street_id address_id human_id : Z) : list operation :=
  let same_address := same_mailing county_data (Some t) in
  let same_human := same_owner county_data (Some t) in
  ((if same_address then []
    else
      address_retirements t
      ++ match mailing county_data with
         | Some m =>
             [ensure_city_state_zip (city (last m)) (state (last m))
                (zip (last m));
              ensure_street csz_id (street (delivery m))
                (is_pobox (delivery m));
              ensure_address street_id (number (delivery m))
                (attn (delivery m)) (secondary (delivery m));
              link_parcel_to_address (Parcel.parcelkey p) address_id
                (fst roles)]
         | None => []
         end)
   ++ (if same_human then []
       else
         human_retirements t
         ++ match owner county_data with
            | Some o =>
                [ensure_human (name o) (is_multi_entity o);
                 link_human_to_parcel (Parcel.parcelkey p) human_id
                   (snd roles)]
            | None => []
            end)
   ++ (if same_address && same_human then []
       else
         [link_human_to_address
            (if same_human then current_human_id (Some t)
             else Some human_id)
            (if same_address then current_address_id (Some t)
             else Some address_id)
            (snd roles)]))%list.

(** One reconcile ran to its end from [db] to [db']: a changed side had
    a scraped value, and the calls made are those of [reconcile_calls]. *)
Definition reconcile_ran (county_data : OwnerAndMailing) (t : CogTables.t)
           (p : Parcel.t) (roles : Z * Z) (db db' : Store) : Prop :=
  (same_mailing county_data (Some t) = false -> mailing county_data <> None)
  /\ (same_owner county_data (Some t) = false -> owner county_data <> None)
  /\ exists csz_id street_id address_id human_id,
      journal db'
      = (journal db
         ++ reconcile_calls county_data t p roles
              csz_id street_id address_id human_id)%list.

(** The sync of a parcel ran to its end from [db] to [db'] with the
    result [r]: the scrape returned, the reader returned the chains of
    the parcel on [db], the reconcile of the general context ran on the
    general chain and then the reconcile of the mortgage context on the
    mortgage chain, both chains as read from [db], and [r] is the scraped
    data (the general half being the mortgage half when the two role
    pairs are one key of the dictionary). *)
Definition sync_ran `{ScrapeLayer} `{ParseLayer} `{ReTemplate}
           `{LinkedObjectRole}
           (parcel_id : string) (db : Store) (r : GeneralAndMortgage)
           (db' : Store) : Prop :=
  exists county current g m p db1,
    get_parcel_data_from_county parcel_id = Return county
    /\ get_cog_tables db parcel_id = Return current
    /\ select.parcel db parcel_id = Return p
    /\ general current = Some g /\ CogTables.parcel g = Some p
    /\ mortgage current = Some m /\ CogTables.parcel m = Some p
    /\ reconcile_ran (gm_general county) g p general_roles db db1
    /\ reconcile_ran (gm_mortgage county) m p mortgage_roles db1 db'
    /\ gm_mortgage r = gm_mortgage county
    /\ gm_general r = (if roles_eqb general_roles mortgage_roles
                       then gm_mortgage county else gm_general county).

(** The steps of a run of the batch: a sync that raised
    [HtmlParsingError] left the store as it found it, and a sync that
    returned ran to its end. *)
Inductive batch_steps `{ScrapeLayer} `{ParseLayer} `{ReTemplate}
          `{LinkedObjectRole}
  : Store -> list Parcel.t -> list (outcome GeneralAndMortgage) -> Prop :=
| steps_done db : batch_steps db [] []
| steps_skipped db parcel rest rs :
    batch_steps db rest rs ->
    batch_steps db (parcel :: rest) (Raise HtmlParsingError :: rs)
| steps_synced db parcel rest r db1 rs :
    sync_ran (Parcel.parcelidcnty parcel) db r db1 ->
    snd (sync_parcel_data (Parcel.parcelidcnty parcel) db) = db1 ->
    batch_steps db1 rest rs ->
    batch_steps db (parcel :: rest) (Return r :: rs).

(** A municipality of four parcels: the page of the second cannot be
    parsed and the third is retired; the county pages are those of
    [BatchExample]. *)
Module MixedExample.

Definition town : Store :=
  mkStore [Parcel.mk 1 "0001" 111 None; Parcel.mk 2 "0002" 111 None;
           RetiredExample.retired_parcel; Parcel.mk 3 "0003" 111 None]
    [] [] [] [] [] [] [] 1000 [].

End MixedExample.
(* ===================================================================== *)
(** * The value normalizer: proofs                                        *)
(* ===================================================================== *)

Section Normalizer.

Lemma _clean_tags_text_fragments (data : list PageElement) :
  _clean_tags data = text_fragments data.
Proof.
  unfold _clean_tags.
  induction data as [|[m|t] rest IH]; simpl; [reflexivity|exact IH|].
  now rewrite IH.
Qed.

Lemma lstrip_length (s : string) : length (Py.lstrip s) <= length s.
Proof.
  induction s as [|c s IH]; simpl; [lia|].
  destruct (Py.isspace c); simpl; lia.
Qed.

Lemma collapse_runs_lstrip (s : string) :
  collapse_runs true s = collapse_runs false (Py.lstrip s).
Proof.
  induction s as [|c s IH]; simpl; [reflexivity|].
  destruct (Py.isspace c) eqn:E; [exact IH|].
  simpl. now rewrite E.
Qed.

Lemma plus_loop_none (m : string -> list string) (n : nat) (s : string) :
  m s = [] -> Py.plus_loop m n s = [].
Proof.
  intros Hm. destruct n; simpl; [reflexivity|]. now rewrite Hm.
Qed.

Lemma plus_loop_one (m : string -> list string) (n : nat) (s s1 : string) :
  m s = [s1] -> length s1 < length s ->
  Py.plus_loop m (S n) s = (Py.plus_loop m n s1 ++ [s1])%list.
Proof.
  intros Hm Hlt. simpl. rewrite Hm. simpl.
  apply Nat.ltb_lt in Hlt. rewrite Hlt. now rewrite app_nil_r.
Qed.

(** The iterations of [\s+] on the rest of a whitespace run: the first
    remainder offered is the one after the whole run. *)
Lemma plus_loop_space_head (n : nat) (s : string) :
  length s < n ->
  exists others,
    (Py.plus_loop (Py.rmatch Py.Space) n s ++ [s])%list
    = Py.lstrip s :: others.
Proof.
  revert s.
  induction n as [|n IH]; intros s Hn; [lia|].
  destruct s as [|c s].
  - exists []. reflexivity.
  - destruct (Py.isspace c) eqn:E.
    + rewrite (plus_loop_one _ n (String c s) s);
        [|simpl; now rewrite E|simpl; lia].
      simpl in Hn.
      destruct (IH s ltac:(lia)) as [others Ho].
      rewrite Ho. cbn [app Py.lstrip]. rewrite E. eexists. reflexivity.
    + rewrite plus_loop_none by (simpl; now rewrite E).
      cbn [app Py.lstrip]. rewrite E. exists []. reflexivity.
Qed.

Lemma rmatch_plus_space_none (s : string) :
  match s with
  | EmptyString => True
  | String c _ => Py.isspace c = false
  end ->
  Py.rmatch (Py.Plus Py.Space) s = [].
Proof.
  intros Hs. cbn [Py.rmatch]. apply plus_loop_none.
  destruct s as [|c s]; simpl; [reflexivity|]. now rewrite Hs.
Qed.

Lemma rmatch_plus_space_some (c : ascii) (s : string) :
  Py.isspace c = true ->
  exists others,
    Py.rmatch (Py.Plus Py.Space) (String c s) = Py.lstrip s :: others.
Proof.
  intros E. cbn [Py.rmatch].
  rewrite (plus_loop_one _ _ (String c s) s);
    [|simpl; now rewrite E|simpl; lia].
  apply plus_loop_space_head. simpl. lia.
Qed.

(** The scan of [re.sub(r"\s+", " ", s)] computes the collapse of the
    whitespace runs, whatever fuel above the length it is given. *)
Lemma sub_from_collapse (fuel : nat) (must_advance : bool) (s : string) :
  length s < fuel ->
  Py.sub_from fuel (Py.Plus Py.Space) " " must_advance s
  = collapse_whitespace_runs s.
Proof.
  unfold collapse_whitespace_runs.
  revert must_advance s.
  induction fuel as [|fuel IH]; intros ma s Hf; [lia|].
  destruct s as [|c s].
  - reflexivity.
  - destruct (Py.isspace c) eqn:E.
    + destruct (rmatch_plus_space_some c s E) as [others Ho].
      cbn [Py.sub_from]. rewrite Ho. cbn [find].
      pose proof (lstrip_length s) as Hl.
      assert (Hlt : (length (Py.lstrip s) <? length (String c s))%nat = true)
        by (apply Nat.ltb_lt; simpl; lia).
      simpl in Hf.
      rewrite Hlt, orb_true_r. cbv beta iota. rewrite Hlt.
      rewrite IH by lia.
      simpl. rewrite E. now rewrite collapse_runs_lstrip.
    + cbn [Py.sub_from].
      rewrite (rmatch_plus_space_none (String c s) E). cbn [find].
      simpl in Hf.
      rewrite IH by lia.
      simpl. now rewrite E.
Qed.

Lemma _clean_whitespace_collapse (text : string) :
  _clean_whitespace text = collapse_whitespace_runs text.
Proof.
  unfold _clean_whitespace, Py.re_sub.
  apply sub_from_collapse. lia.
Qed.

(** C5.  [owner_from_raw] keeps the text fragments only; the name is
    their stripped texts joined with " & " with every whitespace run
    collapsed to one space; the owner is flagged multi-entity exactly when
    more than one fragment was kept or the collapse changed the joined
    string.  The one fragment "  Acme   Corp " gives the name "Acme Corp",
    flagged multi-entity. *)
Theorem owner_from_raw_spec :
  forall data : list PageElement,
    let kept := text_fragments data in
    let joined := Py.join " & " (map Py.strip kept) in
    name (owner_from_raw data) = collapse_whitespace_runs joined
    /\ (is_multi_entity (owner_from_raw data) = true
        <-> (1 < List.length kept
             \/ collapse_whitespace_runs joined <> joined))
    /\ owner_from_raw [NavigableString "  Acme   Corp "]
       = {| name := "Acme Corp"; is_multi_entity := true |}.
Proof.
  intros data kept joined.
  unfold owner_from_raw. cbv zeta.
  rewrite _clean_tags_text_fragments, _clean_whitespace_collapse.
  fold kept. fold joined. cbn [name is_multi_entity].
  split; [reflexivity|]. split; [|reflexivity].
  destruct (Nat.ltb_spec 1 (List.length kept)) as [Hk|Hk];
    destruct (String.eqb_spec joined (collapse_whitespace_runs joined))
      as [He|He]; cbn [negb]; split; intros Hyp;
    try reflexivity; try discriminate;
    try (left; lia); try (right; congruence).
  destruct Hyp as [Hyp|Hyp]; [lia|congruence].
Qed.

Context `{ParseLayer} `{ReTemplate}.

(** C6.  [mailing_from_raw_tax] on exactly three text fragments parses
    the delivery line from the first and the last line from the second
    (city and state) and the third (zip) into a [Mailing]; on no text
    fragment it returns [None]; on any other number of text fragments it
    raises [NotImplementedError], the fatal error the specification names
    [MalformedAddressError]. *)
Theorem mailing_from_raw_tax_spec :
  forall data : list PageElement,
    mailing_from_raw_tax data =
    match text_fragments data with
    | [f1; f2; f3] =>
        (delivery_line <- mortgage_delivery_address_line f1 ;;
         last_line <- mortgage_last_line f2 f3 ;;
         Return (Some {| delivery := delivery_line; last := last_line |})
        )%outcome
    | [] => Return None
    | _ => Raise NotImplementedError
    end.
Proof.
  intros data. unfold mailing_from_raw_tax.
  rewrite _clean_tags_text_fragments.
  destruct (text_fragments data) as [|f1 [|f2 [|f3 [|f4 l]]]]; reflexivity.
Qed.

(** Whatever the replacement, [re.sub] of the attention pattern on the
    empty string is the empty string. *)
Lemma re_sub_ATT_pattern_empty (repl : string) :
  Py.re_sub ATT_pattern repl "" = "".
Proof. reflexivity. Qed.

(** C7.  On the three text fragments "ATTN: JOHN DOE", a delivery line
    and a last line, [mailing_from_raw_general] calls [re.sub] with the
    first fragment as the replacement and the empty string as the
    subject, so the attention field it sets is the empty string; the
    fragment without its prefix is "JOHN DOE". *)
Theorem mailing_from_raw_general_attn_empty :
  (forall f2 f3 : string,
      mailing_from_raw_general
        [NavigableString "ATTN: JOHN DOE"; NavigableString f2;
         NavigableString f3]
      = (delivery_line <- general_delivery_address_line f2 ;;
         last_line <- general_city_state_zip f3 ;;
         Return (Some {| delivery := set_attn delivery_line (Some "");
                         last := last_line |}))%outcome)
  /\ Py.re_sub ATT_pattern "" "ATTN: JOHN DOE" = "JOHN DOE".
Proof.
  split; [|reflexivity].
  intros f2 f3. reflexivity.
Qed.

End Normalizer.

(* ===================================================================== *)
(** * The reconciliation engine: proofs                                   *)
(* ===================================================================== *)

(** The journal of a case of the engine, normalised and read off. *)
Ltac read_journal :=
  match goal with
  | |- exists ops, ?J = _ /\ _ =>
      let j := fresh "j" in
      let EJ := fresh "EJ" in
      remember J as j eqn:EJ; cbn in EJ;
      rewrite <- ?app_assoc in EJ; cbn [app] in EJ; subst j;
      first [ exists []; split; [now rewrite app_nil_r|reflexivity]
            | eexists; split; reflexivity ]
  end.

Section Engine.

Lemma option_eqb_eq {A : Type} (eqb : A -> A -> bool) (x y : option A) :
  (forall a b, eqb a b = true -> a = b) ->
  option_eqb eqb x y = true -> x = y.
Proof.
  intros Heq. destruct x, y; simpl; intros E; try discriminate; auto.
  f_equal. now apply Heq.
Qed.

Lemma Owner_eqb_eq (a b : Owner) : Owner_eqb a b = true -> a = b.
Proof.
  destruct a, b. unfold Owner_eqb. simpl. intros E.
  apply andb_prop in E. destruct E as [E1 E2].
  apply String.eqb_eq in E1. apply Bool.eqb_prop in E2. congruence.
Qed.

Lemma Mailing_eqb_eq (a b : Mailing) : Mailing_eqb a b = true -> a = b.
Proof.
  destruct a as [[p1 a1 n1 s1 x1] [c1 t1 z1]].
  destruct b as [[p2 a2 n2 s2 x2] [c2 t2 z2]].
  unfold Mailing_eqb, DeliveryAddressLine_eqb, LastLine_eqb. simpl.
  intros E.
  repeat match goal with
         | H : _ && _ = true |- _ => apply andb_prop in H; destruct H
         end.
  repeat match goal with
         | H : String.eqb _ _ = true |- _ => apply String.eqb_eq in H
         | H : Bool.eqb _ _ = true |- _ => apply Bool.eqb_prop in H
         | H : option_eqb String.eqb _ _ = true |- _ =>
             apply (option_eqb_eq String.eqb) in H;
             [|intros ? ?; apply String.eqb_eq]
         end.
  congruence.
Qed.

(** The engine is its address side, then its human side, then the
    cross-link, made when either side changed. *)
Lemma _sync_owner_and_mailing_sides county_data cog_tables roles :
  _sync_owner_and_mailing county_data cog_tables roles
  = (address <- address_side county_data cog_tables (fst roles) ;;
     human <- human_side county_data cog_tables (snd roles) ;;
     (if negb (same_owner county_data cog_tables)
         || negb (same_mailing county_data cog_tables)
      then link.human_to_address (fst human) (fst address) (snd roles)
      else ret tt) ;;
     ret {| owner := snd human; mailing := snd address |})%program.
Proof. reflexivity. Qed.

Lemma address_side_same county_data cog_tables address_role db :
  same_mailing county_data cog_tables = true ->
  address_side county_data cog_tables address_role db
  = (Return (current_address_id cog_tables, mailing county_data), db).
Proof. intros E. unfold address_side. now rewrite E. Qed.

Lemma human_side_same county_data cog_tables addressee_role db :
  same_owner county_data cog_tables = true ->
  human_side county_data cog_tables addressee_role db
  = (Return (current_human_id cog_tables, owner county_data), db).
Proof. intros E. unfold human_side. now rewrite E. Qed.

(** The human side writes no address, street or city/state/zip row and
    no parcel-to-address link. *)
Lemma human_side_frame county_data cog_tables addressee_role db :
  let db' := snd (human_side county_data cog_tables addressee_role db) in
  addresses db' = addresses db
  /\ streets db' = streets db
  /\ city_state_zips db' = city_state_zips db
  /\ parcel_addresses db' = parcel_addresses db.
Proof.
  unfold human_side.
  destruct (same_owner county_data cog_tables); [cbn; auto|].
  destruct (owner county_data) as [o|];
    destruct cog_tables as [[p a pa s c h ha hp]|]; cbn;
    try destruct (truthy_key hp); try destruct ha; try destruct h;
    try destruct p; cbn; auto.
Qed.

(** A step of a program that returns. *)
Lemma bind_Return {A B : Type} (c : M A) (k : A -> M B) db a db' :
  c db = (Return a, db') -> bind c k db = k a db'.
Proof. intros E. unfold bind. now rewrite E. Qed.

Lemma bind_unfold {A B : Type} (c : M A) (k : A -> M B) db :
  bind c k db
  = match c db with
    | (Return a, db') => k a db'
    | (Raise e, db') => (Raise e, db')
    end.
Proof. reflexivity. Qed.

(** What an ensure returns carries the attributes asked for, and the call
    is added to the journal. *)
Lemma ensure_human_run name_ multi db :
  exists h db',
    ensure.human name_ multi db = (Return h, db')
    /\ Human.name h = name_ /\ Human.multihuman h = multi
    /\ journal db' = (journal db ++ [ensure_human name_ multi])%list
    /\ human_addresses db' = human_addresses db.
Proof.
  unfold ensure.human.
  match goal with |- context [find ?f ?l] => destruct (find f l) eqn:F end.
  - apply find_some in F. destruct F as [_ F].
    repeat (apply andb_prop in F; destruct F as [F ?]).
    apply String.eqb_eq in F.
    match goal with H : Bool.eqb _ _ = true |- _ => apply Bool.eqb_prop in H end.
    do 2 eexists. split; [reflexivity|]. cbn. auto.
  - do 2 eexists. split; [reflexivity|]. cbn. auto.
Qed.

Lemma ensure_city_state_zip_run city_ state_ zip_ db :
  exists r db',
    ensure.city_state_zip city_ state_ zip_ db = (Return r, db')
    /\ MailingCityStateZip.city r = city_
    /\ MailingCityStateZip.state_abbr r = state_
    /\ MailingCityStateZip.zip_code r = zip_
    /\ journal db'
       = (journal db ++ [ensure_city_state_zip city_ state_ zip_])%list.
Proof.
  unfold ensure.city_state_zip.
  match goal with |- context [find ?f ?l] => destruct (find f l) eqn:F end.
  - apply find_some in F. destruct F as [_ F].
    repeat (apply andb_prop in F; destruct F as [F ?]).
    repeat match goal with
           | H : String.eqb _ _ = true |- _ => apply String.eqb_eq in H
           end.
    do 2 eexists. split; [reflexivity|]. cbn. auto.
  - do 2 eexists. split; [reflexivity|]. cbn. auto.
Qed.

Lemma ensure_street_run csz_id name_ pobox_ db :
  exists r db',
    ensure.street csz_id name_ pobox_ db = (Return r, db')
    /\ MailingStreet.name r = name_
    /\ MailingStreet.pobox r = pobox_
    /\ journal db' = (journal db ++ [ensure_street csz_id name_ pobox_])%list.
Proof.
  unfold ensure.street.
  match goal with |- context [find ?f ?l] => destruct (find f l) eqn:F end.
  - apply find_some in F. destruct F as [_ F].
    repeat (apply andb_prop in F; destruct F as [F ?]).
    repeat match goal with
           | H : String.eqb _ _ = true |- _ => apply String.eqb_eq in H
           | H : Bool.eqb _ _ = true |- _ => apply Bool.eqb_prop in H
           end.
    do 2 eexists. split; [reflexivity|]. cbn. auto.
  - do 2 eexists. split; [reflexivity|]. cbn. auto.
Qed.

Lemma ensure_address_run street_id number_ attn_ secondary_ db :
  exists r db',
    ensure.address street_id number_ attn_ secondary_ db = (Return r, db')
    /\ MailingAddress.bldgno r = number_
    /\ MailingAddress.attention r = attn_
    /\ MailingAddress.secondary r = secondary_
    /\ journal db'
       = (journal db ++ [ensure_address street_id number_ attn_ secondary_])%list.
Proof.
  unfold ensure.address.
  match goal with |- context [find ?f ?l] => destruct (find f l) eqn:F end.
  - apply find_some in F. destruct F as [_ F].
    repeat (apply andb_prop in F; destruct F as [F ?]).
    repeat match goal with
           | H : String.eqb _ _ = true |- _ => apply String.eqb_eq in H
           | H : option_eqb String.eqb _ _ = true |- _ =>
               apply (option_eqb_eq String.eqb) in H;
               [|intros ? ?; apply String.eqb_eq]
           end.
    do 2 eexists. split; [reflexivity|]. cbn. auto.
  - do 2 eexists. split; [reflexivity|]. cbn. auto.
Qed.

(** The retirements of either side return and add their calls to the
    journal. *)
Lemma human_retirements_run (t : CogTables.t) db :
  exists db',
    (when_some (truthy_key (CogTables.human_parcel t))
       (fun id => deactivate.human_to_parcel id) ;;
     when_some (CogTables.human_address t)
       (fun l => deactivate.human_to_address (HumanMailingAddress.linkid l)) ;;
     when_some (CogTables.human t)
       (fun h => deactivate.human (Human.humanid h)))%program db
    = (Return tt, db')
    /\ journal db' = (journal db ++ human_retirements t)%list.
Proof.
  unfold human_retirements.
  destruct t as [p a pa s c h ha hp]; cbn.
  destruct (truthy_key hp), ha, h; cbn; eexists; (split; [reflexivity|]);
    cbn; rewrite <- ?app_assoc, ?app_nil_r; reflexivity.
Qed.

Lemma address_retirements_run (t : CogTables.t) db :
  exists db',
    (when_some (CogTables.parcel_address t)
       (fun l => deactivate.parcel_to_address (ParcelMailingAddress.linkid l)) ;;
     when_some (CogTables.human_address t)
       (fun l => deactivate.human_to_address (HumanMailingAddress.linkid l)) ;;
     when_some (CogTables.address t)
       (fun a => deactivate.address (MailingAddress.addressid a)))%program db
    = (Return tt, db')
    /\ journal db' = (journal db ++ address_retirements t)%list.
Proof.
  unfold address_retirements.
  destruct t as [p a pa s c h ha hp]; cbn.
  destruct pa, ha, a; cbn; eexists; (split; [reflexivity|]);
    cbn; rewrite <- ?app_assoc, ?app_nil_r; reflexivity.
Qed.

(** The human side on a changed owner: the retirements, then the ensure
    of the scraped owner, then the link to the parcel under the
    addressee role; the owner returned is the scraped one. *)
Lemma human_side_changed county_data t addressee_role db o p :
  owner county_data = Some o ->
  CogTables.parcel t = Some p ->
  same_owner county_data (Some t) = false ->
  exists h db',
    human_side county_data (Some t) addressee_role db
    = (Return (Some (Human.humanid h), Some o), db')
    /\ journal db'
       = (journal db ++ human_retirements t
          ++ [ensure_human (name o) (is_multi_entity o);
              link_human_to_parcel (Parcel.parcelkey p) (Human.humanid h)
                addressee_role])%list.
Proof.
  intros Ho Hp Hs. unfold human_side. rewrite Hs. cbn [negb].
  destruct (human_retirements_run t db) as (db1 & E1 & J1).
  rewrite (bind_Return _ _ _ _ _ E1).
  rewrite Ho. cbn [attr]. unfold ret at 1.
  rewrite (bind_Return _ _ db1 o db1 eq_refl).
  destruct (ensure_human_run (name o) (is_multi_entity o) db1)
    as (h & db2 & E2 & Hn & Hm & J2 & _).
  rewrite (bind_Return _ _ _ _ _ E2).
  cbn [attr]. rewrite (bind_Return _ _ db2 t db2 eq_refl).
  rewrite Hp. cbn [attr]. rewrite (bind_Return _ _ db2 p db2 eq_refl).
  exists h. eexists. split.
  - cbn. rewrite Hn, Hm. destruct o; reflexivity.
  - cbn. rewrite J2, J1. rewrite <- !app_assoc. reflexivity.
Qed.

(** The address side on a changed mailing: the retirements, then the
    three ensures with the scraped values, then the link to the parcel
    under the address role; the mailing returned is the scraped one. *)
Lemma address_side_changed county_data t address_role db m p :
  mailing county_data = Some m ->
  CogTables.parcel t = Some p ->
  same_mailing county_data (Some t) = false ->
  exists csz st a db',
    address_side county_data (Some t) address_role db
    = (Return (Some (MailingAddress.addressid a), Some m), db')
    /\ journal db'
       = (journal db ++ address_retirements t
          ++ [ensure_city_state_zip (city (last m)) (state (last m))
                (zip (last m));
              ensure_street (MailingCityStateZip.id csz)
                (street (delivery m)) (is_pobox (delivery m));
              ensure_address (MailingStreet.streetid st)
                (number (delivery m)) (attn (delivery m))
                (secondary (delivery m));
              link_parcel_to_address (Parcel.parcelkey p)
                (MailingAddress.addressid a) address_role])%list.
Proof.
  intros Hm Hp Hs. unfold address_side. rewrite Hs. cbn [negb].
  destruct (address_retirements_run t db) as (db1 & E1 & J1).
  rewrite (bind_Return _ _ _ _ _ E1).
  rewrite Hm. cbn [attr]. rewrite (bind_Return _ _ db1 m db1 eq_refl).
  destruct (ensure_city_state_zip_run (city (last m)) (state (last m))
              (zip (last m)) db1) as (csz & db2 & E2 & C1 & C2 & C3 & J2).
  rewrite (bind_Return _ _ _ _ _ E2).
  destruct (ensure_street_run (MailingCityStateZip.id csz)
              (street (delivery m)) (is_pobox (delivery m)) db2)
    as (st & db3 & E3 & S1 & S2 & J3).
  rewrite (bind_Return _ _ _ _ _ E3).
  destruct (ensure_address_run (MailingStreet.streetid st)
              (number (delivery m)) (attn (delivery m))
              (secondary (delivery m)) db3)
    as (a & db4 & E4 & A1 & A2 & A3 & J4).
  rewrite (bind_Return _ _ _ _ _ E4).
  cbn [attr]. rewrite (bind_Return _ _ db4 t db4 eq_refl).
  rewrite Hp. cbn [attr]. rewrite (bind_Return _ _ db4 p db4 eq_refl).
  exists csz, st, a. eexists. split.
  - cbn. rewrite C1, C2, C3, S1, S2, A1, A2, A3.
    destruct m as [[] []]; reflexivity.
  - cbn. rewrite J4, J3, J2, J1. rewrite <- !app_assoc. reflexivity.
Qed.

Lemma forallb_weaken {A : Type} (P Q : A -> bool) (l : list A) :
  (forall a, P a = true -> Q a = true) ->
  forallb P l = true -> forallb Q l = true.
Proof.
  intros Himp. induction l as [|a l IH]; simpl; [reflexivity|].
  intros E. apply andb_prop in E. destruct E as [Ea El].
  now rewrite (Himp a Ea), (IH El).
Qed.

(** The calls of the human side: none writes an address, street or
    city/state/zip row or a parcel-to-address link. *)
Lemma human_side_journal county_data cog_tables role db :
  exists ops,
    journal (snd (human_side county_data cog_tables role db))
    = (journal db ++ ops)%list
    /\ forallb (fun o => negb (is_address_side_write o)) ops = true.
Proof.
  unfold human_side.
  destruct (same_owner county_data cog_tables); [read_journal|].
  destruct (owner county_data) as [o|];
    destruct cog_tables as [[p a pa s c h ha hp]|];
    cbn [CogTables.human_parcel];
    try destruct (truthy_key hp); try destruct ha; try destruct h;
    try destruct p;
    read_journal.
Qed.

(** C1.  The engine run twice on a parcel without address and with no
    scraped mailing: the chain read back after the first call has no
    human, so the second call with the same scraped owner ensures and
    links again, and leaves a second active human-to-parcel link. *)
Theorem second_sync_without_address_writes_again :
  forall constants : LinkedObjectRole,
    let county_data :=
      {| owner := Some Example.jane; mailing := None |} in
    let current :=
      {| general := Some Example.bare_chain;
         mortgage := Some Example.bare_chain |} in
    let first := _sync_owner_and_mailing county_data
                   (Some Example.bare_chain) general_roles
                   Example.bare_store in
    let second := _sync_owner_and_mailing county_data
                    (Some Example.bare_chain) general_roles (snd first) in
    get_cog_tables Example.bare_store "0001-A-00001" = Return current
    /\ get_cog_tables (snd first) "0001-A-00001" = Return current
    /\ fst first = Return county_data
    /\ fst second = Return county_data
    /\ journal (snd second)
       = (journal (snd first)
          ++ [ensure_human "JANE DOE" false;
              link_human_to_parcel 7 1 (snd general_roles);
              link_human_to_address (Some 1%Z) None (snd general_roles)])%list
    /\ List.length (human_parcels (snd first)) = 1
    /\ List.length (human_parcels (snd second)) = 2.
Proof.
  intros constants. cbv zeta. repeat split; reflexivity.
Qed.

(** C2, as stated, fails: with the mailing unchanged and the owner
    changed, the engine retires the human-to-address link of the chain
    and creates a human-to-parcel and a human-to-address link. *)
Lemma unchanged_mailing_changed_owner_relinks :
  let county_data :=
    {| owner := Some Example.john; mailing := Some Example.main_street |} in
  let run := _sync_owner_and_mailing county_data
               (Some Example.settled_chain) (233, 235)%Z
               Example.settled_store in
  same_mailing county_data (Some Example.settled_chain) = true
  /\ @get_cog_tables Example.role_constants Example.settled_store
       "0001-A-00001"
     = Return {| general := Some Example.settled_chain;
                 mortgage := Some Example.bare_chain |}
  /\ human_addresses (snd run) <> human_addresses Example.settled_store
  /\ human_parcels (snd run) <> human_parcels Example.settled_store
  /\ journal (snd run)
     = [deactivate_human_to_address 1; deactivate_human 1;
        ensure_human "JOHN ROE" false; link_human_to_parcel 7 2 235;
        link_human_to_address (Some 2%Z) (Some 1%Z) 235].
Proof.
  cbv zeta. repeat split; try reflexivity; vm_compute; discriminate.
Qed.

(** With the mailing unchanged the engine leaves the address side alone:
    no address, street or city/state/zip row and no parcel-to-address
    link is created or retired, the mailing of a call that returns is the
    one of the current chain, and with the owner unchanged as well
    nothing is written. *)
Lemma unchanged_mailing_frame county_data cog_tables roles db :
  same_mailing county_data cog_tables = true ->
  let run := _sync_owner_and_mailing county_data cog_tables roles db in
  addresses (snd run) = addresses db
  /\ streets (snd run) = streets db
  /\ city_state_zips (snd run) = city_state_zips db
  /\ parcel_addresses (snd run) = parcel_addresses db
  /\ (exists ops,
        journal (snd run) = (journal db ++ ops)%list
        /\ forallb (fun o => negb (is_address_side_write o)) ops = true)
  /\ (forall result,
        fst run = Return result ->
        mailing result
        = mailing (_cog_tables_to_owner_and_mailing cog_tables))
  /\ (same_owner county_data cog_tables = true ->
      run = (Return (_cog_tables_to_owner_and_mailing cog_tables), db)).
Proof.
  intros Hm. cbv zeta.
  assert (Hmail : mailing county_data
                  = mailing (_cog_tables_to_owner_and_mailing cog_tables)).
  { apply (option_eqb_eq Mailing_eqb); [apply Mailing_eqb_eq|exact Hm]. }
  rewrite _sync_owner_and_mailing_sides.
  rewrite (bind_Return _ _ _ _ _ (address_side_same _ _ _ _ Hm)).
  pose proof (human_side_frame county_data cog_tables (snd roles) db) as Hf.
  cbv zeta in Hf.
  destruct (human_side_journal county_data cog_tables (snd roles) db)
    as (ops & J & R).
  destruct (same_owner county_data cog_tables) eqn:Ho.
  - rewrite (bind_Return _ _ _ _ _ (human_side_same _ _ _ _ Ho)).
    rewrite Hm. cbn.
    assert (Hown : owner county_data
                   = owner (_cog_tables_to_owner_and_mailing cog_tables)).
    { apply (option_eqb_eq Owner_eqb); [apply Owner_eqb_eq|exact Ho]. }
    repeat split; auto.
    + exists []. split; [now rewrite app_nil_r|reflexivity].
    + intros result E. inversion E. exact Hmail.
    + rewrite Hown, Hmail.
      now destruct (_cog_tables_to_owner_and_mailing cog_tables).
  - cbv beta. rewrite bind_unfold, Hm.
    destruct (human_side county_data cog_tables (snd roles) db)
      as [[h|e] db1]; cbn in Hf, J |- *;
      destruct Hf as (F1 & F2 & F3 & F4);
      (split; [exact F1|]); (split; [exact F2|]); (split; [exact F3|]);
      (split; [exact F4|]); (split; [|split; [|discriminate]]).
    + exists (ops ++ [link_human_to_address (fst h)
                        (current_address_id cog_tables) (snd roles)])%list.
      rewrite J, <- app_assoc. split; [reflexivity|].
      rewrite forallb_app, R. reflexivity.
    + intros result E. inversion E. exact Hmail.
    + exists ops. auto.
    + discriminate.
Qed.

(** With the mailing unchanged and the owner changed, the calls of the
    engine are those of the human side and the cross-link to the address
    of the chain. *)
Lemma unchanged_mailing_changed_owner county_data t roles db o p :
  same_mailing county_data (Some t) = true ->
  owner county_data = Some o ->
  CogTables.parcel t = Some p ->
  same_owner county_data (Some t) = false ->
  exists h db',
    _sync_owner_and_mailing county_data (Some t) roles db
    = (Return {| owner := Some o; mailing := mailing county_data |}, db')
    /\ journal db'
       = (journal db ++ human_retirements t
          ++ [ensure_human (name o) (is_multi_entity o);
              link_human_to_parcel (Parcel.parcelkey p) (Human.humanid h)
                (snd roles);
              link_human_to_address (Some (Human.humanid h))
                (current_address_id (Some t)) (snd roles)])%list.
Proof.
  intros Hm Ho Hp Hso.
  rewrite _sync_owner_and_mailing_sides.
  rewrite (bind_Return _ _ _ _ _ (address_side_same _ _ _ _ Hm)).
  destruct (human_side_changed county_data t (snd roles) db o p Ho Hp Hso)
    as (h & db1 & E1 & J1).
  rewrite (bind_Return _ _ _ _ _ E1). rewrite Hso.
  exists h. eexists. split; [reflexivity|].
  cbn. rewrite J1. rewrite <- !app_assoc. reflexivity.
Qed.

(** C2, amended.  When the scraped mailing equals the projection of the
    current chain, the engine creates and retires no address, street or
    city/state/zip row and no parcel-to-address link, and the mailing
    that a call returns is the one of the current chain; when the owner
    is unchanged as well it writes nothing at all.  When the owner
    changed, with a scraped owner and a chain that carries its parcel,
    the call returns and its calls are exactly: the retirements of the
    human-to-parcel link, the human-to-address link and the human of the
    chain, each if the chain holds it; the ensure of the scraped owner; a
    human-to-parcel link and a human-to-address link, under the
    addressee role, the latter to the address of the chain. *)
Theorem unchanged_mailing_writes_no_address_row :
  forall county_data cog_tables roles db,
    same_mailing county_data cog_tables = true ->
    let run := _sync_owner_and_mailing county_data cog_tables roles db in
    addresses (snd run) = addresses db
    /\ streets (snd run) = streets db
    /\ city_state_zips (snd run) = city_state_zips db
    /\ parcel_addresses (snd run) = parcel_addresses db
    /\ (exists ops,
          journal (snd run) = (journal db ++ ops)%list
          /\ forallb (fun o => negb (is_address_side_write o)) ops = true)
    /\ (forall result,
          fst run = Return result ->
          mailing result
          = mailing (_cog_tables_to_owner_and_mailing cog_tables))
    /\ (same_owner county_data cog_tables = true ->
        run = (Return (_cog_tables_to_owner_and_mailing cog_tables), db))
    /\ (forall t o p,
          cog_tables = Some t ->
          owner county_data = Some o ->
          CogTables.parcel t = Some p ->
          same_owner county_data cog_tables = false ->
          exists h db',
            run = (Return {| owner := Some o;
                             mailing := mailing county_data |}, db')
            /\ journal db'
               = (journal db ++ human_retirements t
                  ++ [ensure_human (name o) (is_multi_entity o);
                      link_human_to_parcel (Parcel.parcelkey p)
                        (Human.humanid h) (snd roles);
                      link_human_to_address (Some (Human.humanid h))
                        (current_address_id cog_tables) (snd roles)])%list).
Proof.
  intros county_data cog_tables roles db Hm.
  pose proof (unchanged_mailing_frame county_data cog_tables roles db Hm)
    as Frame.
  cbv zeta in Frame |- *.
  destruct Frame as (A & S & C & L & J & R & U).
  repeat (split; [assumption|]).
  intros t o p -> Ho Hp Hso.
  exact (unchanged_mailing_changed_owner county_data t roles db o p
           Hm Ho Hp Hso).
Qed.

Lemma unchanged_mailing_writes_no_address_row_witness :
  let county_data :=
    {| owner := Some Example.john; mailing := Some Example.main_street |} in
  let run := _sync_owner_and_mailing county_data
               (Some Example.settled_chain) (233, 235)%Z
               Example.settled_store in
  addresses (snd run) = addresses Example.settled_store
  /\ streets (snd run) = streets Example.settled_store
  /\ city_state_zips (snd run) = city_state_zips Example.settled_store
  /\ parcel_addresses (snd run) = parcel_addresses Example.settled_store
  /\ (exists ops,
        journal (snd run) = (journal Example.settled_store ++ ops)%list
        /\ forallb (fun o => negb (is_address_side_write o)) ops = true)
  /\ (forall result,
        fst run = Return result ->
        mailing result
        = mailing (_cog_tables_to_owner_and_mailing
                     (Some Example.settled_chain)))
  /\ (exists h db',
        run = (Return county_data, db')
        /\ journal db'
           = [deactivate_human_to_address 1; deactivate_human 1;
              ensure_human "JOHN ROE" false;
              link_human_to_parcel 7 (Human.humanid h) 235;
              link_human_to_address (Some (Human.humanid h)) (Some 1%Z)
                235]).
Proof.
  pose proof (unchanged_mailing_writes_no_address_row
                {| owner := Some Example.john;
                   mailing := Some Example.main_street |}
                (Some Example.settled_chain) (233, 235)%Z
                Example.settled_store eq_refl) as T.
  cbv zeta in T |- *.
  destruct T as (A & S & C & L & J & R & _ & N).
  repeat (split; [assumption|]).
  exact (N Example.settled_chain Example.john Example.the_parcel
           eq_refl eq_refl eq_refl eq_refl).
Defined.

(** When the scraped owner differs from the owner of the current chain
    and the address side of the call completes (the scraped mailing is
    unchanged or not [None]), the engine returns, and after the calls of
    the address side the journal holds the retirement of the
    human-to-parcel link, of the human-to-address link and of the human,
    each if the chain holds it, then the ensure of the scraped owner, then
    the human-to-parcel link under the addressee role, then the
    cross-link. *)
Lemma changed_owner_retires_ensures_links :
  forall county_data t roles db o p,
    owner county_data = Some o ->
    CogTables.parcel t = Some p ->
    same_owner county_data (Some t) = false ->
    same_mailing county_data (Some t) = true \/ mailing county_data <> None ->
    exists address_ops h address_id db',
      _sync_owner_and_mailing county_data (Some t) roles db
      = (Return {| owner := Some o; mailing := mailing county_data |}, db')
      /\ journal db'
         = (journal db ++ address_ops ++ human_retirements t
            ++ [ensure_human (name o) (is_multi_entity o);
                link_human_to_parcel (Parcel.parcelkey p) (Human.humanid h)
                  (snd roles);
                link_human_to_address (Some (Human.humanid h)) address_id
                  (snd roles)])%list
      /\ (same_mailing county_data (Some t) = true -> address_ops = []).
Proof.
  intros county_data t roles db o p Ho Hp Hso Hma.
  rewrite _sync_owner_and_mailing_sides.
  destruct (same_mailing county_data (Some t)) eqn:Hsm.
  - rewrite (bind_Return _ _ _ _ _ (address_side_same _ _ _ _ Hsm)).
    destruct (human_side_changed county_data t (snd roles) db o p Ho Hp Hso)
      as (h & db1 & E1 & J1).
    rewrite (bind_Return _ _ _ _ _ E1). rewrite Hso.
    exists [], h, (current_address_id (Some t)). eexists.
    split; [reflexivity|]. split; [|reflexivity].
    cbn. rewrite J1. rewrite <- !app_assoc. reflexivity.
  - destruct (mailing county_data) as [m|] eqn:Hm;
      [|destruct Hma; [discriminate|congruence]].
    destruct (address_side_changed county_data t (fst roles) db m p Hm Hp Hsm)
      as (csz & st & a & db1 & E1 & J1).
    rewrite (bind_Return _ _ _ _ _ E1).
    destruct (human_side_changed county_data t (snd roles) db1 o p Ho Hp Hso)
      as (h & db2 & E2 & J2).
    rewrite (bind_Return _ _ _ _ _ E2). rewrite Hso.
    exists (address_retirements t
            ++ [ensure_city_state_zip (city (last m)) (state (last m))
                  (zip (last m));
                ensure_street (MailingCityStateZip.id csz)
                  (street (delivery m)) (is_pobox (delivery m));
                ensure_address (MailingStreet.streetid st)
                  (number (delivery m)) (attn (delivery m))
                  (secondary (delivery m));
                link_parcel_to_address (Parcel.parcelkey p)
                  (MailingAddress.addressid a) (fst roles)])%list,
      h, (Some (MailingAddress.addressid a)).
    eexists. split; [reflexivity|]. split; [|discriminate].
    cbn. rewrite J2, J1. rewrite <- !app_assoc. reflexivity.
Qed.

Lemma changed_owner_retires_ensures_links_example :
  exists address_ops h address_id db',
    _sync_owner_and_mailing
      {| owner := Some Example.john; mailing := Some Example.main_street |}
      (Some Example.settled_chain) (233, 235)%Z Example.settled_store
    = (Return {| owner := Some Example.john;
                 mailing := Some Example.main_street |}, db')
    /\ journal db'
       = (journal Example.settled_store ++ address_ops
          ++ human_retirements Example.settled_chain
          ++ [ensure_human "JOHN ROE" false;
              link_human_to_parcel 7 (Human.humanid h) 235;
              link_human_to_address (Some (Human.humanid h)) address_id 235]
         )%list
    /\ (same_mailing
          {| owner := Some Example.john;
             mailing := Some Example.main_street |}
          (Some Example.settled_chain) = true -> address_ops = []).
Proof.
  exact (changed_owner_retires_ensures_links
           {| owner := Some Example.john;
              mailing := Some Example.main_street |}
           Example.settled_chain (233, 235)%Z Example.settled_store
           Example.john Example.the_parcel
           eq_refl eq_refl eq_refl (or_introl eq_refl)).
Defined.

(** C4.  Two calls with a changed owner, on the chain that
    [get_cog_tables] reads from a store where Jane Doe is linked to the
    parcel and to its address.  With the scraped mailing unchanged, the
    chain read holds no human-to-parcel link, so the active link of Jane
    Doe to the parcel is not retired and a second active link is created
    beside it.  With the scraped mailing [None], the address side retires
    the rows of the chain and raises [AttributeError] on
    [county_data.mailing.last]: the human side is not reached. *)
Theorem changed_owner_leaves_human_parcel_link :
  let moved := {| owner := Some Example.john;
                  mailing := Some Example.main_street |} in
  let gone := {| owner := Some Example.john; mailing := None |} in
  let run county_data :=
    _sync_owner_and_mailing county_data (Some Example.settled_chain)
      (233, 235)%Z Example.settled_store in
  @get_cog_tables Example.role_constants Example.settled_store "0001-A-00001"
  = Return {| general := Some Example.settled_chain;
              mortgage := Some Example.bare_chain |}
  /\ same_owner moved (Some Example.settled_chain) = false
  /\ fst (run moved) = Return moved
  /\ journal (snd (run moved))
     = [deactivate_human_to_address 1; deactivate_human 1;
        ensure_human "JOHN ROE" false; link_human_to_parcel 7 2 235;
        link_human_to_address (Some 2%Z) (Some 1%Z) 235]
  /\ human_parcels (snd (run moved))
     = [Example.the_human_parcel; HumanParcel.mk 2 2 7 235 None]
  /\ same_owner gone (Some Example.settled_chain) = false
  /\ fst (run gone) = Raise AttributeError
  /\ journal (snd (run gone))
     = [deactivate_parcel_to_address 1; deactivate_human_to_address 1;
        deactivate_address 1]
  /\ humans (snd (run gone)) = humans Example.settled_store
  /\ human_parcels (snd (run gone)) = human_parcels Example.settled_store.
Proof.
  cbv zeta. repeat split; reflexivity.
Qed.

(** C10.  When the owner changes, the mailing does not, and the chain
    holds no address, the engine still creates the human-to-address link,
    with [None] as the address id; when the mailing changes, the owner
    does not, and the chain holds no human, it creates the link with
    [None] as the human id. *)
Theorem one_side_changed_links_none :
  (forall county_data t roles db o p,
      owner county_data = Some o ->
      CogTables.parcel t = Some p ->
      CogTables.address t = None ->
      same_mailing county_data (Some t) = true ->
      same_owner county_data (Some t) = false ->
      exists h earlier result db',
        _sync_owner_and_mailing county_data (Some t) roles db
        = (Return result, db')
        /\ journal db'
           = (journal db ++ earlier
              ++ [link_human_to_address (Some (Human.humanid h)) None
                    (snd roles)])%list
        /\ exists l,
            In l (human_addresses db')
            /\ HumanMailingAddress.humanmailing_humanid l
               = Some (Human.humanid h)
            /\ HumanMailingAddress.humanmailing_addressid l = None
            /\ HumanMailingAddress.deactivatedts l = None)
  /\ (forall county_data t roles db m p,
        mailing county_data = Some m ->
        CogTables.parcel t = Some p ->
        CogTables.human t = None ->
        same_owner county_data (Some t) = true ->
        same_mailing county_data (Some t) = false ->
        exists a earlier result db',
          _sync_owner_and_mailing county_data (Some t) roles db
          = (Return result, db')
          /\ journal db'
             = (journal db ++ earlier
                ++ [link_human_to_address None
                      (Some (MailingAddress.addressid a)) (snd roles)])%list
          /\ exists l,
              In l (human_addresses db')
              /\ HumanMailingAddress.humanmailing_humanid l = None
              /\ HumanMailingAddress.humanmailing_addressid l
                 = Some (MailingAddress.addressid a)
              /\ HumanMailingAddress.deactivatedts l = None).
Proof.
  split.
  - intros county_data t roles db o p Ho Hp Ha Hsm Hso.
    rewrite _sync_owner_and_mailing_sides.
    rewrite (bind_Return _ _ _ _ _ (address_side_same _ _ _ _ Hsm)).
    destruct (human_side_changed county_data t (snd roles) db o p Ho Hp Hso)
      as (h & db1 & E1 & J1).
    rewrite (bind_Return _ _ _ _ _ E1). rewrite Hso.
    exists h,
      (human_retirements t
       ++ [ensure_human (name o) (is_multi_entity o);
           link_human_to_parcel (Parcel.parcelkey p) (Human.humanid h)
             (snd roles)])%list.
    do 2 eexists. split; [reflexivity|].
    cbn. rewrite Ha. split.
    + rewrite J1. rewrite <- !app_assoc. reflexivity.
    + eexists. split; [apply in_or_app; right; left; reflexivity|].
      cbn. auto.
  - intros county_data t roles db m p Hm Hp Hh Hso Hsm.
    rewrite _sync_owner_and_mailing_sides.
    destruct (address_side_changed county_data t (fst roles) db m p Hm Hp Hsm)
      as (csz & st & a & db1 & E1 & J1).
    rewrite (bind_Return _ _ _ _ _ E1).
    rewrite (bind_Return _ _ _ _ _ (human_side_same _ _ _ _ Hso)).
    rewrite Hsm, orb_true_r.
    exists a,
      (address_retirements t
       ++ [ensure_city_state_zip (city (last m)) (state (last m))
             (zip (last m));
           ensure_street (MailingCityStateZip.id csz)
             (street (delivery m)) (is_pobox (delivery m));
           ensure_address (MailingStreet.streetid st)
             (number (delivery m)) (attn (delivery m))
             (secondary (delivery m));
           link_parcel_to_address (Parcel.parcelkey p)
             (MailingAddress.addressid a) (fst roles)])%list.
    do 2 eexists. split; [reflexivity|].
    cbn. rewrite Hh. split.
    + rewrite J1. rewrite <- !app_assoc. reflexivity.
    + eexists. split; [apply in_or_app; right; left; reflexivity|].
      cbn. auto.
Qed.

Lemma one_side_changed_links_none_witness :
  (exists h earlier result db',
      _sync_owner_and_mailing
        {| owner := Some Example.jane; mailing := None |}
        (Some Example.bare_chain) (233, 235)%Z Example.bare_store
      = (Return result, db')
      /\ journal db'
         = (journal Example.bare_store ++ earlier
            ++ [link_human_to_address (Some (Human.humanid h)) None 235])%list
      /\ exists l,
          In l (human_addresses db')
          /\ HumanMailingAddress.humanmailing_humanid l
             = Some (Human.humanid h)
          /\ HumanMailingAddress.humanmailing_addressid l = None
          /\ HumanMailingAddress.deactivatedts l = None)
  /\ (exists a earlier result db',
        _sync_owner_and_mailing
          {| owner := None; mailing := Some Example.main_street |}
          (Some Example.bare_chain) (233, 235)%Z Example.bare_store
        = (Return result, db')
        /\ journal db'
           = (journal Example.bare_store ++ earlier
              ++ [link_human_to_address None
                    (Some (MailingAddress.addressid a)) 235])%list
        /\ exists l,
            In l (human_addresses db')
            /\ HumanMailingAddress.humanmailing_humanid l = None
            /\ HumanMailingAddress.humanmailing_addressid l
               = Some (MailingAddress.addressid a)
            /\ HumanMailingAddress.deactivatedts l = None).
Proof.
  split.
  - exact (proj1 one_side_changed_links_none
             {| owner := Some Example.jane; mailing := None |}
             Example.bare_chain (233, 235)%Z Example.bare_store
             Example.jane Example.the_parcel
             eq_refl eq_refl eq_refl eq_refl eq_refl).
  - exact (proj2 one_side_changed_links_none
             {| owner := None; mailing := Some Example.main_street |}
             Example.bare_chain (233, 235)%Z Example.bare_store
             Example.main_street Example.the_parcel
             eq_refl eq_refl eq_refl eq_refl eq_refl).
Defined.

End Engine.

(* ===================================================================== *)
(** * The active-record reader: proofs                                    *)
(* ===================================================================== *)

Section Reader.

Context `{LinkedObjectRole}.

Lemma scalar_one_none {A : Type} (f : A -> bool) (rows : list A) :
  (forall r, In r rows -> f r = false) ->
  scalar_one (filter f rows) = Raise NoResultFound.
Proof.
  intros Hf. destruct (filter f rows) as [|r rs] eqn:E; [reflexivity|].
  assert (Hin : In r (filter f rows)) by (rewrite E; now left).
  apply filter_In in Hin. destruct Hin as [Hin Hr].
  rewrite (Hf r Hin) in Hr. discriminate.
Qed.

Lemma scalar_one_filter_Return {A : Type} (f : A -> bool) (rows : list A) r :
  scalar_one (filter f rows) = Return r -> In r rows /\ f r = true.
Proof.
  intros E. apply filter_In.
  destruct (filter f rows) as [|x [|y rest]]; try discriminate.
  inversion E. now left.
Qed.

Lemma select_parcel_missing db parcel_id :
  ~ parcel_exists db parcel_id ->
  select.parcel db parcel_id = Raise NoResultFound.
Proof.
  intros Hno. unfold select.parcel. apply scalar_one_none.
  intros r Hin.
  destruct (String.eqb_spec (Parcel.parcelidcnty r) parcel_id) as [E|E];
    [|reflexivity].
  destruct (Parcel.deactivatedts r) eqn:D; [reflexivity|].
  exfalso. apply Hno. exists r. auto.
Qed.

(** The chain read for a link holds that link. *)
Lemma chain_of_link_parcel_address db l t :
  chain_of_link db l = Return t ->
  CogTables.parcel_address t = Some l.
Proof.
  unfold chain_of_link, obind. intros E.
  repeat match type of E with
         | match ?x with _ => _ end = _ => destruct x; try discriminate
         end;
    inversion E; reflexivity.
Qed.

Lemma all_chains_parcel_addresses db links chains :
  all_chains db links = Return chains ->
  map CogTables.parcel_address chains = map Some links.
Proof.
  revert chains. induction links as [|l links IH]; intros chains E.
  - inversion E. reflexivity.
  - simpl in E. unfold obind in E.
    destruct (chain_of_link db l) as [t|] eqn:Et; [|discriminate].
    destruct (all_chains db links) as [ts|]; [|discriminate].
    inversion E. simpl.
    rewrite (chain_of_link_parcel_address _ _ _ Et).
    now rewrite (IH ts eq_refl).
Qed.

(** The chain of a link with its address sub-chain intact and its human
    sub-chain absent: it is read, with no human. *)
Lemma chain_of_link_no_human db l a :
  address_chain_intact db l a ->
  human_chain_absent db a ->
  exists t,
    chain_of_link db l = Return t
    /\ CogTables.human t = None /\ CogTables.human_address t = None.
Proof.
  intros (Ea & s & c & Es & Ec) Hh. unfold chain_of_link.
  rewrite Ea. cbn [obind]. rewrite Es. cbn [obind]. rewrite Ec. cbn [obind].
  destruct Hh as [Eh|(ha & Eh & Eu)].
  - rewrite Eh. cbn. eexists. split; [reflexivity|]. auto.
  - rewrite Eh. cbn [obind]. rewrite Eu. cbn. eexists.
    split; [reflexivity|]. auto.
Qed.

Lemma all_chains_no_human db links :
  Forall (fun l => exists a, address_chain_intact db l a
                             /\ human_chain_absent db a) links ->
  exists chains,
    all_chains db links = Return chains
    /\ Forall (fun t => CogTables.human t = None
                        /\ CogTables.human_address t = None) chains.
Proof.
  induction 1 as [|l links (a & Hi & Hh) _ (chains & E & F)].
  - exists []. split; [reflexivity|constructor].
  - destruct (chain_of_link_no_human db l a Hi Hh) as (t & Et & Ht).
    exists (t :: chains). simpl. rewrite Et. cbn [obind]. rewrite E.
    split; [reflexivity|]. now constructor.
Qed.

(** On chains that all hold their link, [_match_number] returns the
    first chain whose link is under the role. *)
Lemma _match_number_first num chains links :
  map CogTables.parcel_address chains = map Some links ->
  _match_number num chains = Return (first_with_role num chains).
Proof.
  revert links. induction chains as [|t chains IH]; intros links E.
  - reflexivity.
  - destruct links as [|l links]; [discriminate|].
    simpl in E. inversion E as [[Et Ec]].
    unfold first_with_role. simpl. rewrite Et. cbn [attribute obind].
    destruct (Z.eqb (ParcelMailingAddress.linkedobjectrole_lorid l) num);
      [reflexivity|].
    exact (IH links Ec).
Qed.

Lemma first_with_role_no_human num chains :
  Forall (fun t => CogTables.human t = None
                   /\ CogTables.human_address t = None) chains ->
  CogTables.human (or_empty (first_with_role num chains)) = None
  /\ CogTables.human_address (or_empty (first_with_role num chains)) = None.
Proof.
  intros F. unfold first_with_role.
  match goal with |- context [find ?f ?l] => destruct (find f l) eqn:E end.
  - apply find_some in E. destruct E as [Hin _].
    rewrite Forall_forall in F. exact (F _ Hin).
  - split; reflexivity.
Qed.

(** No chain that [get_cog_tables] returns holds a human-to-parcel
    link. *)
Lemma chain_of_link_human_parcel db l t :
  chain_of_link db l = Return t -> CogTables.human_parcel t = None.
Proof.
  unfold chain_of_link, obind. intros E.
  repeat match type of E with
         | match ?x with _ => _ end = _ => destruct x; try discriminate
         end;
    inversion E; reflexivity.
Qed.

Lemma all_chains_human_parcel db links chains :
  all_chains db links = Return chains ->
  Forall (fun t => CogTables.human_parcel t = None) chains.
Proof.
  revert chains. induction links as [|l links IH]; intros chains E.
  - inversion E. constructor.
  - simpl in E. unfold obind in E.
    destruct (chain_of_link db l) as [t|] eqn:Et; [|discriminate].
    destruct (all_chains db links) as [ts|]; [|discriminate].
    inversion E. constructor; [|now apply IH].
    exact (chain_of_link_human_parcel _ _ _ Et).
Qed.

Lemma get_cog_tables_human_parcel db parcel_id current c :
  get_cog_tables db parcel_id = Return current ->
  exists t,
    context_chain c current = Some t /\ CogTables.human_parcel t = None.
Proof.
  unfold get_cog_tables, obind. intros E.
  destruct (select.parcel db parcel_id) as [p|]; [|discriminate].
  destruct (all_chains db _) as [chains|] eqn:Ec; [|discriminate].
  pose proof (all_chains_parcel_addresses _ _ _ Ec) as Hmap.
  unfold _match_general, _match_mortgage in E.
  rewrite !(_match_number_first _ _ _ Hmap) in E.
  inversion E; subst current; clear E.
  apply all_chains_human_parcel in Ec. rewrite Forall_forall in Ec.
  assert (Hm : forall num,
             CogTables.human_parcel (or_empty (first_with_role num chains))
             = None).
  { intros num. unfold first_with_role.
    match goal with |- context [find ?f ?l] => destruct (find f l) eqn:F end;
      [|reflexivity].
    apply find_some in F. exact (Ec _ (proj1 F)). }
  destruct c; cbn [context_chain general mortgage]; eexists;
    (split; [reflexivity|]); apply Hm.
Qed.

(** What the reader tolerates.  [get_cog_tables] raises [NoResultFound],
    the error the specification names [NotFoundError], when no active
    parcel has the given id.  With the parcel there and no active
    address link, the chains of both contexts are empty but for the
    parcel; with links whose address, street and city/state/zip are
    there and whose human sub-chain is absent, the [except] clause of
    the loop gives chains whose human and human-to-address link are
    [None]. *)
Lemma get_cog_tables_absent_chains :
  forall db parcel_id,
    (~ parcel_exists db parcel_id ->
     get_cog_tables db parcel_id = Raise NoResultFound)
    /\ (forall p,
          select.parcel db parcel_id = Return p ->
          select.parcel_mailing_addresses db (Parcel.parcelkey p) = [] ->
          get_cog_tables db parcel_id
          = Return
              {| general := Some (CogTables.set_parcel CogTables.empty (Some p));
                 mortgage := Some (CogTables.set_parcel CogTables.empty (Some p)) |})
    /\ (forall p,
          select.parcel db parcel_id = Return p ->
          Forall (fun l => exists a, address_chain_intact db l a
                                     /\ human_chain_absent db a)
                 (select.parcel_mailing_addresses db (Parcel.parcelkey p)) ->
          exists g m,
            get_cog_tables db parcel_id
            = Return {| general := Some g; mortgage := Some m |}
            /\ CogTables.parcel g = Some p
            /\ CogTables.human g = None
            /\ CogTables.human_address g = None
            /\ CogTables.parcel m = Some p
            /\ CogTables.human m = None
            /\ CogTables.human_address m = None).
Proof.
  intros db parcel_id. repeat split.
  - intros Hno. unfold get_cog_tables.
    now rewrite (select_parcel_missing _ _ Hno).
  - intros p Ep El. unfold get_cog_tables.
    rewrite Ep. cbn [obind]. rewrite El. reflexivity.
  - intros p Ep F. unfold get_cog_tables.
    rewrite Ep. cbn [obind].
    destruct (all_chains_no_human db _ F) as (chains & E & Fc).
    rewrite E. cbn [obind].
    pose proof (all_chains_parcel_addresses _ _ _ E) as Hmap.
    unfold _match_general, _match_mortgage.
    rewrite !(_match_number_first _ _ _ Hmap). cbn [obind].
    destruct (first_with_role_no_human GENERAL_HUMAN_MAILING_ADDRESS chains Fc)
      as (G1 & G2).
    destruct (first_with_role_no_human MORTGAGE_HUMAN_MAILING_ADDRESS chains Fc)
      as (M1 & M2).
    do 2 eexists. split; [reflexivity|].
    cbn [CogTables.set_parcel CogTables.human CogTables.human_address
         CogTables.parcel].
    repeat split; assumption.
Qed.

(** A link of the list stops the reader when reading its chain raises,
    the links before it having been read. *)
Lemma all_chains_stops db before l after chains e :
  all_chains db before = Return chains ->
  chain_of_link db l = Raise e ->
  all_chains db (before ++ l :: after) = Raise e.
Proof.
  revert chains. induction before as [|x before IH]; intros chains Eb El.
  - simpl. now rewrite El.
  - simpl in Eb |- *. unfold obind in Eb |- *.
    destruct (chain_of_link db x); [|discriminate].
    destruct (all_chains db before) as [ts|] eqn:Ets; [|discriminate].
    now rewrite (IH ts eq_refl El).
Qed.

(** C8.  The reader fails on an absent address sub-chain.  With the
    parcel in the store, active, and an active link of the parcel whose
    address has no active row (the links before it having been read),
    [get_cog_tables] raises [NoResultFound]: [select.address] is called
    outside the [try] that guards the selects of the human sub-chain.
    The error is the one raised for a parcel that is not in the store. *)
Theorem get_cog_tables_retired_address_raises :
  forall db parcel_id p before l after chains,
    select.parcel db parcel_id = Return p ->
    select.parcel_mailing_addresses db (Parcel.parcelkey p)
    = (before ++ l :: after)%list ->
    all_chains db before = Return chains ->
    (forall a,
        In a (addresses db) ->
        MailingAddress.addressid a
        = ParcelMailingAddress.mailingaddress_addressid l ->
        MailingAddress.deactivatedts a <> None) ->
    parcel_exists db parcel_id
    /\ get_cog_tables db parcel_id = Raise NoResultFound
    /\ (forall missing,
          ~ parcel_exists db missing ->
          get_cog_tables db missing = get_cog_tables db parcel_id).
Proof.
  intros db parcel_id p before l after chains Ep El Eb Hret.
  assert (Hraise : get_cog_tables db parcel_id = Raise NoResultFound).
  { unfold get_cog_tables. rewrite Ep. cbn [obind]. rewrite El.
    rewrite (all_chains_stops db before l after chains NoResultFound Eb);
      [reflexivity|].
    unfold chain_of_link, select.address.
    rewrite scalar_one_none; [reflexivity|].
    intros a Hin.
    destruct (Z.eqb_spec (MailingAddress.addressid a)
                (ParcelMailingAddress.mailingaddress_addressid l)) as [E|E];
      [|reflexivity].
    pose proof (Hret a Hin E) as Hd.
    destruct (MailingAddress.deactivatedts a); [reflexivity|congruence]. }
  split; [|split].
  - unfold select.parcel in Ep.
    apply scalar_one_filter_Return in Ep. destruct Ep as [Hin F].
    apply andb_prop in F. destruct F as [Fid Fd].
    exists p. split; [exact Hin|]. split.
    + now apply String.eqb_eq.
    + now destruct (Parcel.deactivatedts p).
  - exact Hraise.
  - intros missing Hno. rewrite Hraise. unfold get_cog_tables.
    now rewrite (select_parcel_missing _ _ Hno).
Qed.

End Reader.

Lemma get_cog_tables_absent_chains_witness :
  @get_cog_tables Example.role_constants Example.bare_store "9999-Z-00009"
  = Raise NoResultFound
  /\ @get_cog_tables Example.role_constants Example.bare_store "0001-A-00001"
     = Return {| general := Some Example.bare_chain;
                 mortgage := Some Example.bare_chain |}
  /\ exists g m,
      @get_cog_tables Example.role_constants Example.unowned_store
        "0001-A-00001"
      = Return {| general := Some g; mortgage := Some m |}
      /\ CogTables.parcel g = Some Example.the_parcel
      /\ CogTables.human g = None
      /\ CogTables.human_address g = None
      /\ CogTables.parcel m = Some Example.the_parcel
      /\ CogTables.human m = None
      /\ CogTables.human_address m = None.
Proof.
  split; [|split].
  - apply (proj1 (@get_cog_tables_absent_chains Example.role_constants
                    Example.bare_store "9999-Z-00009")).
    intros (r & Hin & Hid & _). simpl in Hin.
    destruct Hin as [<-|[]]. discriminate.
  - exact (proj1 (proj2 (@get_cog_tables_absent_chains Example.role_constants
                           Example.bare_store "0001-A-00001"))
             Example.the_parcel eq_refl eq_refl).
  - apply (proj2 (proj2 (@get_cog_tables_absent_chains Example.role_constants
                           Example.unowned_store "0001-A-00001"))
             Example.the_parcel eq_refl).
    repeat constructor. exists Example.the_address. split.
    + split; [reflexivity|].
      exists Example.the_street, Example.the_csz. split; reflexivity.
    + left. reflexivity.
Defined.

(** A link whose address row is retired is not an absent chain: when the
    address of one parcel changes, the engine retires the address row,
    and the chain of another parcel linked to the same address can no
    longer be read. *)
Lemma retired_shared_address_stops_reader :
  let county_data :=
    {| owner := Some Example.john;
       mailing :=
         Some {| delivery := {| is_pobox := false; attn := None;
                                number := "125"; street := "MAIN ST";
                                secondary := None |};
                 last := last Example.main_street |} |} in
  let run := _sync_owner_and_mailing county_data
               (Some Example.unowned_chain) (233, 235)%Z
               Example.shared_store in
  @get_cog_tables Example.role_constants Example.shared_store "0002-B-00002"
  = Return
      {| general :=
           Some (CogTables.mk (Some Example.other_parcel)
                   (Some Example.the_address)
                   (Some Example.other_parcel_address)
                   (Some Example.the_street) (Some Example.the_csz)
                   None None None);
         mortgage :=
           Some (CogTables.set_parcel CogTables.empty
                   (Some Example.other_parcel)) |}
  /\ @get_cog_tables Example.role_constants Example.shared_store
       "0001-A-00001"
     = Return {| general := Some Example.unowned_chain;
                 mortgage := Some Example.bare_chain |}
  /\ (exists result, fst run = Return result)
  /\ @get_cog_tables Example.role_constants (snd run) "0002-B-00002"
     = Raise NoResultFound.
Proof.
  cbv zeta. repeat split; try reflexivity.
  eexists. reflexivity.
Qed.

Lemma get_cog_tables_retired_address_raises_witness :
  let county_data :=
    {| owner := Some Example.john;
       mailing :=
         Some {| delivery := {| is_pobox := false; attn := None;
                                number := "125"; street := "MAIN ST";
                                secondary := None |};
                 last := last Example.main_street |} |} in
  let run := _sync_owner_and_mailing county_data
               (Some Example.unowned_chain) (233, 235)%Z
               Example.shared_store in
  fst run = Return county_data
  /\ parcel_exists (snd run) "0002-B-00002"
  /\ @get_cog_tables Example.role_constants (snd run) "0002-B-00002"
     = Raise NoResultFound.
Proof.
  cbv zeta.
  set (db1 := snd (_sync_owner_and_mailing _ _ _ _)).
  split; [vm_compute; reflexivity|].
  assert (Hp : select.parcel db1 "0002-B-00002" = Return Example.other_parcel)
    by (vm_compute; reflexivity).
  assert (Hl : select.parcel_mailing_addresses db1
                 (Parcel.parcelkey Example.other_parcel)
               = ([] ++ Example.other_parcel_address :: [])%list)
    by (vm_compute; reflexivity).
  assert (Hr : forall a,
             In a (addresses db1) ->
             MailingAddress.addressid a
             = ParcelMailingAddress.mailingaddress_addressid
                 Example.other_parcel_address ->
             MailingAddress.deactivatedts a <> None).
  { assert (Ha : addresses db1
                 = [MailingAddress.mk 1 1 "123" None None (Some 1000%Z);
                    MailingAddress.mk 2 1 "125" None None None])
      by (vm_compute; reflexivity).
    intros a Hin Hid. rewrite Ha in Hin.
    destruct Hin as [<-|[<-|[]]]; discriminate. }
  destruct (@get_cog_tables_retired_address_raises Example.role_constants
              db1 "0002-B-00002" Example.other_parcel []
              Example.other_parcel_address [] [] Hp Hl eq_refl Hr)
    as (Hex & Hraise & _).
  split; assumption.
Defined.

(* ===================================================================== *)
(** * The batch driver: proofs                                            *)
(* ===================================================================== *)

Section Batch.

Context `{ScrapeLayer} `{ParseLayer} `{ReTemplate} `{LinkedObjectRole}.

(** The loop counts every parcel and lists the keys of the unparsed ones,
    when every sync completes or raises [HtmlParsingError]. *)
Lemma sync_each_counts {A : Type} (sync : string -> M A) parcels :
  forall db outcomes db' sync_data,
    batch_run sync db parcels outcomes db' ->
    forallb completed_or_unparsed outcomes = true ->
    sync_each sync parcels sync_data db
    = (Return {| total := total sync_data + Z.of_nat (List.length parcels);
                 skipped := skipped sync_data
                            ++ unparsed_keys parcels outcomes |}, db').
Proof.
  induction parcels as [|parcel rest IH]; intros db outcomes db' sync_data B F.
  - inversion B; subst. simpl. rewrite Z.add_0_r, app_nil_r.
    now destruct sync_data.
  - inversion B as [|? ? ? r db1 rs ? E B']; subst.
    simpl in F. apply andb_prop in F. destruct F as [Fr Frs].
    cbn [sync_each]. rewrite E.
    destruct r as [a|e].
    + rewrite (IH _ _ _ _ B' Frs).
      cbn [total skipped unparsed_keys List.length].
      rewrite Nat2Z.inj_succ. do 3 f_equal. lia.
    + destruct e; try discriminate.
      rewrite (IH _ _ _ _ B' Frs).
      cbn [total skipped unparsed_keys List.length].
      rewrite Nat2Z.inj_succ, <- app_assoc. do 3 f_equal. lia.
Qed.

(** The loop is left by no [HtmlParsingError]. *)
Lemma sync_each_not_aborted {A : Type} (sync : string -> M A) parcels :
  forall db sync_data e db',
    sync_each sync parcels sync_data db = (Raise e, db') ->
    e <> HtmlParsingError.
Proof.
  induction parcels as [|parcel rest IH]; intros db sync_data e db' E.
  - discriminate.
  - cbn [sync_each] in E.
    destruct (sync (Parcel.parcelidcnty parcel) db) as [[a|e1] db1].
    + exact (IH _ _ _ _ E).
    + destruct e1; try (inversion E; discriminate).
      exact (IH _ _ _ _ E).
Qed.

(** A batch always has a run. *)
Lemma batch_run_total {A : Type} (sync : string -> M A) parcels :
  forall db, exists outcomes db', batch_run sync db parcels outcomes db'.
Proof.
  induction parcels as [|parcel rest IH]; intros db.
  - exists [], db. constructor.
  - destruct (sync (Parcel.parcelidcnty parcel) db) as [r db1] eqn:E.
    destruct (IH db1) as (rs & db2 & B).
    exists (r :: rs), db2. econstructor; eassumption.
Qed.

End Batch.

(* ===================================================================== *)
(** * One active link per parcel and role: proofs                         *)
(* ===================================================================== *)

Section Links.

Implicit Types (L : list ParcelMailingAddress.t) (l x : ParcelMailingAddress.t).

Lemma retire_link_active k r stamp id L x :
  In x (filter (is_active_link k r) (retire_link stamp id L)) ->
  In x (filter (is_active_link k r) L)
  /\ ParcelMailingAddress.linkid x <> id.
Proof.
  intros Hin. apply filter_In in Hin. destruct Hin as [Hin Hact].
  unfold retire_link in Hin. apply in_map_iff in Hin.
  destruct Hin as (y & Hy & Hyin).
  destruct (Z.eqb_spec (ParcelMailingAddress.linkid y) id) as [E|E].
  - subst x. unfold is_active_link in Hact. cbn in Hact.
    rewrite andb_false_r in Hact. discriminate.
  - subst x. split; [|exact E]. apply filter_In. auto.
Qed.

Lemma retire_link_count k r stamp id L :
  List.length (filter (is_active_link k r) (retire_link stamp id L))
  <= List.length (filter (is_active_link k r) L).
Proof.
  induction L as [|y L IH]; simpl; [lia|].
  destruct (Z.eqb_spec (ParcelMailingAddress.linkid y) id) as [E|E].
  - replace (is_active_link k r _) with false
      by (unfold is_active_link; cbn; now rewrite andb_false_r).
    destruct (is_active_link k r y); simpl; lia.
  - destruct (is_active_link k r y); simpl; lia.
Qed.

Lemma retire_link_clears k r stamp id L :
  (forall x, In x (filter (is_active_link k r) L) ->
             ParcelMailingAddress.linkid x = id) ->
  filter (is_active_link k r) (retire_link stamp id L) = [].
Proof.
  intros Hall.
  destruct (filter (is_active_link k r) (retire_link stamp id L))
    as [|x rest] eqn:E; [reflexivity|].
  assert (Hin : In x (filter (is_active_link k r) (retire_link stamp id L)))
    by (rewrite E; now left).
  apply retire_link_active in Hin. destruct Hin as [Hin Hne].
  now apply Hall in Hin.
Qed.

Lemma single_active k r L l :
  List.length (filter (is_active_link k r) L) <= 1 ->
  In l (filter (is_active_link k r) L) ->
  forall x, In x (filter (is_active_link k r) L) -> x = l.
Proof.
  intros Hlen Hl x Hx.
  destruct (filter (is_active_link k r) L) as [|y [|z rest]];
    simpl in *; try lia; try contradiction.
  destruct Hl as [<-|[]]. destruct Hx as [<-|[]]. reflexivity.
Qed.

Lemma add_link_active k r k' a r' L :
  filter (is_active_link k r) (add_link k' a r' L)
  = (filter (is_active_link k r) L
     ++ (if Z.eqb k' k && Z.eqb r' r
         then [ParcelMailingAddress.mk
                 (next_id (map ParcelMailingAddress.linkid L)) k' a r' None]
         else []))%list.
Proof.
  unfold add_link. rewrite filter_app. f_equal. simpl.
  unfold is_active_link. cbn. rewrite andb_true_r. reflexivity.
Qed.

Lemma retire_link_ids stamp id L :
  map ParcelMailingAddress.linkid (retire_link stamp id L)
  = map ParcelMailingAddress.linkid L.
Proof.
  unfold retire_link. rewrite map_map. apply map_ext. intros y.
  now destruct (Z.eqb (ParcelMailingAddress.linkid y) id).
Qed.

Lemma next_id_above (ids : list Z) (i : Z) :
  In i ids -> (i < next_id ids)%Z.
Proof.
  unfold next_id.
  induction ids as [|j ids IH]; cbn [fold_right In]; [contradiction|].
  intros [->|Hin]; [lia|]. specialize (IH Hin). lia.
Qed.

Lemma add_link_ids k a r L :
  NoDup (map ParcelMailingAddress.linkid L) ->
  NoDup (map ParcelMailingAddress.linkid (add_link k a r L)).
Proof.
  intros Hnd. unfold add_link. rewrite map_app. cbn [map].
  apply NoDup_app; [exact Hnd|repeat constructor; intros []|].
  intros i Hi [<-|[]]. cbn [ParcelMailingAddress.linkid] in Hi.
  apply next_id_above in Hi. lia.
Qed.

Lemma distinct_keys_distinct_rows L x y :
  NoDup (map ParcelMailingAddress.linkid L) ->
  In x L -> In y L ->
  ParcelMailingAddress.linkid x = ParcelMailingAddress.linkid y -> x = y.
Proof.
  induction L as [|z L IH]; simpl; [contradiction|].
  intros Hnd Hx Hy E. inversion Hnd as [|? ? Hz Hnd']; subst.
  destruct Hx as [->|Hx], Hy as [->|Hy]; auto.
  - exfalso. apply Hz. rewrite E. now apply in_map.
  - exfalso. apply Hz. rewrite <- E. now apply in_map.
Qed.

(** An active link under another role stays active when a link is
    retired by its key. *)
Lemma retire_link_keeps_other k r k' r' stamp L l l' :
  NoDup (map ParcelMailingAddress.linkid L) ->
  r <> r' ->
  In l (filter (is_active_link k r) L) ->
  In l' (filter (is_active_link k' r') L) ->
  In l' (filter (is_active_link k' r')
           (retire_link stamp (ParcelMailingAddress.linkid l) L)).
Proof.
  intros Hnd Hr Hl Hl'.
  apply filter_In in Hl. destruct Hl as [Hl Pl].
  apply filter_In in Hl'. destruct Hl' as [Hl' Pl'].
  apply filter_In. split; [|exact Pl'].
  unfold retire_link. apply in_map_iff. exists l'. split; [|exact Hl'].
  destruct (Z.eqb_spec (ParcelMailingAddress.linkid l')
              (ParcelMailingAddress.linkid l)) as [E|E]; [|reflexivity].
  exfalso. apply (distinct_keys_distinct_rows L l' l Hnd Hl' Hl) in E.
  subst l'. unfold is_active_link in Pl, Pl'.
  repeat match goal with
         | P : _ && _ = true |- _ => apply andb_prop in P; destruct P
         end.
  repeat match goal with
         | P : Z.eqb _ _ = true |- _ => apply Z.eqb_eq in P
         end.
  congruence.
Qed.

End Links.

Section Invariant.

Context `{LinkedObjectRole}.

(** What the address side leaves in the table of the parcel-to-address
    links: the table as it was, or with the link of the chain retired,
    or with that link retired and a link of the parcel of the chain added
    under the address role. *)
Lemma address_side_parcel_addresses county_data cog_tables role db :
  let L := parcel_addresses db in
  let L1 :=
    match cog_tables with
    | Some t =>
        match CogTables.parcel_address t with
        | Some l => retire_link (now db) (ParcelMailingAddress.linkid l) L
        | None => L
        end
    | None => L
    end in
  let L' :=
    parcel_addresses (snd (address_side county_data cog_tables role db)) in
  L' = L \/ L' = L1
  \/ exists t p a,
      cog_tables = Some t /\ CogTables.parcel t = Some p
      /\ L' = add_link (Parcel.parcelkey p) a role L1.
Proof.
  unfold address_side.
  destruct (same_mailing county_data cog_tables); [left; reflexivity|].
  destruct (mailing county_data) as [m|];
    destruct cog_tables as [[p a pa s c h ha hp]|]; cbn;
    try destruct pa; try destruct ha; try destruct a; try destruct p; cbn;
    try (left; reflexivity); try (right; left; reflexivity);
    right; right; do 3 eexists; repeat split; reflexivity.
Qed.

(** The human side and the cross-link leave that table as it is. *)
Lemma _sync_owner_and_mailing_parcel_addresses county_data cog_tables roles db :
  parcel_addresses
    (snd (_sync_owner_and_mailing county_data cog_tables roles db))
  = parcel_addresses
      (snd (address_side county_data cog_tables (fst roles) db)).
Proof.
  rewrite _sync_owner_and_mailing_sides, bind_unfold.
  destruct (address_side county_data cog_tables (fst roles) db)
    as [[address|e] db1]; [|reflexivity].
  rewrite bind_unfold.
  pose proof (human_side_frame county_data cog_tables (snd roles) db1) as Hf.
  cbv zeta in Hf. destruct Hf as (_ & _ & _ & Hf).
  destruct (human_side county_data cog_tables (snd roles) db1)
    as [[human|e] db2]; cbn [snd] in Hf |- *; [|exact Hf].
  destruct (negb (same_owner county_data cog_tables)
            || negb (same_mailing county_data cog_tables)); cbn; exact Hf.
Qed.

(** One call of the engine on the current chain of a parcel keeps the
    invariant. *)
Lemma _sync_owner_and_mailing_keeps_one_link county_data t roles db :
  at_most_one_active_link db ->
  chain_is_current db (fst roles) t ->
  at_most_one_active_link
    (snd (_sync_owner_and_mailing county_data (Some t) roles db)).
Proof.
  intros Inv (p & Hp & Hcur) k r. unfold active_links.
  rewrite _sync_owner_and_mailing_parcel_addresses.
  pose proof (Inv k r) as Hkr. unfold active_links in Hkr.
  destruct (address_side_parcel_addresses county_data (Some t) (fst roles) db)
    as [E|[E|(t' & p' & a & Et & Hp' & E)]]; rewrite E; clear E.
  - exact Hkr.
  - destruct (CogTables.parcel_address t); [|exact Hkr].
    etransitivity; [apply retire_link_count|exact Hkr].
  - inversion Et; subst t'. rewrite Hp in Hp'. inversion Hp'; subst p'.
    rewrite add_link_active.
    destruct (Z.eqb_spec (Parcel.parcelkey p) k) as [Ek|Ek];
      [destruct (Z.eqb_spec (fst roles) r) as [Er|Er]|]; cbn [andb];
      rewrite ?app_nil_r, ?length_app.
    + subst k r.
      assert (Hclear :
                filter (is_active_link (Parcel.parcelkey p) (fst roles))
                  match CogTables.parcel_address t with
                  | Some l =>
                      retire_link (now db) (ParcelMailingAddress.linkid l)
                        (parcel_addresses db)
                  | None => parcel_addresses db
                  end = []).
      { destruct (CogTables.parcel_address t) as [l|].
        - apply retire_link_clears. intros x Hx.
          now rewrite (single_active _ _ _ l Hkr Hcur x Hx).
        - exact Hcur. }
      rewrite Hclear. simpl. lia.
    + destruct (CogTables.parcel_address t); [|exact Hkr].
      etransitivity; [apply retire_link_count|exact Hkr].
    + destruct (CogTables.parcel_address t); [|exact Hkr].
      etransitivity; [apply retire_link_count|exact Hkr].
Qed.

(** The chains that [get_cog_tables] returns are the current ones. *)
Lemma first_with_role_current db p chains role :
  map CogTables.parcel_address chains
  = map Some (select.parcel_mailing_addresses db (Parcel.parcelkey p)) ->
  chain_is_current db role
    (CogTables.set_parcel (or_empty (first_with_role role chains)) (Some p)).
Proof.
  intros Hmap. exists p. split; [reflexivity|].
  cbn [CogTables.set_parcel CogTables.parcel_address].
  unfold first_with_role.
  match goal with |- context [find ?f ?l] => destruct (find f l) eqn:F end.
  - apply find_some in F. destruct F as [Hin Hrole]. cbn [or_empty].
    assert (Hpa : In (CogTables.parcel_address t)
                     (map CogTables.parcel_address chains))
      by now apply in_map.
    rewrite Hmap in Hpa. apply in_map_iff in Hpa.
    destruct Hpa as (l & El & Hl). rewrite <- El in Hrole |- *.
    unfold select.parcel_mailing_addresses in Hl.
    apply filter_In in Hl. destruct Hl as [Hl Hact].
    apply filter_In. split; [exact Hl|].
    unfold is_active_link. apply andb_prop in Hact.
    destruct Hact as [-> ->]. now rewrite Hrole.
  - cbn [or_empty CogTables.empty CogTables.parcel_address].
    destruct (active_links (Parcel.parcelkey p) role db) as [|x rest] eqn:E;
      [reflexivity|exfalso].
    assert (Hx : In x (active_links (Parcel.parcelkey p) role db))
      by (rewrite E; now left).
    apply filter_In in Hx. destruct Hx as [Hx Hact].
    unfold is_active_link in Hact.
    apply andb_prop in Hact. destruct Hact as [Hact Hnone].
    apply andb_prop in Hact. destruct Hact as [Hkey Hrole].
    assert (Hl : In x (select.parcel_mailing_addresses db (Parcel.parcelkey p))).
    { apply filter_In. split; [exact Hx|]. now rewrite Hkey, Hnone. }
    apply (in_map Some) in Hl. rewrite <- Hmap in Hl.
    apply in_map_iff in Hl. destruct Hl as (t & Et & Ht).
    pose proof (find_none _ _ F t Ht) as Hno. cbv beta in Hno.
    rewrite Et, Hrole in Hno. discriminate.
Qed.

Lemma get_cog_tables_current db parcel_id current c :
  get_cog_tables db parcel_id = Return current ->
  exists t,
    context_chain c current = Some t
    /\ chain_is_current db (context_link_role c) t.
Proof.
  unfold get_cog_tables, obind. intros E.
  destruct (select.parcel db parcel_id) as [p|]; [|discriminate].
  destruct (all_chains db _) as [chains|] eqn:Ec; [|discriminate].
  apply all_chains_parcel_addresses in Ec.
  unfold _match_general, _match_mortgage in E.
  rewrite !(_match_number_first _ _ _ Ec) in E.
  inversion E; subst current; clear E.
  destruct c; cbn [context_chain general mortgage context_link_role];
    eexists; (split; [reflexivity|]);
    now apply first_with_role_current.
Qed.

(** A reconcile call keeps the invariant. *)
Lemma reconcile_keeps_one_link (call : reconcile_call) db :
  roles_agree ->
  at_most_one_active_link db ->
  at_most_one_active_link (snd (reconcile call db)).
Proof.
  intros Hroles Inv. unfold reconcile. rewrite bind_unfold. unfold read.
  destruct (get_cog_tables db (call_parcel call)) as [current|e] eqn:E;
    [|exact Inv].
  destruct (get_cog_tables_current _ _ _ (call_context call) E)
    as (t & Et & Hcur).
  rewrite Et. apply _sync_owner_and_mailing_keeps_one_link; [exact Inv|].
  now rewrite Hroles.
Qed.

(** One call of the engine keeps the keys of the links distinct. *)
Lemma _sync_owner_and_mailing_keeps_keys county_data cog_tables roles db :
  link_keys_distinct db ->
  link_keys_distinct
    (snd (_sync_owner_and_mailing county_data cog_tables roles db)).
Proof.
  unfold link_keys_distinct. intros Hnd.
  rewrite _sync_owner_and_mailing_parcel_addresses.
  assert (Hnd1 :
            NoDup (map ParcelMailingAddress.linkid
                     match cog_tables with
                     | Some t =>
                         match CogTables.parcel_address t with
                         | Some l =>
                             retire_link (now db)
                               (ParcelMailingAddress.linkid l)
                               (parcel_addresses db)
                         | None => parcel_addresses db
                         end
                     | None => parcel_addresses db
                     end)).
  { destruct cog_tables as [t|]; [|exact Hnd].
    destruct (CogTables.parcel_address t); [|exact Hnd].
    now rewrite retire_link_ids. }
  destruct (address_side_parcel_addresses county_data cog_tables (fst roles) db)
    as [E|[E|(t' & p' & a & Et & Hp' & E)]]; rewrite E; clear E.
  - exact Hnd.
  - exact Hnd1.
  - now apply add_link_ids.
Qed.

(** A chain that is current under another role stays current over a call
    of the engine. *)
Lemma _sync_owner_and_mailing_keeps_current county_data t roles db role' t' :
  link_keys_distinct db ->
  chain_is_current db (fst roles) t ->
  fst roles <> role' ->
  chain_is_current db role' t' ->
  chain_is_current
    (snd (_sync_owner_and_mailing county_data (Some t) roles db)) role' t'.
Proof.
  intros Hnd (p & Hp & Hcur) Hr (p' & Hp' & Hcur').
  exists p'. split; [exact Hp'|]. unfold active_links in *.
  rewrite _sync_owner_and_mailing_parcel_addresses.
  assert (H1 :
            match CogTables.parcel_address t' with
            | Some l' =>
                In l' (filter (is_active_link (Parcel.parcelkey p') role')
                         match CogTables.parcel_address t with
                         | Some l =>
                             retire_link (now db)
                               (ParcelMailingAddress.linkid l)
                               (parcel_addresses db)
                         | None => parcel_addresses db
                         end)
            | None =>
                filter (is_active_link (Parcel.parcelkey p') role')
                  match CogTables.parcel_address t with
                  | Some l =>
                      retire_link (now db) (ParcelMailingAddress.linkid l)
                        (parcel_addresses db)
                  | None => parcel_addresses db
                  end = []
            end).
  { destruct (CogTables.parcel_address t) as [l|]; [|exact Hcur'].
    destruct (CogTables.parcel_address t') as [l'|].
    - exact (retire_link_keeps_other _ _ _ _ _ _ _ _ Hnd Hr Hcur Hcur').
    - pose proof (retire_link_count (Parcel.parcelkey p') role' (now db)
                    (ParcelMailingAddress.linkid l) (parcel_addresses db))
        as Hle.
      rewrite Hcur' in Hle. simpl in Hle.
      destruct (filter _ (retire_link _ _ _)); [reflexivity|simpl in Hle; lia]. }
  destruct (address_side_parcel_addresses county_data (Some t) (fst roles) db)
    as [E|[E|(t0 & p0 & a & Et & Hp0 & E)]]; rewrite E; clear E.
  - exact Hcur'.
  - exact H1.
  - rewrite add_link_active.
    destruct (Z.eqb_spec (fst roles) role') as [Er|Er]; [contradiction|].
    rewrite andb_false_r, app_nil_r. exact H1.
Qed.

(** A sync of a parcel, with its two calls of the engine on the chains
    read before the first, keeps the invariant when the two contexts are
    matched on different roles. *)
Lemma sync_parcel_data_keeps_one_link
      `{ScrapeLayer} `{ParseLayer} `{ReTemplate} (parcel_id : string) db :
  roles_agree ->
  GENERAL_HUMAN_MAILING_ADDRESS <> MORTGAGE_HUMAN_MAILING_ADDRESS ->
  at_most_one_active_link db /\ link_keys_distinct db ->
  at_most_one_active_link (snd (sync_parcel_data parcel_id db))
  /\ link_keys_distinct (snd (sync_parcel_data parcel_id db)).
Proof.
  intros Hroles Hdiff (Inv & Hnd).
  unfold sync_parcel_data. rewrite bind_unfold. unfold lift.
  destruct (get_parcel_data_from_county parcel_id) as [county|e];
    [|split; assumption].
  rewrite bind_unfold. unfold read.
  destruct (get_cog_tables db parcel_id) as [current|e] eqn:E;
    [|split; assumption].
  destruct (get_cog_tables_current _ _ _ General E) as (g & Eg & Hg).
  destruct (get_cog_tables_current _ _ _ Mortgage E) as (m & Em & Hm).
  cbn [context_chain] in Eg, Em. rewrite Eg, Em.
  pose proof (Hroles General) as RG. pose proof (Hroles Mortgage) as RM.
  cbn [context_roles context_link_role] in RG, RM, Hg, Hm.
  rewrite <- RG in Hg. rewrite <- RM in Hm.
  assert (Hne : fst general_roles <> fst mortgage_roles) by congruence.
  pose proof (_sync_owner_and_mailing_keeps_one_link
                (gm_general county) g general_roles db Inv Hg) as Inv1.
  pose proof (_sync_owner_and_mailing_keeps_keys
                (gm_general county) (Some g) general_roles db Hnd) as Hnd1.
  pose proof (_sync_owner_and_mailing_keeps_current
                (gm_general county) g general_roles db
                (fst mortgage_roles) m Hnd Hg Hne Hm) as Hm1.
  rewrite bind_unfold.
  destruct (_sync_owner_and_mailing (gm_general county) (Some g)
              general_roles db) as [[out_general|e] db1];
    cbn [snd] in Inv1, Hnd1, Hm1 |- *; [|split; assumption].
  pose proof (_sync_owner_and_mailing_keeps_one_link
                (gm_mortgage county) m mortgage_roles db1 Inv1 Hm1) as Inv2.
  pose proof (_sync_owner_and_mailing_keeps_keys
                (gm_mortgage county) (Some m) mortgage_roles db1 Hnd1) as Hnd2.
  rewrite bind_unfold.
  destruct (_sync_owner_and_mailing (gm_mortgage county) (Some m)
              mortgage_roles db1) as [[out_mortgage|e] db2];
    cbn [snd] in Inv2, Hnd2 |- *; split; assumption.
Qed.

(** Any sequence of syncs keeps the invariant. *)
Lemma after_syncs_one_link `{ScrapeLayer} `{ParseLayer} `{ReTemplate} parcel_ids :
  roles_agree ->
  GENERAL_HUMAN_MAILING_ADDRESS <> MORTGAGE_HUMAN_MAILING_ADDRESS ->
  forall db,
    at_most_one_active_link db /\ link_keys_distinct db ->
    at_most_one_active_link (after_syncs parcel_ids db).
Proof.
  intros Hroles Hdiff.
  induction parcel_ids as [|parcel_id rest IH]; intros db Hdb.
  - exact (proj1 Hdb).
  - simpl. apply IH. now apply sync_parcel_data_keeps_one_link.
Qed.

(** The order of the retirements and creations in a journal. *)
Lemma retired_before_created_after ops :
  retired_before_created true ops = true ->
  forallb (fun o => negb (is_deactivate_parcel_to_address o)) ops = true.
Proof.
  induction ops as [|o ops IH]; simpl; [reflexivity|].
  destruct (is_deactivate_parcel_to_address o); simpl; [discriminate|auto].
Qed.

Lemma retired_before_created_split ops :
  retired_before_created false ops = true ->
  exists before after,
    ops = (before ++ after)%list
    /\ forallb (fun o => negb (is_link_parcel_to_address o)) before = true
    /\ forallb (fun o => negb (is_deactivate_parcel_to_address o)) after
       = true.
Proof.
  induction ops as [|o ops IH]; simpl.
  - intros _. exists [], []. auto.
  - destruct (is_deactivate_parcel_to_address o) eqn:D; simpl.
    + intros Hr. destruct (IH Hr) as (before & after & -> & Hb & Ha).
      exists (o :: before), after. simpl. rewrite Hb, Ha.
      destruct o; try discriminate. auto.
    + destruct (is_link_parcel_to_address o) eqn:K.
      * intros Hr. exists [], (o :: ops). simpl. rewrite D. simpl.
        now rewrite (retired_before_created_after _ Hr).
      * intros Hr. destruct (IH Hr) as (before & after & -> & Hb & Ha).
        exists (o :: before), after. simpl. rewrite K, Hb, Ha. auto.
Qed.

Lemma retired_before_created_app created ops rest :
  retired_before_created created ops = true ->
  forallb (fun o => negb (is_deactivate_parcel_to_address o)) rest = true ->
  retired_before_created created (ops ++ rest) = true.
Proof.
  intros Ho Hr. revert created Ho.
  induction ops as [|o ops IH]; intros created Ho; simpl in *.
  - clear Ho. revert created.
    induction rest as [|o rest IHr]; intros created; simpl in *;
      [reflexivity|].
    apply andb_prop in Hr. destruct Hr as [Hd Hr].
    destruct (is_deactivate_parcel_to_address o); [discriminate|auto].
  - destruct (is_deactivate_parcel_to_address o).
    + apply andb_prop in Ho. destruct Ho as [-> Ho]. simpl. auto.
    + auto.
Qed.

Lemma address_side_journal county_data cog_tables role db :
  exists ops,
    journal (snd (address_side county_data cog_tables role db))
    = (journal db ++ ops)%list
    /\ retired_before_created false ops = true.
Proof.
  unfold address_side.
  destruct (same_mailing county_data cog_tables); [read_journal|].
  destruct (mailing county_data) as [m|];
    destruct cog_tables as [[p a pa s c h ha hp]|];
    try destruct pa; try destruct ha; try destruct a; try destruct p;
    read_journal.
Qed.

(** Within a call, every retirement of a parcel-to-address link comes
    before every creation of one. *)
Lemma _sync_owner_and_mailing_journal county_data cog_tables roles db :
  exists before after,
    journal (snd (_sync_owner_and_mailing county_data cog_tables roles db))
    = (journal db ++ before ++ after)%list
    /\ forallb (fun o => negb (is_link_parcel_to_address o)) before = true
    /\ forallb (fun o => negb (is_deactivate_parcel_to_address o)) after
       = true.
Proof.
  assert (Hops :
            exists ops,
              journal (snd (_sync_owner_and_mailing county_data cog_tables
                              roles db))
              = (journal db ++ ops)%list
              /\ retired_before_created false ops = true).
  { rewrite _sync_owner_and_mailing_sides, bind_unfold.
    destruct (address_side_journal county_data cog_tables (fst roles) db)
      as (ops1 & J1 & R1).
    destruct (address_side county_data cog_tables (fst roles) db)
      as [[address|e] db1]; cbn [snd] in J1 |- *;
      [|exists ops1; auto].
    rewrite bind_unfold.
    destruct (human_side_journal county_data cog_tables (snd roles) db1)
      as (ops2 & J2 & R2).
    apply (forallb_weaken _
             (fun o => negb (is_deactivate_parcel_to_address o))) in R2;
      [|intros [] E; (discriminate || reflexivity)].
    destruct (human_side county_data cog_tables (snd roles) db1)
      as [[human|e] db2]; cbn [snd] in J2 |- *.
    - destruct (negb (same_owner county_data cog_tables)
                || negb (same_mailing county_data cog_tables)); cbn.
      + exists (ops1 ++ ops2
                ++ [link_human_to_address (fst human) (fst address)
                      (snd roles)])%list.
        split; [rewrite J2, J1; now rewrite <- !app_assoc|].
        apply retired_before_created_app; [exact R1|].
        rewrite forallb_app, R2. reflexivity.
      + exists (ops1 ++ ops2)%list.
        split; [rewrite J2, J1; now rewrite <- !app_assoc|].
        now apply retired_before_created_app.
    - exists (ops1 ++ ops2)%list.
      split; [rewrite J2, J1; now rewrite <- !app_assoc|].
      now apply retired_before_created_app. }
  destruct Hops as (ops & J & R).
  destruct (retired_before_created_split ops R)
    as (before & after & -> & Hb & Ha).
  exists before, after. auto.
Qed.

(** C3.  With the address role of each context the role its links are
    matched on, any sequence of reconcile calls, each on the chain that
    [get_cog_tables] reads from the store it finds, leads from a store
    with at most one active parcel-to-address link per parcel and role to
    a store with at most one; and within any call of the engine every
    retirement of a parcel-to-address link is journalled before every
    creation of one. *)
Theorem one_active_link_per_parcel_and_role :
  roles_agree ->
  forall db calls,
    at_most_one_active_link db ->
    at_most_one_active_link (after_calls calls db)
    /\ (forall county_data cog_tables roles db0,
          exists before after,
            journal (snd (_sync_owner_and_mailing county_data cog_tables
                            roles db0))
            = (journal db0 ++ before ++ after)%list
            /\ forallb (fun o => negb (is_link_parcel_to_address o)) before
               = true
            /\ forallb (fun o => negb (is_deactivate_parcel_to_address o))
                 after = true).
Proof.
  intros Hroles db calls Inv. split.
  - revert db Inv. induction calls as [|call calls IH]; intros db Inv.
    + exact Inv.
    + simpl. apply IH. now apply reconcile_keeps_one_link.
  - intros. apply _sync_owner_and_mailing_journal.
Qed.

End Invariant.

Lemma settled_store_one_link :
  at_most_one_active_link Example.settled_store.
Proof.
  intros k r. unfold active_links. simpl.
  destruct (is_active_link k r Example.the_parcel_address); simpl; lia.
Qed.

Lemma one_active_link_per_parcel_and_role_witness :
  at_most_one_active_link
    (@after_calls Example.role_constants
       [mkCall "0001-A-00001" General
          {| owner := Some Example.john;
             mailing := Some Example.main_street |};
        mkCall "0001-A-00001" General
          {| owner := Some Example.john;
             mailing :=
               Some {| delivery := {| is_pobox := false; attn := None;
                                      number := "125"; street := "MAIN ST";
                                      secondary := None |};
                       last := last Example.main_street |} |};
        mkCall "0001-A-00001" Mortgage
          {| owner := Some Example.john;
             mailing := Some Example.main_street |}]
       Example.settled_store).
Proof.
  refine (proj1 (@one_active_link_per_parcel_and_role Example.role_constants
                   _ Example.settled_store _ settled_store_one_link)).
  intros []; reflexivity.
Defined.

(* ===================================================================== *)
(** * Further properties of the value normalizer                          *)
(* ===================================================================== *)

Section NormalizerMore.

Lemma collapse_runs_regular (b : bool) (s : string) :
  regular_spacing b (collapse_runs b s) = true.
Proof.
  revert b. induction s as [|c s IH]; intros b; simpl; [reflexivity|].
  destruct (Py.isspace c) eqn:E.
  - destruct b; [apply IH|]. simpl. apply IH.
  - simpl. rewrite E. apply IH.
Qed.

Lemma regular_spacing_collapse (b : bool) (s : string) :
  regular_spacing b s = true -> collapse_runs b s = s.
Proof.
  revert b. induction s as [|c s IH]; intros b; simpl; [reflexivity|].
  destruct (Py.isspace c) eqn:E.
  - intros R. apply andb_prop in R. destruct R as [R Rs].
    apply andb_prop in R. destruct R as [Rc Rb].
    apply Ascii.eqb_eq in Rc. subst c.
    destruct b; [discriminate|]. now rewrite (IH true Rs).
  - intros R. now rewrite (IH false R).
Qed.

Lemma collapse_runs_content (b : bool) (s : string) :
  without_whitespace (collapse_runs b s) = without_whitespace s.
Proof.
  revert b. induction s as [|c s IH]; intros b; simpl; [reflexivity|].
  destruct (Py.isspace c) eqn:E.
  - destruct b; [apply IH|]. simpl. apply IH.
  - simpl. rewrite E. now rewrite IH.
Qed.

(** X1.  [_clean_whitespace] leaves a string whose only whitespace is
    single spaces; it changes nothing else: the other characters are kept
    in order; it leaves a string as it is exactly when its whitespace is
    already regular, so cleaning twice is cleaning once. *)
Theorem _clean_whitespace_normal_form :
  forall text : string,
    regular_spacing false (_clean_whitespace text) = true
    /\ without_whitespace (_clean_whitespace text) = without_whitespace text
    /\ (_clean_whitespace text = text <-> regular_spacing false text = true)
    /\ _clean_whitespace (_clean_whitespace text) = _clean_whitespace text.
Proof.
  intros text. rewrite !_clean_whitespace_collapse.
  unfold collapse_whitespace_runs.
  pose proof (collapse_runs_regular false text) as R.
  repeat split.
  - exact R.
  - apply collapse_runs_content.
  - intros E. now rewrite <- E.
  - apply regular_spacing_collapse.
  - now apply regular_spacing_collapse.
Qed.

Lemma rstrip_cons (c : ascii) (s : string) :
  Py.rstrip (String c s)
  = match Py.rstrip s with
    | EmptyString => if Py.isspace c then EmptyString else String c EmptyString
    | String d r => String c (String d r)
    end.
Proof. reflexivity. Qed.

Lemma rstrip_idempotent (s : string) : Py.rstrip (Py.rstrip s) = Py.rstrip s.
Proof.
  induction s as [|c s IH]; [reflexivity|].
  rewrite rstrip_cons. destruct (Py.rstrip s) as [|d r] eqn:E.
  - destruct (Py.isspace c) eqn:Ec; [reflexivity|].
    rewrite rstrip_cons. cbn [Py.rstrip]. now rewrite Ec.
  - rewrite rstrip_cons. now rewrite IH.
Qed.

Lemma rstrip_head (c : ascii) (s : string) :
  Py.isspace c = false ->
  exists r, Py.rstrip (String c s) = String c r.
Proof.
  intros E. rewrite rstrip_cons. destruct (Py.rstrip s).
  - rewrite E. eexists. reflexivity.
  - eexists. reflexivity.
Qed.

Lemma strip_idempotent (s : string) : Py.strip (Py.strip s) = Py.strip s.
Proof.
  unfold Py.strip.
  assert (H : Py.lstrip (Py.rstrip (Py.lstrip s)) = Py.rstrip (Py.lstrip s)).
  { induction s as [|c s IH]; [reflexivity|].
    cbn [Py.lstrip]. destruct (Py.isspace c) eqn:E; [exact IH|].
    destruct (rstrip_head c s E) as (r & ->). cbn [Py.lstrip]. now rewrite E. }
  rewrite H. apply rstrip_idempotent.
Qed.

Lemma text_fragments_of_texts (l : list string) :
  text_fragments (map NavigableString l) = l.
Proof. induction l as [|t l IH]; simpl; [reflexivity|now rewrite IH]. Qed.

(** X2.  [owner_from_raw] sees neither the markup between the text
    fragments nor the whitespace around a fragment: it gives the same
    owner on the stripped text fragments alone. *)
Theorem owner_from_raw_ignores_markup_and_padding :
  forall data : list PageElement,
    owner_from_raw data
    = owner_from_raw
        (map (fun t => NavigableString (Py.strip t)) (text_fragments data)).
Proof.
  intros data. unfold owner_from_raw. cbv zeta.
  rewrite !_clean_tags_text_fragments.
  rewrite <- (map_map Py.strip NavigableString).
  rewrite text_fragments_of_texts.
  rewrite map_map, !length_map.
  rewrite (map_ext (fun t => Py.strip (Py.strip t)) Py.strip)
    by (intros t; apply strip_idempotent).
  reflexivity.
Qed.

(** X3.  The two tests of [owner_from_raw] are not one: with more than
    one text fragment the owner is flagged whatever the text, and with at
    most one it is flagged exactly when the whitespace inside the stripped
    text is not regular (a tab, a line break, or two whitespace characters
    in a row). *)
Theorem owner_from_raw_multi_entity :
  forall data : list PageElement,
    is_multi_entity (owner_from_raw data)
    = (1 <? List.length (text_fragments data))%nat
      || negb (regular_spacing false
                 (Py.join " & " (map Py.strip (text_fragments data)))).
Proof.
  intros data. unfold owner_from_raw. cbv zeta.
  rewrite _clean_tags_text_fragments. cbn [is_multi_entity].
  set (joined := Py.join " & " (map Py.strip (text_fragments data))).
  rewrite _clean_whitespace_collapse. unfold collapse_whitespace_runs.
  destruct (String.eqb_spec joined (collapse_runs false joined)) as [E|E];
    cbn [negb].
  - rewrite E, collapse_runs_regular. cbn [negb]. rewrite orb_false_r.
    now destruct (1 <? List.length (text_fragments data))%nat.
  - destruct (regular_spacing false joined) eqn:R.
    + exfalso. apply E. symmetry. now apply regular_spacing_collapse.
    + cbn [negb]. now rewrite orb_true_r.
Qed.

Context `{ParseLayer} `{ReTemplate}.

End NormalizerMore.

(* ===================================================================== *)
(** * Further properties of scraping and of the engine                    *)
(* ===================================================================== *)

Section ScrapeMore.

Context `{ScrapeLayer} `{ParseLayer} `{ReTemplate}.

Lemma get_general_data_from_county_owner parcel_id r :
  get_general_data_from_county parcel_id = Return r -> owner r <> None.
Proof.
  unfold get_general_data_from_county, obind. intros E.
  destruct (general_info parcel_id) as [response|]; [|discriminate].
  destruct (raise_for_status response); [|discriminate].
  destruct (general_html_content (content response)) as [raw|];
    [|discriminate].
  destruct (mailing_from_raw_general (snd raw)); [|discriminate].
  inversion E. discriminate.
Qed.

Lemma get_tax_data_from_county_owner parcel_id r :
  get_tax_data_from_county parcel_id = Return r -> owner r <> None.
Proof.
  unfold get_tax_data_from_county, obind. intros E.
  destruct (tax_info parcel_id) as [response|]; [|discriminate].
  destruct (raise_for_status response); [|discriminate].
  destruct (mortgage_html_content (content response)) as [raw|];
    [|discriminate].
  destruct (mailing_from_raw_tax (snd raw)); [|discriminate].
  inversion E. discriminate.
Qed.

(** X4.  What [get_parcel_data_from_county] returns always has an owner
    for the general and for the mortgage data (the mailing may be
    [None]); a failure status of the general page raises [HTTPError]
    whatever the parsers would do. *)
Theorem get_parcel_data_from_county_owner :
  forall parcel_id,
    (forall r,
        get_parcel_data_from_county parcel_id = Return r ->
        owner (gm_general r) <> None /\ owner (gm_mortgage r) <> None)
    /\ (forall response,
          general_info parcel_id = Return response ->
          status_ok response = false ->
          get_parcel_data_from_county parcel_id = Raise HTTPError).
Proof.
  intros parcel_id. split.
  - intros r. unfold get_parcel_data_from_county, obind. intros E.
    destruct (get_general_data_from_county parcel_id) as [g|] eqn:Eg;
      [|discriminate].
    destruct (get_tax_data_from_county parcel_id) as [t|] eqn:Et;
      [|discriminate].
    inversion E. cbn [gm_general gm_mortgage]. split.
    + exact (get_general_data_from_county_owner _ _ Eg).
    + exact (get_tax_data_from_county_owner _ _ Et).
  - intros response E S. unfold get_parcel_data_from_county,
      get_general_data_from_county.
    rewrite E. cbn [obind]. unfold raise_for_status. now rewrite S.
Qed.

End ScrapeMore.

Lemma get_parcel_data_from_county_owner_witness :
  (owner (gm_general
            {| gm_general := {| owner := Some Example.jane; mailing := None |};
               gm_mortgage := {| owner := Some Example.jane; mailing := None |} |})
   <> None
   /\ owner (gm_mortgage
               {| gm_general := {| owner := Some Example.jane; mailing := None |};
                  gm_mortgage := {| owner := Some Example.jane; mailing := None |} |})
      <> None)
  /\ @get_parcel_data_from_county DownExample.scrape_layer
       BatchExample.parse_layer Example.re_template "0001"
     = Raise HTTPError.
Proof.
  split.
  - exact (proj1 (@get_parcel_data_from_county_owner
                    BatchExample.scrape_layer BatchExample.parse_layer Example.re_template "0001")
             _ eq_refl).
  - exact (proj2 (@get_parcel_data_from_county_owner
                    DownExample.scrape_layer BatchExample.parse_layer Example.re_template "0001")
             (mkResponse false "0001") eq_refl eq_refl).
Defined.

Section EngineMore.

Lemma address_side_returns county_data cog_tables role db :
  same_mailing county_data cog_tables
  || (negb (is_None (mailing county_data)) && has_parcel cog_tables) = true ->
  exists address_id db1,
    address_side county_data cog_tables role db
    = (Return (address_id, mailing county_data), db1)
    /\ (same_mailing county_data cog_tables = true ->
        address_id = current_address_id cog_tables /\ db1 = db)
    /\ (same_mailing county_data cog_tables = false ->
        address_id <> None
        /\ exists t ensured,
            cog_tables = Some t
            /\ journal db1
               = (journal db ++ address_retirements t ++ ensured)%list
            /\ forallb (fun o => negb (is_link_human_to_address o)) ensured
               = true).
Proof.
  intros Hc. destruct (same_mailing county_data cog_tables) eqn:Hs.
  - do 2 eexists. split; [now apply address_side_same|].
    split; [auto|discriminate].
  - cbn [orb] in Hc. apply andb_prop in Hc. destruct Hc as [Hm Hp].
    destruct (mailing county_data) as [m|] eqn:Em; [|discriminate].
    destruct cog_tables as [t|]; [|discriminate].
    cbn [has_parcel] in Hp.
    destruct (CogTables.parcel t) as [p|] eqn:Ep; [|discriminate].
    assert (Em' : mailing county_data = Some m) by exact Em.
    destruct (address_side_changed county_data t role db m p Em' Ep Hs)
      as (csz & st & a & db1 & E & J).
    do 2 eexists. split; [exact E|]. split; [discriminate|].
    intros _. split; [discriminate|].
    do 2 eexists. split; [reflexivity|]. split; [exact J|reflexivity].
Qed.

Lemma bind_Raise {A B : Type} (c : M A) (k : A -> M B) db e db' :
  c db = (Raise e, db') -> bind c k db = (Raise e, db').
Proof. intros E. unfold bind. now rewrite E. Qed.

Lemma address_side_raises county_data cog_tables role db :
  same_mailing county_data cog_tables
  || (negb (is_None (mailing county_data)) && has_parcel cog_tables) = false ->
  exists db1,
    address_side county_data cog_tables role db = (Raise AttributeError, db1).
Proof.
  intros Hc. unfold address_side.
  destruct (same_mailing county_data cog_tables); [discriminate|].
  cbn [orb negb] in Hc |- *.
  assert (Hpre : exists db1,
             match cog_tables with
             | Some t =>
                 (when_some (CogTables.parcel_address t)
                    (fun l => deactivate.parcel_to_address
                                (ParcelMailingAddress.linkid l)) ;;
                  when_some (CogTables.human_address t)
                    (fun l => deactivate.human_to_address
                                (HumanMailingAddress.linkid l)) ;;
                  when_some (CogTables.address t)
                    (fun a => deactivate.address (MailingAddress.addressid a))
                 )%program
             | None => ret tt
             end db = (Return tt, db1)).
  { destruct cog_tables as [t|]; [|eexists; reflexivity].
    destruct (address_retirements_run t db) as (db1 & E & _). eauto. }
  destruct Hpre as (db1 & Epre).
  rewrite (bind_Return _ _ _ _ _ Epre).
  destruct (mailing county_data) as [m|];
    [|eexists; apply bind_Raise; reflexivity].
  cbn [attr]. rewrite (bind_Return _ _ db1 m db1 eq_refl).
  destruct (ensure_city_state_zip_run (city (last m)) (state (last m))
              (zip (last m)) db1) as (csz & db2 & E2 & _).
  rewrite (bind_Return _ _ _ _ _ E2).
  destruct (ensure_street_run (MailingCityStateZip.id csz)
              (street (delivery m)) (is_pobox (delivery m)) db2)
    as (st & db3 & E3 & _).
  rewrite (bind_Return _ _ _ _ _ E3).
  destruct (ensure_address_run (MailingStreet.streetid st)
              (number (delivery m)) (attn (delivery m))
              (secondary (delivery m)) db3)
    as (a & db4 & E4 & _).
  rewrite (bind_Return _ _ _ _ _ E4).
  exists db4.
  destruct cog_tables as [t|]; [|apply bind_Raise; reflexivity].
  cbn [attr]. rewrite (bind_Return _ _ db4 t db4 eq_refl).
  cbn in Hc. destruct (CogTables.parcel t); [discriminate|].
  apply bind_Raise. reflexivity.
Qed.

Lemma human_side_returns county_data cog_tables role db :
  same_owner county_data cog_tables
  || (negb (is_None (owner county_data)) && has_parcel cog_tables) = true ->
  exists human_id db1,
    human_side county_data cog_tables role db
    = (Return (human_id, owner county_data), db1)
    /\ (same_owner county_data cog_tables = true ->
        human_id = current_human_id cog_tables /\ db1 = db)
    /\ (same_owner county_data cog_tables = false ->
        human_id <> None
        /\ exists t ensured,
            cog_tables = Some t
            /\ journal db1
               = (journal db ++ human_retirements t ++ ensured)%list
            /\ forallb (fun o => negb (is_link_human_to_address o)) ensured
               = true).
Proof.
  intros Hc. destruct (same_owner county_data cog_tables) eqn:Hs.
  - do 2 eexists. split; [now apply human_side_same|].
    split; [auto|discriminate].
  - cbn [orb] in Hc. apply andb_prop in Hc. destruct Hc as [Hm Hp].
    destruct (owner county_data) as [o|] eqn:Eo; [|discriminate].
    destruct cog_tables as [t|]; [|discriminate].
    cbn [has_parcel] in Hp.
    destruct (CogTables.parcel t) as [p|] eqn:Ep; [|discriminate].
    assert (Eo' : owner county_data = Some o) by exact Eo.
    destruct (human_side_changed county_data t role db o p Eo' Ep Hs)
      as (h & db1 & E & J).
    do 2 eexists. split; [exact E|]. split; [discriminate|].
    intros _. split; [discriminate|].
    do 2 eexists. split; [reflexivity|]. split; [exact J|reflexivity].
Qed.

Lemma human_side_raises county_data cog_tables role db :
  same_owner county_data cog_tables
  || (negb (is_None (owner county_data)) && has_parcel cog_tables) = false ->
  exists db1,
    human_side county_data cog_tables role db = (Raise AttributeError, db1).
Proof.
  intros Hc. unfold human_side.
  destruct (same_owner county_data cog_tables); [discriminate|].
  cbn [orb negb] in Hc |- *.
  assert (Hpre : exists db1,
             match cog_tables with
             | Some t =>
                 (when_some (truthy_key (CogTables.human_parcel t))
                    (fun id => deactivate.human_to_parcel id) ;;
                  when_some (CogTables.human_address t)
                    (fun l => deactivate.human_to_address
                                (HumanMailingAddress.linkid l)) ;;
                  when_some (CogTables.human t)
                    (fun h => deactivate.human (Human.humanid h)))%program
             | None => ret tt
             end db = (Return tt, db1)).
  { destruct cog_tables as [t|]; [|eexists; reflexivity].
    destruct (human_retirements_run t db) as (db1 & E & _). eauto. }
  destruct Hpre as (db1 & Epre).
  rewrite (bind_Return _ _ _ _ _ Epre).
  destruct (owner county_data) as [o|];
    [|eexists; apply bind_Raise; reflexivity].
  cbn [attr]. rewrite (bind_Return _ _ db1 o db1 eq_refl).
  destruct (ensure_human_run (name o) (is_multi_entity o) db1)
    as (h & db2 & E2 & _).
  rewrite (bind_Return _ _ _ _ _ E2).
  exists db2.
  destruct cog_tables as [t|]; [|apply bind_Raise; reflexivity].
  cbn [attr]. rewrite (bind_Return _ _ db2 t db2 eq_refl).
  cbn in Hc. destruct (CogTables.parcel t); [discriminate|].
  apply bind_Raise. reflexivity.
Qed.

(** A run of the engine returns what it was given or raises
    [AttributeError], on the store its calls have left. *)
Lemma _sync_owner_and_mailing_cases county_data cog_tables roles db :
  exists db',
    _sync_owner_and_mailing county_data cog_tables roles db
    = (if engine_completes county_data cog_tables
       then Return county_data else Raise AttributeError, db').
Proof.
  assert (E : fst (_sync_owner_and_mailing county_data cog_tables roles db)
              = if engine_completes county_data cog_tables
                then Return county_data
                else Raise AttributeError).
  { rewrite _sync_owner_and_mailing_sides. unfold engine_completes.
    destruct (same_mailing county_data cog_tables
              || (negb (is_None (mailing county_data)) && has_parcel cog_tables))
      eqn:Ha.
    - destruct (address_side_returns _ _ (fst roles) db Ha)
        as (aid & db1 & E1 & _).
      rewrite (bind_Return _ _ _ _ _ E1). cbn [andb].
      destruct (same_owner county_data cog_tables
                || (negb (is_None (owner county_data)) && has_parcel cog_tables))
        eqn:Hh.
      + destruct (human_side_returns _ _ (snd roles) db1 Hh)
          as (hid & db2 & E2 & _).
        rewrite (bind_Return _ _ _ _ _ E2).
        destruct (negb (same_owner county_data cog_tables)
                  || negb (same_mailing county_data cog_tables));
          cbn; now destruct county_data.
      + destruct (human_side_raises _ _ (snd roles) db1 Hh) as (db2 & E2).
        rewrite bind_unfold, E2. reflexivity.
    - destruct (address_side_raises _ _ (fst roles) db Ha) as (db1 & E1).
      rewrite bind_unfold, E1. reflexivity. }
  destruct (_sync_owner_and_mailing county_data cog_tables roles db)
    as [r db'].
  cbn [fst] in E. exists db'. now rewrite E.
Qed.

(** X5.  A call of the engine that returns returns the scraped data as
    they are, and it returns only when each side is unchanged or has a
    scraped value and a chain with its parcel to link it to: with a
    changed side that has no scraped value, or no chain or parcel, the
    call does not return. *)
Theorem _sync_owner_and_mailing_result :
  forall county_data cog_tables roles db result db',
    _sync_owner_and_mailing county_data cog_tables roles db
    = (Return result, db') ->
    result = county_data
    /\ engine_completes county_data cog_tables = true.
Proof.
  intros county_data cog_tables roles db result db' E.
  destruct (_sync_owner_and_mailing_cases county_data cog_tables roles db)
    as (db1 & E1).
  rewrite E1 in E.
  destruct (engine_completes county_data cog_tables);
    inversion E; auto.
Qed.

(** The calls of a reconcile that returns, on a chain with its parcel. *)
Lemma _sync_owner_and_mailing_reconcile_ran county_data t p roles db r db' :
  CogTables.parcel t = Some p ->
  _sync_owner_and_mailing county_data (Some t) roles db = (Return r, db') ->
  r = county_data /\ reconcile_ran county_data t p roles db db'.
Proof.
  intros Hp E.
  assert (Hr : r = county_data).
  { destruct (_sync_owner_and_mailing_cases county_data (Some t) roles db)
      as (db1 & E1).
    rewrite E1 in E.
    destruct (engine_completes county_data (Some t)); inversion E; auto. }
  split; [exact Hr|]. clear Hr.
  rewrite _sync_owner_and_mailing_sides in E.
  unfold reconcile_ran, reconcile_calls. cbv zeta.
  destruct (same_mailing county_data (Some t)) eqn:Sm.
  - rewrite (bind_Return _ _ _ _ _ (address_side_same _ _ _ _ Sm)) in E.
    destruct (same_owner county_data (Some t)) eqn:So.
    + rewrite (bind_Return _ _ _ _ _ (human_side_same _ _ _ _ So)) in E.
      cbn in E. inversion E; subst db'.
      split; [discriminate|]. split; [discriminate|].
      exists 0%Z, 0%Z, 0%Z, 0%Z. cbn. now rewrite app_nil_r.
    + destruct (owner county_data) as [o|] eqn:Eo.
      * destruct (human_side_changed county_data t (snd roles) db o p
                    Eo Hp So) as (h & db1 & E1 & J1).
        rewrite (bind_Return _ _ _ _ _ E1) in E.
        cbn in E. inversion E; subst db'.
        split; [discriminate|]. split; [discriminate|].
        exists 0%Z, 0%Z, 0%Z, (Human.humanid h).
        cbn. rewrite J1, <- !app_assoc. reflexivity.
      * exfalso.
        assert (Hc : same_owner county_data (Some t)
                     || (negb (is_None (owner county_data))
                         && has_parcel (Some t)) = false)
          by (rewrite So, Eo; reflexivity).
        destruct (human_side_raises _ _ (snd roles) db Hc) as (db1 & E1).
        rewrite bind_unfold, E1 in E. discriminate.
  - destruct (mailing county_data) as [m|] eqn:Em.
    + destruct (address_side_changed county_data t (fst roles) db m p
                  Em Hp Sm) as (csz & st & a & db1 & E1 & J1).
      rewrite (bind_Return _ _ _ _ _ E1) in E.
      destruct (same_owner county_data (Some t)) eqn:So.
      * rewrite (bind_Return _ _ _ _ _ (human_side_same _ _ _ _ So)) in E.
        cbn in E. inversion E; subst db'.
        split; [discriminate|]. split; [discriminate|].
        exists (MailingCityStateZip.id csz), (MailingStreet.streetid st),
          (MailingAddress.addressid a), 0%Z.
        cbn. rewrite J1, <- !app_assoc. reflexivity.
      * destruct (owner county_data) as [o|] eqn:Eo.
        -- destruct (human_side_changed county_data t (snd roles) db1 o p
                       Eo Hp So) as (h & db2 & E2 & J2).
           rewrite (bind_Return _ _ _ _ _ E2) in E.
           cbn in E. inversion E; subst db'.
           split; [discriminate|]. split; [discriminate|].
           exists (MailingCityStateZip.id csz), (MailingStreet.streetid st),
             (MailingAddress.addressid a), (Human.humanid h).
           cbn. rewrite J2, J1, <- !app_assoc. reflexivity.
        -- exfalso.
           assert (Hc : same_owner county_data (Some t)
                        || (negb (is_None (owner county_data))
                            && has_parcel (Some t)) = false)
             by (rewrite So, Eo; reflexivity).
           destruct (human_side_raises _ _ (snd roles) db1 Hc)
             as (db2 & E2).
           rewrite bind_unfold, E2 in E. discriminate.
    + exfalso.
      assert (Hc : same_mailing county_data (Some t)
                   || (negb (is_None (mailing county_data))
                       && has_parcel (Some t)) = false)
        by (rewrite Sm, Em; reflexivity).
      destruct (address_side_raises _ _ (fst roles) db Hc) as (db1 & E1).
      rewrite bind_unfold, E1 in E. discriminate.
Qed.

Lemma address_retirements_no_cross_link t :
  forallb (fun o => negb (is_link_human_to_address o)) (address_retirements t)
  = true.
Proof.
  unfold address_retirements.
  destruct (CogTables.parcel_address t), (CogTables.human_address t),
    (CogTables.address t); reflexivity.
Qed.

Lemma human_retirements_no_cross_link t :
  forallb (fun o => negb (is_link_human_to_address o)) (human_retirements t)
  = true.
Proof.
  unfold human_retirements.
  destruct (truthy_key (CogTables.human_parcel t)),
    (CogTables.human_address t), (CogTables.human t); reflexivity.
Qed.

(** X6.  The cross-link of a call that returns: with both sides unchanged
    the engine makes no call at all; otherwise its last call, and only
    that one, is [link.human_to_address] under the addressee role, with
    the id of the chain on an unchanged side (which may be [None]) and an
    id that is not [None] on a changed side. *)
Theorem _sync_owner_and_mailing_cross_link :
  forall county_data cog_tables roles db,
    engine_completes county_data cog_tables = true ->
    exists ops,
      journal (snd (_sync_owner_and_mailing county_data cog_tables roles db))
      = (journal db ++ ops)%list
      /\ if same_mailing county_data cog_tables
            && same_owner county_data cog_tables
         then ops = []
         else exists earlier human_id address_id,
             ops = (earlier
                    ++ [link_human_to_address human_id address_id
                          (snd roles)])%list
             /\ forallb (fun o => negb (is_link_human_to_address o)) earlier
                = true
             /\ (if same_owner county_data cog_tables
                 then human_id = current_human_id cog_tables
                 else human_id <> None)
             /\ (if same_mailing county_data cog_tables
                 then address_id = current_address_id cog_tables
                 else address_id <> None).
Proof.
  intros county_data cog_tables roles db Hc.
  unfold engine_completes in Hc. apply andb_prop in Hc.
  destruct Hc as [Ha Hh].
  rewrite _sync_owner_and_mailing_sides.
  destruct (address_side_returns _ _ (fst roles) db Ha)
    as (aid & db1 & E1 & A1 & A2).
  rewrite (bind_Return _ _ _ _ _ E1).
  destruct (human_side_returns _ _ (snd roles) db1 Hh)
    as (hid & db2 & E2 & H1 & H2).
  rewrite (bind_Return _ _ _ _ _ E2).
  destruct (same_mailing county_data cog_tables) eqn:Sm;
    destruct (same_owner county_data cog_tables) eqn:So; cbn.
  - destruct (A1 eq_refl) as [_ ->]. destruct (H1 eq_refl) as [_ ->].
    exists []. split; [now rewrite app_nil_r|reflexivity].
  - destruct (A1 eq_refl) as [-> ->].
    destruct (H2 eq_refl) as (Hn & t & ensured & _ & J & F).
    exists ((human_retirements t ++ ensured)
            ++ [link_human_to_address hid (current_address_id cog_tables)
                  (snd roles)])%list.
    split; [rewrite J, <- !app_assoc; reflexivity|].
    exists (human_retirements t ++ ensured)%list, hid,
      (current_address_id cog_tables).
    split; [reflexivity|].
    rewrite forallb_app, human_retirements_no_cross_link, F. auto.
  - destruct (H1 eq_refl) as [-> ->].
    destruct (A2 eq_refl) as (An & t & ensured & _ & J & F).
    exists ((address_retirements t ++ ensured)
            ++ [link_human_to_address (current_human_id cog_tables) aid
                  (snd roles)])%list.
    split; [rewrite J, <- !app_assoc; reflexivity|].
    exists (address_retirements t ++ ensured)%list,
      (current_human_id cog_tables), aid.
    split; [reflexivity|].
    rewrite forallb_app, address_retirements_no_cross_link, F. auto.
  - destruct (A2 eq_refl) as (An & t & ensured & _ & J & F).
    destruct (H2 eq_refl) as (Hn & t' & ensured' & _ & J' & F').
    exists ((address_retirements t ++ ensured
             ++ human_retirements t' ++ ensured')
            ++ [link_human_to_address hid aid (snd roles)])%list.
    split; [rewrite J', J, <- !app_assoc; reflexivity|].
    exists (address_retirements t ++ ensured
            ++ human_retirements t' ++ ensured')%list, hid, aid.
    split; [reflexivity|].
    rewrite !forallb_app, address_retirements_no_cross_link, F,
      human_retirements_no_cross_link, F'. auto.
Qed.

Lemma _sync_owner_and_mailing_cross_link_witness :
  exists ops,
    journal (snd (_sync_owner_and_mailing
                    {| owner := Some Example.john;
                       mailing := Some Example.main_street |}
                    (Some Example.settled_chain) (233, 235)%Z
                    Example.settled_store))
    = (journal Example.settled_store ++ ops)%list
    /\ exists earlier human_id address_id,
        ops = (earlier ++ [link_human_to_address human_id address_id 235])%list
        /\ forallb (fun o => negb (is_link_human_to_address o)) earlier = true
        /\ human_id <> None
        /\ address_id = Some 1%Z.
Proof.
  exact (_sync_owner_and_mailing_cross_link
           {| owner := Some Example.john;
              mailing := Some Example.main_street |}
           (Some Example.settled_chain) (233, 235)%Z Example.settled_store
           eq_refl).
Defined.

End EngineMore.

Lemma _sync_owner_and_mailing_result_witness :
  let county_data :=
    {| owner := Some Example.john; mailing := Some Example.main_street |} in
  fst (_sync_owner_and_mailing county_data (Some Example.settled_chain)
         (233, 235)%Z Example.settled_store)
  = Return county_data
  /\ engine_completes county_data (Some Example.settled_chain) = true.
Proof.
  cbv zeta.
  set (county_data :=
         {| owner := Some Example.john;
            mailing := Some Example.main_street |}).
  set (run := _sync_owner_and_mailing county_data
                (Some Example.settled_chain) (233, 235)%Z
                Example.settled_store).
  assert (E : run = (Return county_data, snd run))
    by (vm_compute; reflexivity).
  split; [now rewrite E|].
  exact (proj2 (_sync_owner_and_mailing_result county_data
                  (Some Example.settled_chain) (233, 235)%Z
                  Example.settled_store county_data (snd run) E)).
Defined.

(* ===================================================================== *)
(** * Further properties of the selects and of the reader                 *)
(* ===================================================================== *)

Section ReaderMore.

Context `{LinkedObjectRole}.

Lemma scalar_one_filter_Multiple {A : Type} (f : A -> bool) (rows : list A) :
  2 <= List.length (filter f rows) ->
  scalar_one (filter f rows) = Raise MultipleResultsFound.
Proof.
  destruct (filter f rows) as [|x [|y rest]]; simpl; intros Hl;
    [lia|lia|reflexivity].
Qed.

Lemma scalar_one_filter_unique {A : Type} (key : A -> Z) (f : A -> bool)
      (rows : list A) r :
  NoDup (map key rows) ->
  (forall x, f x = true -> key x = key r) ->
  In r rows -> f r = true ->
  scalar_one (filter f rows) = Return r.
Proof.
  intros Hnd Hkey Hin Hr.
  assert (E : filter f rows = [r]); [|now rewrite E].
  induction rows as [|x rows IH]; [contradiction|].
  simpl in Hnd. inversion Hnd as [|? ? Hx Hnd']; subst.
  simpl. destruct Hin as [->|Hin].
  - rewrite Hr. f_equal.
    destruct (filter f rows) as [|y rest] eqn:Ef; [reflexivity|exfalso].
    assert (Hy : In y (filter f rows)) by (rewrite Ef; now left).
    apply filter_In in Hy. destruct Hy as [Hy Fy].
    apply Hx. rewrite <- (Hkey y Fy). now apply in_map.
  - destruct (f x) eqn:Fx; [exfalso|now apply IH].
    apply Hx. rewrite (Hkey x Fx). now apply in_map.
Qed.

(** X7.  Under distinct keys, a lookup by key finds the row: every active
    address, street, city/state/zip and human row of the store is what
    its select returns on the key of the row. *)
Theorem select_by_key_finds_row :
  forall db,
    (forall a,
        NoDup (map MailingAddress.addressid (addresses db)) ->
        In a (addresses db) -> MailingAddress.deactivatedts a = None ->
        select.address db (MailingAddress.addressid a) = Return a)
    /\ (forall s,
          NoDup (map MailingStreet.streetid (streets db)) ->
          In s (streets db) -> MailingStreet.deactivatedts s = None ->
          select.street db (MailingStreet.streetid s) = Return s)
    /\ (forall z,
          NoDup (map MailingCityStateZip.id (city_state_zips db)) ->
          In z (city_state_zips db) ->
          MailingCityStateZip.deactivatedts z = None ->
          select.city_state_zip db (MailingCityStateZip.id z) = Return z)
    /\ (forall h,
          NoDup (map Human.humanid (humans db)) ->
          In h (humans db) -> Human.deactivatedts h = None ->
          select.human db (Some (Human.humanid h)) = Return h).
Proof.
  intros db. repeat split.
  - intros a Hnd Hin Ha. unfold select.address.
    apply (scalar_one_filter_unique MailingAddress.addressid); auto.
    + intros x Fx. apply andb_prop in Fx. now apply Z.eqb_eq, (proj1 Fx).
    + now rewrite Z.eqb_refl, Ha.
  - intros s Hnd Hin Hs. unfold select.street.
    apply (scalar_one_filter_unique MailingStreet.streetid); auto.
    + intros x Fx. apply andb_prop in Fx. now apply Z.eqb_eq, (proj1 Fx).
    + now rewrite Z.eqb_refl, Hs.
  - intros z Hnd Hin Hz. unfold select.city_state_zip.
    apply (scalar_one_filter_unique MailingCityStateZip.id); auto.
    + intros x Fx. apply andb_prop in Fx. now apply Z.eqb_eq, (proj1 Fx).
    + now rewrite Z.eqb_refl, Hz.
  - intros h Hnd Hin Hh. unfold select.human.
    apply (scalar_one_filter_unique Human.humanid); auto.
    + intros x Fx. apply andb_prop in Fx. now apply Z.eqb_eq, (proj1 Fx).
    + cbn [option_eqb]. now rewrite Z.eqb_refl, Hh.
Qed.

(** X8.  [parcels_by_municode] lists the retired parcels of a
    municipality with the active ones, while [select.parcel] returns
    active rows only: on the county id of a parcel listed whose rows are
    all retired it raises [NoResultFound]. *)
Theorem parcels_by_municode_lists_retired :
  forall db r,
    In r (parcels db) ->
    In r (select.parcels_by_municode db (Parcel.muni_municode r))
    /\ (forall found,
          select.parcel db (Parcel.parcelidcnty r) = Return found ->
          Parcel.deactivatedts found = None)
    /\ (~ parcel_exists db (Parcel.parcelidcnty r) ->
        select.parcel db (Parcel.parcelidcnty r) = Raise NoResultFound).
Proof.
  intros db r Hin. repeat split.
  - unfold select.parcels_by_municode. apply filter_In.
    split; [exact Hin|apply Z.eqb_refl].
  - intros found E. unfold select.parcel in E.
    apply scalar_one_filter_Return in E. destruct E as [_ E].
    apply andb_prop in E. destruct E as [_ E].
    now destruct (Parcel.deactivatedts found).
  - apply select_parcel_missing.
Qed.

Lemma chain_of_link_well_linked db l t :
  chain_of_link db l = Return t ->
  chain_well_linked db t /\ CogTables.parcel_address t = Some l.
Proof.
  unfold chain_of_link. intros E.
  destruct (select.address db _) as [a|] eqn:Ea; [|discriminate].
  cbn [obind] in E.
  destruct (select.street db _) as [s|] eqn:Es; [|discriminate].
  cbn [obind] in E.
  destruct (select.city_state_zip db _) as [z|] eqn:Ez; [|discriminate].
  cbn [obind] in E.
  apply scalar_one_filter_Return in Ea, Es, Ez.
  destruct Ea as [Ia Fa], Es as [Is Fs], Ez as [Iz Fz].
  apply andb_prop in Fa, Fs, Fz.
  destruct Fa as [Ka Da], Fs as [Ks Ds], Fz as [Kz Dz].
  apply Z.eqb_eq in Ka, Ks, Kz.
  assert (Na : MailingAddress.deactivatedts a = None)
    by now destruct (MailingAddress.deactivatedts a).
  assert (Ns : MailingStreet.deactivatedts s = None)
    by now destruct (MailingStreet.deactivatedts s).
  assert (Nz : MailingCityStateZip.deactivatedts z = None)
    by now destruct (MailingCityStateZip.deactivatedts z).
  destruct (select.human_mailing_address db (MailingAddress.addressid a))
    as [ha|e] eqn:Eha; cbn [obind] in E.
  - destruct (select.human db (HumanMailingAddress.humanmailing_humanid ha))
      as [h|e] eqn:Eh; cbn [obind] in E.
    + inversion E; subst t; clear E. split; [|reflexivity].
      unfold chain_well_linked. cbn.
      apply scalar_one_filter_Return in Eha, Eh.
      destruct Eha as [Iha Fha], Eh as [Ih Fh].
      apply andb_prop in Fha, Fh.
      destruct Fha as [Kha Dha], Fh as [Kh Dh].
      exists a, s, z. repeat split; auto.
      * now destruct (HumanMailingAddress.deactivatedts ha).
      * destruct (HumanMailingAddress.humanmailing_addressid ha) as [i|];
          [|discriminate].
        cbn in Kha. apply Z.eqb_eq in Kha. now subst i.
      * now destruct (Human.deactivatedts h).
      * destruct (HumanMailingAddress.humanmailing_humanid ha) as [i|];
          [|discriminate].
        cbn in Kh. apply Z.eqb_eq in Kh. now subst i.
    + destruct e; try discriminate.
      inversion E; subst t; clear E. split; [|reflexivity].
      unfold chain_well_linked. cbn. exists a, s, z. repeat split; auto.
  - destruct e; try discriminate.
    inversion E; subst t; clear E. split; [|reflexivity].
    unfold chain_well_linked. cbn. exists a, s, z. repeat split; auto.
Qed.

Lemma all_chains_well_linked db links chains :
  all_chains db links = Return chains ->
  Forall (chain_well_linked db) chains.
Proof.
  revert chains. induction links as [|l links IH]; intros chains E.
  - inversion E. constructor.
  - simpl in E. unfold obind in E.
    destruct (chain_of_link db l) as [t|] eqn:Et; [|discriminate].
    destruct (all_chains db links) as [ts|]; [|discriminate].
    inversion E. constructor; [|now apply IH].
    exact (proj1 (chain_of_link_well_linked _ _ _ Et)).
Qed.

Lemma chain_well_linked_set_parcel db t p :
  chain_well_linked db t ->
  chain_well_linked db (CogTables.set_parcel t p).
Proof. destruct t. exact (fun W => W). Qed.

Lemma chain_well_linked_has_address_tables db t :
  chain_well_linked db t ->
  CogTables.has_address_tables t
  = negb (is_None (CogTables.parcel_address t)).
Proof.
  unfold chain_well_linked, CogTables.has_address_tables.
  destruct (CogTables.parcel_address t).
  - intros (a & s & z & -> & -> & -> & _). reflexivity.
  - intros (-> & -> & -> & _). reflexivity.
Qed.

Lemma get_cog_tables_well_linked db parcel_id current c t :
  get_cog_tables db parcel_id = Return current ->
  context_chain c current = Some t ->
  exists p,
    select.parcel db parcel_id = Return p
    /\ CogTables.parcel t = Some p
    /\ chain_well_linked db t.
Proof.
  intros E Et.
  unfold get_cog_tables, obind in E.
  destruct (select.parcel db parcel_id) as [p0|]; [|discriminate].
  destruct (all_chains db _) as [chains|] eqn:Ec; [|discriminate].
  pose proof (all_chains_parcel_addresses _ _ _ Ec) as Hmap.
  pose proof (all_chains_well_linked _ _ _ Ec) as Hw.
  unfold _match_general, _match_mortgage in E.
  rewrite !(_match_number_first _ _ _ Hmap) in E.
  inversion E; subst current; clear E.
  assert (Hf : forall num,
             chain_well_linked db (or_empty (first_with_role num chains))).
  { intros num. unfold first_with_role.
    match goal with |- context [find ?f ?l] => destruct (find f l) eqn:F end.
    - apply find_some in F. rewrite Forall_forall in Hw.
      exact (Hw _ (proj1 F)).
    - unfold chain_well_linked. cbn. auto. }
  exists p0.
  destruct c; cbn [context_chain general mortgage] in Et;
    inversion Et; subst t;
    (split; [reflexivity|split;
       [reflexivity|apply chain_well_linked_set_parcel, Hf]]).
Qed.

(** X9.  What [get_cog_tables] returns for a context is never [None];
    it carries the parcel selected and no human-to-parcel link; its
    parcel-to-address link is an active link of that parcel under the
    role of the context, or the parcel has none; its rows are those the
    link leads to in the store, all active; and its projection has a
    mailing exactly when it has a link. *)
Theorem get_cog_tables_chain :
  forall db parcel_id current c,
    get_cog_tables db parcel_id = Return current ->
    exists t p,
      context_chain c current = Some t
      /\ select.parcel db parcel_id = Return p
      /\ CogTables.parcel t = Some p
      /\ CogTables.human_parcel t = None
      /\ match CogTables.parcel_address t with
         | Some l =>
             In l (active_links (Parcel.parcelkey p) (context_link_role c) db)
         | None =>
             active_links (Parcel.parcelkey p) (context_link_role c) db = []
         end
      /\ chain_well_linked db t
      /\ (mailing (_cog_tables_to_owner_and_mailing (Some t)) = None
          <-> CogTables.parcel_address t = None).
Proof.
  intros db parcel_id current c E.
  destruct (get_cog_tables_current _ _ _ c E) as (t & Et & p & Hp & Hcur).
  destruct (get_cog_tables_human_parcel _ _ _ c E) as (t' & Et' & Hhp).
  rewrite Et in Et'. inversion Et'; subst t'; clear Et'.
  assert (Hsel : select.parcel db parcel_id = Return p
                 /\ chain_well_linked db t).
  { destruct (get_cog_tables_well_linked _ _ _ c t E Et)
      as (p0 & Hsel & Hp0 & Hw).
    rewrite Hp in Hp0. inversion Hp0; subst p0. now split. }
  destruct Hsel as [Hsel Hw].
  exists t, p. repeat split; auto.
  - intros Hm. unfold _cog_tables_to_owner_and_mailing in Hm.
    cbn [mailing] in Hm.
    rewrite (chain_well_linked_has_address_tables _ _ Hw) in Hm.
    destruct (CogTables.parcel_address t) eqn:El; [|reflexivity].
    cbn in Hm. unfold chain_well_linked in Hw. rewrite El in Hw.
    destruct Hw as (a & s & z & Ea & Es & Ez & _).
    rewrite Ea, Es, Ez in Hm. discriminate.
  - intros El. unfold _cog_tables_to_owner_and_mailing. cbn [mailing].
    rewrite (chain_well_linked_has_address_tables _ _ Hw), El. reflexivity.
Qed.

(** X10.  Two active human-to-address links on one address stop the
    reader: when a link of the parcel leads to such an address, with the
    links before it read, [get_cog_tables] raises
    [MultipleResultsFound]. *)
Theorem get_cog_tables_two_human_links :
  forall db parcel_id p before l after a chains,
    select.parcel db parcel_id = Return p ->
    select.parcel_mailing_addresses db (Parcel.parcelkey p)
    = (before ++ l :: after)%list ->
    all_chains db before = Return chains ->
    address_chain_intact db l a ->
    2 <= List.length (active_human_links (MailingAddress.addressid a) db) ->
    get_cog_tables db parcel_id = Raise MultipleResultsFound.
Proof.
  intros db parcel_id p before l after a chains Ep El Eb (Ea & s & z & Es & Ez)
         Hl.
  unfold get_cog_tables. rewrite Ep. cbn [obind]. rewrite El.
  rewrite (all_chains_stops db before l after chains MultipleResultsFound Eb);
    [reflexivity|].
  unfold chain_of_link. rewrite Ea. cbn [obind]. rewrite Es. cbn [obind].
  rewrite Ez. cbn [obind].
  unfold select.human_mailing_address.
  unfold active_human_links in Hl.
  rewrite (scalar_one_filter_Multiple _ _ Hl). reflexivity.
Qed.

Lemma _match_number_scan num before x after :
  Forall (fun y => exists r, link_role y = Some r /\ r <> num) before ->
  _match_number num (before ++ x :: after)
  = match link_role x with
    | None => Raise AttributeError
    | Some r => if Z.eqb r num then Return (Some x)
                else _match_number num after
    end.
Proof.
  induction 1 as [|y before (r & Ey & Hr) _ IH].
  - simpl. unfold link_role.
    destruct (CogTables.parcel_address x); reflexivity.
  - simpl. unfold link_role in Ey.
    destruct (CogTables.parcel_address y) as [ly|]; [|discriminate].
    inversion Ey; subst r. cbn [attribute obind].
    apply Z.eqb_neq in Hr. rewrite Hr. exact IH.
Qed.

(** X11.  [_match_number] scans the chains in order: it returns the
    first chain whose link is under the role, whatever comes after it; it
    raises [AttributeError] on a chain without link met before one; and
    it returns [None] when every chain has a link under another role. *)
Theorem _match_number_first_match :
  forall num before x after,
    Forall (fun y => exists r, link_role y = Some r /\ r <> num) before ->
    (link_role x = Some num ->
     _match_number num (before ++ x :: after) = Return (Some x))
    /\ (link_role x = None ->
        _match_number num (before ++ x :: after) = Raise AttributeError)
    /\ _match_number num before = Return None.
Proof.
  intros num before x after Hb. repeat split.
  - intros Ex. rewrite (_match_number_scan _ _ _ _ Hb), Ex.
    now rewrite Z.eqb_refl.
  - intros Ex. now rewrite (_match_number_scan _ _ _ _ Hb), Ex.
  - clear x after. induction Hb as [|y before (r & Ey & Hr) _ IH].
    + reflexivity.
    + simpl. unfold link_role in Ey.
      destruct (CogTables.parcel_address y) as [ly|]; [|discriminate].
      inversion Ey; subst r. cbn [attribute obind].
      apply Z.eqb_neq in Hr. rewrite Hr. exact IH.
Qed.

(** X12.  The reader returns no owner without a mailing: in the data
    that [_cog_tables_to_owner_and_mailing] projects from a chain of
    [get_cog_tables], an owner comes with the mailing of the address its
    link leads to, and a chain without link projects to neither. *)
Theorem get_cog_tables_owner_with_mailing :
  forall db parcel_id current c,
    get_cog_tables db parcel_id = Return current ->
    let cog_data := _cog_tables_to_owner_and_mailing (context_chain c current)
    in
    (owner cog_data <> None -> mailing cog_data <> None)
    /\ (current_address_id (context_chain c current) = None ->
        cog_data = {| owner := None; mailing := None |}).
Proof.
  intros db parcel_id current c E.
  destruct (get_cog_tables_current _ _ _ c E) as (t & Et & _).
  destruct (get_cog_tables_well_linked _ _ _ c t E Et) as (p & _ & _ & Hw).
  rewrite Et. cbv zeta. unfold _cog_tables_to_owner_and_mailing.
  cbn [owner mailing current_address_id].
  rewrite (chain_well_linked_has_address_tables _ _ Hw).
  unfold chain_well_linked in Hw.
  destruct (CogTables.parcel_address t) as [l|].
  - destruct Hw as (a & s & z & Ea & Es & Ez & _).
    rewrite Ea, Es, Ez. cbn. split; [discriminate|].
    destruct t; cbn in *. subst. discriminate.
  - destruct Hw as (Ea & Es & Ez & Eh & _). rewrite Eh. cbn.
    split; [congruence|reflexivity].
Qed.

End ReaderMore.

Lemma select_by_key_finds_row_witness :
  select.address Example.settled_store 1 = Return Example.the_address
  /\ select.human Example.settled_store (Some 1%Z) = Return Example.the_human.
Proof.
  destruct (select_by_key_finds_row Example.settled_store)
    as (Ha & _ & _ & Hh).
  split.
  - apply (Ha Example.the_address);
      [repeat constructor; intros []|now left|reflexivity].
  - apply (Hh Example.the_human);
      [repeat constructor; intros []|now left|reflexivity].
Defined.

Lemma parcels_by_municode_lists_retired_witness :
  In RetiredExample.retired_parcel
     (select.parcels_by_municode RetiredExample.town 111)
  /\ select.parcel RetiredExample.town "0004" = Raise NoResultFound.
Proof.
  destruct (parcels_by_municode_lists_retired RetiredExample.town
              RetiredExample.retired_parcel (or_intror (or_introl eq_refl)))
    as (Hl & _ & Hn).
  split; [exact Hl|]. apply Hn.
  intros (r & Hin & Hid & Hd). simpl in Hin.
  destruct Hin as [<-|[<-|[<-|[]]]]; discriminate.
Defined.

Lemma get_cog_tables_chain_witness :
  exists t p,
    Some Example.settled_chain = Some t
    /\ select.parcel Example.settled_store "0001-A-00001" = Return p
    /\ CogTables.parcel t = Some p
    /\ CogTables.human_parcel t = None
    /\ match CogTables.parcel_address t with
       | Some l =>
           In l (active_links (Parcel.parcelkey p) 233 Example.settled_store)
       | None =>
           active_links (Parcel.parcelkey p) 233 Example.settled_store = []
       end
    /\ chain_well_linked Example.settled_store t
    /\ (mailing (_cog_tables_to_owner_and_mailing (Some t)) = None
        <-> CogTables.parcel_address t = None).
Proof.
  exact (@get_cog_tables_chain Example.role_constants Example.settled_store
           "0001-A-00001"
           {| general := Some Example.settled_chain;
              mortgage := Some Example.bare_chain |}
           General eq_refl).
Defined.

Lemma get_cog_tables_two_human_links_witness :
  @get_cog_tables Example.role_constants SameAddressExample.synced_once
    "0001-A-00001"
  = Raise MultipleResultsFound.
Proof.
  apply (@get_cog_tables_two_human_links Example.role_constants
           SameAddressExample.synced_once "0001-A-00001"
           Example.the_parcel [] Example.the_parcel_address
           [ParcelMailingAddress.mk 2 7 1 234 None] Example.the_address []).
  - vm_compute. reflexivity.
  - vm_compute. reflexivity.
  - reflexivity.
  - split; [vm_compute; reflexivity|].
    exists Example.the_street, Example.the_csz.
    split; vm_compute; reflexivity.
  - vm_compute. lia.
Defined.

Lemma _match_number_first_match_witness :
  _match_number 234
    ([Example.settled_chain]
       ++ CogTables.mk (Some Example.the_parcel) (Some Example.the_address)
            (Some (ParcelMailingAddress.mk 2 7 1 234 None))
            (Some Example.the_street) (Some Example.the_csz) None None None
       :: [Example.bare_chain])
  = Return
      (Some (CogTables.mk (Some Example.the_parcel) (Some Example.the_address)
               (Some (ParcelMailingAddress.mk 2 7 1 234 None))
               (Some Example.the_street) (Some Example.the_csz)
               None None None))
  /\ _match_number 234 ([Example.settled_chain] ++ Example.bare_chain :: [])
     = Raise AttributeError.
Proof.
  assert (Hb : Forall (fun y => exists r, link_role y = Some r /\ r <> 234%Z)
                      [Example.settled_chain]).
  { constructor; [|constructor]. exists 233%Z. split; [reflexivity|lia]. }
  split.
  - apply (proj1 (_match_number_first_match 234 [Example.settled_chain]
                    _ [Example.bare_chain] Hb)).
    reflexivity.
  - apply (proj1 (proj2 (_match_number_first_match 234 [Example.settled_chain]
                           Example.bare_chain [] Hb))).
    reflexivity.
Defined.

Lemma get_cog_tables_owner_with_mailing_witness :
  (Some Example.jane <> None -> Some Example.main_street <> None)
  /\ (Some 1%Z = None ->
      {| owner := Some Example.jane; mailing := Some Example.main_street |}
      = {| owner := None; mailing := None |}).
Proof.
  exact (@get_cog_tables_owner_with_mailing Example.role_constants
           Example.settled_store "0001-A-00001"
           {| general := Some Example.settled_chain;
              mortgage := Some Example.bare_chain |}
           General eq_refl).
Defined.

(* ===================================================================== *)
(** * Further properties of the sync of a parcel and of the batch         *)
(* ===================================================================== *)

Section SyncMore.

Context `{ScrapeLayer} `{ParseLayer} `{ReTemplate} `{LinkedObjectRole}.

(** In the model a sync that raises anything but [AttributeError] raises
    it in the scrape or in the reader, before any write. *)
Lemma sync_parcel_data_raises_early parcel_id db e db' :
  sync_parcel_data parcel_id db = (Raise e, db') ->
  e <> AttributeError ->
  db' = db
  /\ (get_parcel_data_from_county parcel_id = Raise e
      \/ get_cog_tables db parcel_id = Raise e).
Proof.
  intros E He. unfold sync_parcel_data in E.
  rewrite bind_unfold in E. unfold lift in E.
  destruct (get_parcel_data_from_county parcel_id) as [county|e0];
    [|inversion E; auto].
  rewrite bind_unfold in E. unfold read in E.
  destruct (get_cog_tables db parcel_id) as [current|e0];
    [|inversion E; auto].
  exfalso. rewrite bind_unfold in E.
  destruct (_sync_owner_and_mailing_cases (gm_general county)
              (general current) general_roles db) as (db1 & E1).
  rewrite E1 in E.
  destruct (engine_completes (gm_general county) (general current));
    [|inversion E; congruence].
  rewrite bind_unfold in E.
  destruct (_sync_owner_and_mailing_cases (gm_mortgage county)
              (mortgage current) mortgage_roles db1) as (db2 & E2).
  rewrite E2 in E.
  destruct (engine_completes (gm_mortgage county) (mortgage current));
    [discriminate|inversion E; congruence].
Qed.

(** X14.  A sync of a parcel whose scrape or whose reader fails raises
    that exception and writes nothing; and a sync that raises
    [HtmlParsingError], the exception on which the batch skips a parcel,
    has written nothing. *)
Theorem sync_parcel_data_failure_leaves_store :
  forall parcel_id db,
    (forall e,
        get_parcel_data_from_county parcel_id = Raise e ->
        sync_parcel_data parcel_id db = (Raise e, db))
    /\ (forall county e,
          get_parcel_data_from_county parcel_id = Return county ->
          get_cog_tables db parcel_id = Raise e ->
          sync_parcel_data parcel_id db = (Raise e, db))
    /\ (forall db',
          sync_parcel_data parcel_id db = (Raise HtmlParsingError, db') ->
          db' = db).
Proof.
  intros parcel_id db. repeat apply conj.
  - intros e E. unfold sync_parcel_data.
    rewrite bind_unfold. unfold lift. now rewrite E.
  - intros county e Ec E. unfold sync_parcel_data.
    rewrite bind_unfold. unfold lift. rewrite Ec.
    rewrite bind_unfold. unfold read. now rewrite E.
  - intros db' E.
    apply (sync_parcel_data_raises_early _ _ _ _ E). discriminate.
Qed.

(** A sync that returns ran to its end. *)
Lemma sync_parcel_data_sync_ran parcel_id db r db' :
  sync_parcel_data parcel_id db = (Return r, db') ->
  sync_ran parcel_id db r db'.
Proof.
  intros E. unfold sync_parcel_data in E.
  rewrite bind_unfold in E. unfold lift in E.
  destruct (get_parcel_data_from_county parcel_id) as [county|e0] eqn:Ec;
    [|discriminate].
  rewrite bind_unfold in E. unfold read in E.
  destruct (get_cog_tables db parcel_id) as [current|e0] eqn:Er;
    [|discriminate].
  destruct (get_cog_tables_current _ _ _ General Er) as (g & Eg & _).
  destruct (get_cog_tables_current _ _ _ Mortgage Er) as (m & Em & _).
  destruct (get_cog_tables_well_linked _ _ _ General g Er Eg)
    as (p & Hsel & Hpg & _).
  destruct (get_cog_tables_well_linked _ _ _ Mortgage m Er Em)
    as (p' & Hsel' & Hpm & _).
  rewrite Hsel in Hsel'. inversion Hsel'; subst p'. clear Hsel'.
  cbn [context_chain] in Eg, Em.
  rewrite bind_unfold in E. rewrite Eg in E.
  destruct (_sync_owner_and_mailing (gm_general county) (Some g)
              general_roles db) as [[out_general|e1] db1] eqn:E1;
    [|discriminate].
  destruct (_sync_owner_and_mailing_reconcile_ran _ _ _ _ _ _ _ Hpg E1)
    as (-> & R1).
  rewrite bind_unfold in E. rewrite Em in E.
  destruct (_sync_owner_and_mailing (gm_mortgage county) (Some m)
              mortgage_roles db1) as [[out_mortgage|e2] db2] eqn:E2;
    [|discriminate].
  destruct (_sync_owner_and_mailing_reconcile_ran _ _ _ _ _ _ _ Hpm E2)
    as (-> & R2).
  cbn in E. inversion E; subst r db'.
  exists county, current, g, m, p, db1.
  repeat (split; [assumption || reflexivity|]). reflexivity.
Qed.

Lemma sync_each_app {A : Type} (sync : string -> M A) before :
  forall rest db outcomes db1 sync_data,
    batch_run sync db before outcomes db1 ->
    forallb completed_or_unparsed outcomes = true ->
    sync_each sync (before ++ rest) sync_data db
    = sync_each sync rest
        {| total := total sync_data + Z.of_nat (List.length before);
           skipped := skipped sync_data ++ unparsed_keys before outcomes |}
        db1.
Proof.
  induction before as [|parcel before IH];
    intros rest db outcomes db1 sync_data B F.
  - inversion B; subst. cbn [app List.length unparsed_keys Z.of_nat].
    rewrite Z.add_0_r, app_nil_r. now destruct sync_data.
  - inversion B as [|? ? ? r db0 rs ? E B']; subst.
    simpl in F. apply andb_prop in F. destruct F as [Fr Frs].
    cbn [app sync_each]. rewrite E.
    destruct r as [a|e].
    + rewrite (IH _ _ _ _ _ B' Frs).
      cbn [total skipped unparsed_keys List.length].
      rewrite Nat2Z.inj_succ. do 2 f_equal. lia.
    + destruct e; try discriminate.
      rewrite (IH _ _ _ _ _ B' Frs).
      cbn [total skipped unparsed_keys List.length].
      rewrite Nat2Z.inj_succ, <- app_assoc. do 2 f_equal. lia.
Qed.

(** X15.  The batch stops at the first parcel whose sync raises anything
    but [HtmlParsingError]: [sync_municipality] raises that exception on
    the store that sync left, the parcels after it are not synced, and
    the count and the skipped keys gathered so far are not returned. *)
Theorem sync_municipality_stops_at_failure :
  forall municode db before parcel after outcomes db1 e db2,
    select_all_parcels_in_municode db municode
    = (before ++ parcel :: after)%list ->
    batch_run sync_parcel_data db before outcomes db1 ->
    forallb completed_or_unparsed outcomes = true ->
    sync_parcel_data (Parcel.parcelidcnty parcel) db1 = (Raise e, db2) ->
    e <> HtmlParsingError ->
    sync_municipality municode db = (Raise e, db2).
Proof.
  intros municode db before parcel after outcomes db1 e db2 El B F E He.
  unfold sync_municipality. rewrite El.
  rewrite (sync_each_app _ _ _ _ _ _ _ B F).
  cbn [sync_each]. rewrite E.
  destruct e; try reflexivity. congruence.
Qed.

Lemma sync_each_invariant {A : Type} (P : Store -> Prop)
      (sync : string -> M A) :
  (forall parcel_id db, P db -> P (snd (sync parcel_id db))) ->
  forall batch sync_data db,
    P db -> P (snd (sync_each sync batch sync_data db)).
Proof.
  intros Hs batch.
  induction batch as [|parcel rest IH]; intros sync_data db Hdb.
  - exact Hdb.
  - cbn [sync_each].
    pose proof (Hs (Parcel.parcelidcnty parcel) db Hdb) as Hdb1.
    destruct (sync (Parcel.parcelidcnty parcel) db) as [[a|e] db1];
      cbn [snd] in Hdb1.
    + now apply IH.
    + destruct e; try exact Hdb1. now apply IH.
Qed.

(** X16.  A batch over a municipality keeps the store well formed,
    however it ends: from a store with at most one active
    parcel-to-address link per parcel and role and distinct link keys,
    with each context linked under the role it is matched on and the two
    contexts matched on different roles, the store left by
    [sync_municipality] has at most one such link and distinct keys. *)
Theorem sync_municipality_keeps_one_link :
  forall municode db,
    roles_agree ->
    GENERAL_HUMAN_MAILING_ADDRESS <> MORTGAGE_HUMAN_MAILING_ADDRESS ->
    at_most_one_active_link db /\ link_keys_distinct db ->
    at_most_one_active_link (snd (sync_municipality municode db))
    /\ link_keys_distinct (snd (sync_municipality municode db)).
Proof.
  intros municode db Hroles Hdiff Hdb. unfold sync_municipality.
  apply (sync_each_invariant
           (fun db => at_most_one_active_link db /\ link_keys_distinct db));
    [|exact Hdb].
  intros parcel_id db0 Hdb0. now apply sync_parcel_data_keeps_one_link.
Qed.

(** The steps of a run in which every sync returns or raises
    [HtmlParsingError]. *)
Lemma batch_run_steps batch :
  forall db outcomes db',
    batch_run sync_parcel_data db batch outcomes db' ->
    forallb completed_or_unparsed outcomes = true ->
    batch_steps db batch outcomes.
Proof.
  induction batch as [|parcel rest IH]; intros db outcomes db' B F.
  - inversion B; subst. constructor.
  - inversion B as [|? ? ? r db1 rs ? E B']; subst.
    simpl in F. apply andb_prop in F. destruct F as [Fr Frs].
    destruct r as [a|e].
    + apply (steps_synced db parcel rest a db1 rs).
      * now apply sync_parcel_data_sync_ran.
      * now rewrite E.
      * exact (IH _ _ _ B' Frs).
    + destruct e; try discriminate.
      destruct (sync_parcel_data_raises_early _ _ _ _ E) as [-> _];
        [discriminate|].
      apply steps_skipped. exact (IH _ _ _ B' Frs).
Qed.

(** C9, amended.  In a batch over the parcels of a municipality in which
    every sync returns or raises [HtmlParsingError],
    [sync_municipality] returns with the number of parcels as [total] and
    the keys of exactly the parcels whose sync raised
    [HtmlParsingError] as [skipped]; a sync that raised
    [HtmlParsingError] left the store as it found it; and for every other
    parcel the sync ran to its end on the store left by the parcels
    before it: the scrape and the reader returned, and the reconcile of
    the general and then of the mortgage context made the calls of the
    specification for each changed side.  No [HtmlParsingError] leaves
    the batch. *)
Theorem sync_municipality_skips_and_reconciles :
  forall municode db,
    let batch := select_all_parcels_in_municode db municode in
    (forall outcomes db',
        batch_run sync_parcel_data db batch outcomes db' ->
        forallb completed_or_unparsed outcomes = true ->
        sync_municipality municode db
        = (Return {| total := Z.of_nat (List.length batch);
                     skipped := unparsed_keys batch outcomes |}, db')
        /\ batch_steps db batch outcomes)
    /\ (forall e db',
          sync_municipality municode db = (Raise e, db') ->
          e <> HtmlParsingError).
Proof.
  intros municode db batch. split.
  - intros outcomes db' B F. split.
    + unfold sync_municipality. fold batch.
      now rewrite (sync_each_counts _ _ _ _ _ _ B F).
    + exact (batch_run_steps _ _ _ _ B F).
  - intros e db' E. unfold sync_municipality in E.
    exact (sync_each_not_aborted _ _ _ _ _ _ E).
Qed.

End SyncMore.

Lemma sync_parcel_data_failure_leaves_store_witness :
  @sync_parcel_data BatchExample.scrape_layer BatchExample.parse_layer
    Example.re_template Example.role_constants "0002" BatchExample.town
  = (Raise HtmlParsingError, BatchExample.town)
  /\ @sync_parcel_data BatchExample.scrape_layer BatchExample.parse_layer
       Example.re_template Example.role_constants "0004" RetiredExample.town
     = (Raise NoResultFound, RetiredExample.town).
Proof.
  split.
  - apply (proj1 (@sync_parcel_data_failure_leaves_store
                    BatchExample.scrape_layer BatchExample.parse_layer
                    Example.re_template Example.role_constants "0002"
                    BatchExample.town)).
    vm_compute. reflexivity.
  - apply (proj1 (proj2 (@sync_parcel_data_failure_leaves_store
                           BatchExample.scrape_layer BatchExample.parse_layer
                           Example.re_template Example.role_constants "0004"
                           RetiredExample.town))
             {| gm_general := {| owner := Some Example.jane;
                                 mailing := None |};
                gm_mortgage := {| owner := Some Example.jane;
                                  mailing := None |} |}).
    + vm_compute. reflexivity.
    + vm_compute. reflexivity.
Defined.

Lemma sync_municipality_stops_at_failure_witness :
  exists db2,
    @sync_municipality BatchExample.scrape_layer BatchExample.parse_layer Example.re_template
      Example.role_constants 111 RetiredExample.town
    = (Raise NoResultFound, db2)
    /\ parcels db2 = parcels RetiredExample.town
    /\ List.length (humans db2) = 1%nat.
Proof.
  pose (synced :=
          @Return GeneralAndMortgage
            {| gm_general := {| owner := Some Example.jane; mailing := None |};
               gm_mortgage := {| owner := Some Example.jane; mailing := None |} |}).
  pose (db1 := snd (@sync_parcel_data BatchExample.scrape_layer
                      BatchExample.parse_layer Example.re_template Example.role_constants
                      "0001" RetiredExample.town)).
  exists db1. split; [|split; vm_compute; reflexivity].
  apply (@sync_municipality_stops_at_failure
           BatchExample.scrape_layer BatchExample.parse_layer Example.re_template
           Example.role_constants 111 RetiredExample.town
           [Parcel.mk 1 "0001" 111 None] RetiredExample.retired_parcel
           [Parcel.mk 3 "0003" 111 None] [synced] db1 NoResultFound db1).
  - reflexivity.
  - eapply batch_next; [vm_compute; reflexivity|apply batch_done].
  - reflexivity.
  - vm_compute. reflexivity.
  - discriminate.
Defined.

Lemma sync_municipality_keeps_one_link_witness :
  at_most_one_active_link
    (snd (@sync_municipality SameAddressExample.scrape_layer
            SameAddressExample.parse_layer Example.re_template Example.role_constants
            111 Example.bare_store))
  /\ link_keys_distinct
       (snd (@sync_municipality SameAddressExample.scrape_layer
               SameAddressExample.parse_layer Example.re_template Example.role_constants
               111 Example.bare_store)).
Proof.
  apply (@sync_municipality_keeps_one_link SameAddressExample.scrape_layer
           SameAddressExample.parse_layer Example.re_template Example.role_constants
           111 Example.bare_store).
  - intros []; reflexivity.
  - discriminate.
  - split; [intros k r; simpl; lia|constructor].
Defined.

(** C9, as stated, fails.  In a municipality whose second parcel cannot
    be parsed and whose third parcel is retired, the batch raises
    [NoResultFound]: no total and no skipped keys are reported and the
    fourth parcel is not synced.  And in the batch of three parcels of
    which the second cannot be parsed, the result is total 3 and skipped
    key 2, yet the first parcel, scraped with the owner JANE DOE, reads
    back without owner. *)
Lemma sync_municipality_retired_parcel_aborts :
  let mixed :=
    @sync_municipality BatchExample.scrape_layer BatchExample.parse_layer
      Example.re_template Example.role_constants 111 MixedExample.town in
  let three :=
    @sync_municipality BatchExample.scrape_layer BatchExample.parse_layer
      Example.re_template Example.role_constants 111 BatchExample.town in
  fst mixed = Raise NoResultFound
  /\ forallb (fun l => negb (Z.eqb (HumanParcel.parcel_parcelkey l) 3))
       (human_parcels (snd mixed)) = true
  /\ fst three = Return {| total := 3; skipped := [2%Z] |}
  /\ @get_parcel_data_from_county BatchExample.scrape_layer
       BatchExample.parse_layer Example.re_template "0001"
     = Return {| gm_general := {| owner := Some Example.jane;
                                  mailing := None |};
                 gm_mortgage := {| owner := Some Example.jane;
                                   mailing := None |} |}
  /\ (current <- @get_cog_tables Example.role_constants (snd three) "0001" ;;
      Return (_cog_tables_to_owner_and_mailing (general current),
              _cog_tables_to_owner_and_mailing (mortgage current)))%outcome
     = Return ({| owner := None; mailing := None |},
               {| owner := None; mailing := None |}).
Proof.
  cbv zeta. repeat split; vm_compute; reflexivity.
Qed.

Lemma sync_municipality_skips_and_reconciles_witness :
  let synced :=
    {| gm_general := {| owner := Some Example.jane; mailing := None |};
       gm_mortgage := {| owner := Some Example.jane; mailing := None |} |} in
  exists db',
    @sync_municipality BatchExample.scrape_layer BatchExample.parse_layer
      Example.re_template Example.role_constants 111 BatchExample.town
    = (Return {| total := 3; skipped := [2%Z] |}, db')
    /\ @batch_steps BatchExample.scrape_layer BatchExample.parse_layer
         Example.re_template Example.role_constants BatchExample.town
         [Parcel.mk 1 "0001" 111 None; Parcel.mk 2 "0002" 111 None;
          Parcel.mk 3 "0003" 111 None]
         [Return synced; Raise HtmlParsingError; Return synced].
Proof.
  cbv zeta.
  set (synced :=
         {| gm_general := {| owner := Some Example.jane; mailing := None |};
            gm_mortgage := {| owner := Some Example.jane;
                              mailing := None |} |}).
  eexists.
  refine (proj1 (@sync_municipality_skips_and_reconciles
                   BatchExample.scrape_layer BatchExample.parse_layer
                   Example.re_template Example.role_constants 111
                   BatchExample.town)
            [Return synced; Raise HtmlParsingError; Return synced]
            _ _ eq_refl).
  eapply batch_next; [vm_compute; reflexivity|].
  eapply batch_next; [vm_compute; reflexivity|].
  eapply batch_next; [vm_compute; reflexivity|].
  apply batch_done.
Defined.

(* ===================================================================== *)
(** * Further properties of the selects by attributes                     *)
(* ===================================================================== *)

Section SelectMore.

Lemma is_None_true {A : Type} (x : option A) : is_None x = true -> x = None.
Proof. now destruct x. Qed.

Lemma two_in_length {A : Type} (x y : A) (rows : list A) :
  In x rows -> In y rows -> x <> y -> 2 <= List.length rows.
Proof.
  destruct rows as [|a [|b rest]]; simpl; intros Hx Hy Hne;
    [contradiction| |lia].
  destruct Hx as [<-|[]], Hy as [<-|[]]. congruence.
Qed.

(** X17.  [select.parcel_mailing_address] does not look at the role: the
    link it returns is an active link of the parcel to the address, one
    of those [select.parcel_mailing_addresses] lists; and it raises
    [MultipleResultsFound] for a parcel with active links to the address
    under two roles. *)
Theorem parcel_mailing_address_ignores_role :
  forall db parcel_key address_id,
    (forall l,
        select.parcel_mailing_address db parcel_key address_id = Return l ->
        In l (select.parcel_mailing_addresses db parcel_key)
        /\ In l (active_links parcel_key
                   (ParcelMailingAddress.linkedobjectrole_lorid l) db)
        /\ ParcelMailingAddress.mailingaddress_addressid l = address_id)
    /\ (forall r1 r2 l1 l2,
          In l1 (active_links parcel_key r1 db) ->
          In l2 (active_links parcel_key r2 db) ->
          r1 <> r2 ->
          ParcelMailingAddress.mailingaddress_addressid l1 = address_id ->
          ParcelMailingAddress.mailingaddress_addressid l2 = address_id ->
          select.parcel_mailing_address db parcel_key address_id
          = Raise MultipleResultsFound).
Proof.
  intros db parcel_key address_id. split.
  - intros l E. unfold select.parcel_mailing_address in E.
    apply scalar_one_filter_Return in E. destruct E as [Hin F].
    apply andb_prop in F. destruct F as [F Fd].
    apply andb_prop in F. destruct F as [Fk Fa].
    repeat split.
    + unfold select.parcel_mailing_addresses. apply filter_In.
      now rewrite Fk, Fd.
    + unfold active_links, is_active_link. apply filter_In.
      now rewrite Fk, Fd, Z.eqb_refl.
    + now apply Z.eqb_eq.
  - intros r1 r2 l1 l2 H1 H2 Hne A1 A2.
    unfold active_links, is_active_link in H1, H2.
    apply filter_In in H1, H2. destruct H1 as [I1 F1], H2 as [I2 F2].
    apply andb_prop in F1, F2. destruct F1 as [F1 D1], F2 as [F2 D2].
    apply andb_prop in F1, F2. destruct F1 as [K1 R1], F2 as [K2 R2].
    apply Z.eqb_eq in R1, R2.
    unfold select.parcel_mailing_address.
    apply scalar_one_filter_Multiple.
    apply (two_in_length l1 l2).
    + apply filter_In. rewrite K1, D1, A1, Z.eqb_refl. auto.
    + apply filter_In. rewrite K2, D2, A2, Z.eqb_refl. auto.
    + intros ->. congruence.
Qed.

(** X18.  A row found by its attributes is the row found by its key,
    under distinct keys: what [select._address], [select._street],
    [select._city_state_zip] and [select._human] return carries the
    attributes asked for, and [select.address], [select.street],
    [select.city_state_zip] and [select.human] return the same row on its
    key. *)
Theorem select_by_attributes_agrees_with_key :
  forall db,
    (forall street_id number attn secondary a,
        NoDup (map MailingAddress.addressid (addresses db)) ->
        select._address db street_id number attn secondary = Return a ->
        select.address db (MailingAddress.addressid a) = Return a
        /\ MailingAddress.street_streetid a = street_id
        /\ MailingAddress.bldgno a = number
        /\ MailingAddress.attention a = attn
        /\ MailingAddress.secondary a = secondary)
    /\ (forall city_state_zip_id street_name is_pobox s,
          NoDup (map MailingStreet.streetid (streets db)) ->
          select._street db city_state_zip_id street_name is_pobox = Return s ->
          select.street db (MailingStreet.streetid s) = Return s
          /\ MailingStreet.citystatezip_cszipid s = city_state_zip_id
          /\ MailingStreet.name s = street_name
          /\ MailingStreet.pobox s = is_pobox)
    /\ (forall city state zip_ z,
          NoDup (map MailingCityStateZip.id (city_state_zips db)) ->
          select._city_state_zip db city state zip_ = Return z ->
          select.city_state_zip db (MailingCityStateZip.id z) = Return z
          /\ MailingCityStateZip.city z = city
          /\ MailingCityStateZip.state_abbr z = state
          /\ MailingCityStateZip.zip_code z = zip_)
    /\ (forall name is_multi_entity h,
          NoDup (map Human.humanid (humans db)) ->
          select._human db name is_multi_entity = Return h ->
          select.human db (Some (Human.humanid h)) = Return h
          /\ Human.name h = name
          /\ Human.multihuman h = is_multi_entity).
Proof.
  intros db. repeat apply conj.
  - intros street_id number attn secondary a Hnd E.
    unfold select._address in E.
    apply scalar_one_filter_Return in E. destruct E as [Hin F].
    apply andb_prop in F. destruct F as [F Fd].
    apply andb_prop in F. destruct F as [F Fs].
    apply andb_prop in F. destruct F as [F Fa].
    apply andb_prop in F. destruct F as [Fk Fn].
    repeat split.
    + unfold select.address.
      apply (scalar_one_filter_unique MailingAddress.addressid); auto.
      * intros x Fx. apply andb_prop in Fx.
        now apply Z.eqb_eq, (proj1 Fx).
      * now rewrite Z.eqb_refl, Fd.
    + now apply Z.eqb_eq.
    + now apply String.eqb_eq.
    + apply (option_eqb_eq String.eqb); [|exact Fa].
      intros x y. apply String.eqb_eq.
    + apply (option_eqb_eq String.eqb); [|exact Fs].
      intros x y. apply String.eqb_eq.
  - intros city_state_zip_id street_name is_pobox s Hnd E.
    unfold select._street in E.
    apply scalar_one_filter_Return in E. destruct E as [Hin F].
    apply andb_prop in F. destruct F as [F Fd].
    apply andb_prop in F. destruct F as [F Fp].
    apply andb_prop in F. destruct F as [Fk Fn].
    repeat split.
    + unfold select.street.
      apply (scalar_one_filter_unique MailingStreet.streetid); auto.
      * intros x Fx. apply andb_prop in Fx.
        now apply Z.eqb_eq, (proj1 Fx).
      * now rewrite Z.eqb_refl, Fd.
    + now apply Z.eqb_eq.
    + now apply String.eqb_eq.
    + now apply Bool.eqb_prop.
  - intros city state zip_ z Hnd E.
    unfold select._city_state_zip in E.
    apply scalar_one_filter_Return in E. destruct E as [Hin F].
    apply andb_prop in F. destruct F as [F Fd].
    apply andb_prop in F. destruct F as [F Fz].
    apply andb_prop in F. destruct F as [Fc Fs].
    repeat split.
    + unfold select.city_state_zip.
      apply (scalar_one_filter_unique MailingCityStateZip.id); auto.
      * intros x Fx. apply andb_prop in Fx.
        now apply Z.eqb_eq, (proj1 Fx).
      * now rewrite Z.eqb_refl, Fd.
    + now apply String.eqb_eq.
    + now apply String.eqb_eq.
    + now apply String.eqb_eq.
  - intros name is_multi_entity h Hnd E.
    unfold select._human in E.
    apply scalar_one_filter_Return in E. destruct E as [Hin F].
    apply andb_prop in F. destruct F as [F Fd].
    apply andb_prop in F. destruct F as [Fn Fm].
    repeat split.
    + unfold select.human.
      apply (scalar_one_filter_unique Human.humanid); auto.
      * intros x Fx. apply andb_prop in Fx.
        now apply Z.eqb_eq, (proj1 Fx).
      * cbn [option_eqb]. now rewrite Z.eqb_refl, Fd.
    + now apply String.eqb_eq.
    + now apply Bool.eqb_prop.
Qed.

End SelectMore.

Lemma parcel_mailing_address_ignores_role_witness :
  select.parcel_mailing_address SameAddressExample.synced_once 7 1
  = Raise MultipleResultsFound.
Proof.
  apply (proj2 (parcel_mailing_address_ignores_role
                  SameAddressExample.synced_once 7 1)
           233%Z 234%Z Example.the_parcel_address
           (ParcelMailingAddress.mk 2 7 1 234 None)).
  - vm_compute. auto.
  - vm_compute. auto.
  - discriminate.
  - reflexivity.
  - reflexivity.
Defined.

Lemma select_by_attributes_agrees_with_key_witness :
  select.address Example.settled_store 1 = Return Example.the_address
  /\ MailingAddress.street_streetid Example.the_address = 1%Z
  /\ MailingAddress.bldgno Example.the_address = "123"
  /\ MailingAddress.attention Example.the_address = None
  /\ MailingAddress.secondary Example.the_address = None.
Proof.
  apply (proj1 (select_by_attributes_agrees_with_key Example.settled_store)
           1%Z "123" None None Example.the_address).
  - repeat constructor. intros [].
  - reflexivity.
Defined.
